(** * praw-data-mining: the collector (async_headphone_scraper.py) and the
      analyzer's loader (nu_eta/visualization.py), embedded and verified.

    The development follows the two scripts:
    - [Py]        the few Python notions both scripts rely on (exceptions
                  and their propagation, decimal printing);
    - [TimeConv]  [convert_utc_to_vietnam_time] with the datetime / zoneinfo
                  operations it calls;
    - [Json]      the values the scripts build, and [json] as an interface;
    - [Scraper]   [scrape_subreddit]: the traversal, the two accumulators and
                  the writer, run against a scripted forum client and a file
                  system;
    - [Analyzer]  [load_jsonl];
    - [Visualization]  the statements of the analyzer below [load_jsonl]:
                  the loading of the two files, the four guarded
                  visualizations and the count of the words of the titles;
                  what pandas and matplotlib draw is an interface;
    - [RefJson]   an executable implementation of the [json] interface;
    - [Example]   a small forum to run the scripts on.

    The properties follow the definitions. *)

From Stdlib Require Import ZArith Lia String Ascii List Bool Sorted Permutation.
From stdpp Require Import base option list strings gmap.

Local Open Scope string_scope.
Local Open Scope list_scope.
Local Open Scope Z_scope.

(* ===================================================================== *)
(** ** Python notions shared by both scripts                              *)
(* ===================================================================== *)

Module Py.

(** The exception classes that the two scripts can meet. *)
Inductive exc : Type :=
| ValueError
| OverflowError
| RedditAPIException (msg : string)
| OtherClientError (msg : string)
| JSONDecodeError
| FileNotFoundError
| RecursionError
| UnicodeDecodeError.

(** Outcome of a call that either returns or raises. *)
Inductive result (A : Type) : Type :=
| Ok (a : A)
| Raise (e : exc).
Arguments Ok {A} a.
Arguments Raise {A} e.

(** Sequencing: an exception raised by [r] propagates. *)
#[global] Instance result_ret : MRet result := fun A a => Ok a.
#[global] Instance result_bind : MBind result := fun A B k r =>
  match r with
  | Ok a => k a
  | Raise e => Raise e
  end.

Definition is_ok {A} (r : result A) : bool :=
  match r with Ok _ => true | Raise _ => false end.

(** [str(n)] for an integer. *)
Definition digit_char (d : Z) : ascii := ascii_of_nat (48 + Z.to_nat d).

Fixpoint str_digits (fuel : nat) (n : Z) (acc : string) : string :=
  match fuel with
  | O => acc
  | S fuel' =>
      let acc' := String (digit_char (n mod 10)) acc in
      if n <? 10 then acc' else str_digits fuel' (n / 10) acc'
  end.

Definition str_nat (n : Z) : string :=
  str_digits (S (Z.to_nat (Z.log2 n))) n "".

Definition str_int (n : Z) : string :=
  if n <? 0 then String "-" (str_nat (- n)) else str_nat n.

(** A two-digit, zero-padded field ([%02d]). *)
Definition pad2 (n : Z) : string :=
  String (digit_char (n / 10)) (String (digit_char (n mod 10)) "").

Definition is_digit (c : ascii) : bool :=
  ((48 <=? nat_of_ascii c) && (nat_of_ascii c <=? 57))%nat.

Definition LF : ascii := ascii_of_nat 10.
Definition CR : ascii := ascii_of_nat 13.

End Py.

Import Py.

(* ===================================================================== *)
(** ** Time conversion                                                    *)
(* ===================================================================== *)

Module TimeConv.

(** *** datetime: the proleptic Gregorian calendar *)

Definition MINYEAR : Z := 1.
Definition MAXYEAR : Z := 9999.

(** Civil date of a day count relative to 1970-01-01. *)
Definition days_to_civil (days : Z) : Z * Z * Z :=
  let z := days + 719468 in
  let era := z / 146097 in
  let doe := z - era * 146097 in
  let yoe := (doe - doe / 1460 + doe / 36524 - doe / 146096) / 365 in
  let doy := doe - (365 * yoe + yoe / 4 - yoe / 100) in
  let mp := (5 * doy + 2) / 153 in
  let d := doy - (153 * mp + 2) / 5 + 1 in
  let m := if mp <? 10 then mp + 3 else mp - 9 in
  let y := yoe + era * 400 in
  (if m <=? 2 then y + 1 else y, m, d).

(** *** zoneinfo: a zone is its transition table *)

Record ttinfo : Type := { utcoff : Z; tzname : string }.

Record ZoneInfo : Type := {
  tti_before : ttinfo;
  trans_list_utc : list (Z * ttinfo);
  tz_after : ttinfo
}.

(** The entry of the last transition that is not after [ts]. *)
Fixpoint last_trans (cur : ttinfo) (l : list (Z * ttinfo)) (ts : Z) : ttinfo :=
  match l with
  | [] => cur
  | (at_, tti) :: l' => if ts <? at_ then cur else last_trans tti l' ts
  end.

Definition find_trans (tz : ZoneInfo) (ts : Z) : ttinfo :=
  match trans_list_utc tz with
  | [] => tz_after tz
  | (first, _) :: _ =>
      if ts <? first then tti_before tz
      else match last (trans_list_utc tz) with
           | Some (final, _) =>
               if final <? ts then tz_after tz
               else last_trans (tti_before tz) (trans_list_utc tz) ts
           | None => tz_after tz
           end
  end.

(** An aware datetime: wall-clock fields and the zone entry in force. *)
Record datetime : Type := {
  year : Z; month : Z; day : Z;
  hour : Z; minute : Z; second : Z;
  instant : Z;
  tti : ttinfo
}.

(** Wall-clock fields of [ts] seconds after the epoch shifted by [tti]. *)
Definition wall_clock (ts : Z) (tti : ttinfo) : datetime :=
  let loc := ts + utcoff tti in
  let '(y, m, d) := days_to_civil (loc / 86400) in
  let sod := loc mod 86400 in
  {| year := y; month := m; day := d;
     hour := sod / 3600; minute := (sod mod 3600) / 60; second := sod mod 60;
     instant := ts; tti := tti |}.

Definition in_range (dt : datetime) : bool :=
  (MINYEAR <=? year dt) && (year dt <=? MAXYEAR).

Definition UTC : ZoneInfo :=
  {| tti_before := {| utcoff := 0; tzname := "UTC" |};
     trans_list_utc := [];
     tz_after := {| utcoff := 0; tzname := "UTC" |} |}.

(** [datetime.fromtimestamp(ts, tz=tz)] *)
Definition fromtimestamp (ts : Z) (tz : ZoneInfo) : result datetime :=
  let dt := wall_clock ts (find_trans tz ts) in
  if in_range dt then Ok dt else Raise ValueError.

(** [dt.astimezone(tz)] *)
Definition astimezone (dt : datetime) (tz : ZoneInfo) : result datetime :=
  let dt' := wall_clock (instant dt) (find_trans tz (instant dt)) in
  if in_range dt' then Ok dt' else Raise OverflowError.

(** [dt.strftime("%Y-%m-%d %H:%M:%S %Z")]; [%Y] is the year in decimal,
    the other numeric fields are two digits wide. *)
Definition strftime (dt : datetime) : string :=
  str_int (year dt) +:+ "-" +:+ pad2 (month dt) +:+ "-" +:+ pad2 (day dt)
  +:+ " " +:+ pad2 (hour dt) +:+ ":" +:+ pad2 (minute dt) +:+ ":"
  +:+ pad2 (second dt) +:+ " " +:+ tzname (tti dt).

(** Whether a text reads [YYYY-MM-DD HH:MM:SS <zone-abbreviation>]. *)
Definition timestamp_shape (s : string) : bool :=
  match s with
  | String y1 (String y2 (String y3 (String y4 (String "-"
    (String m1 (String m2 (String "-"
    (String d1 (String d2 (String " "
    (String h1 (String h2 (String ":"
    (String n1 (String n2 (String ":"
    (String s1 (String s2 (String " "
    (String z _)))))))))))))))))))) =>
      forallb is_digit [y1; y2; y3; y4; m1; m2; d1; d2; h1; h2; n1; n2; s1; s2]
      && negb (Ascii.eqb z " ")
  | _ => false
  end.

Section Conversion.

(** What the key passed to [ZoneInfo] resolves to in the tz database. *)
Variable vietnam_tz : ZoneInfo.

(** The body of [convert_utc_to_vietnam_time], for any resolution of the
    zone key. *)
Definition convert_utc_to_zone (utc_timestamp : Z) : result string :=
  utc_datetime ← fromtimestamp utc_timestamp UTC;
  vietnam_datetime ← astimezone utc_datetime vietnam_tz;
  Ok (strftime vietnam_datetime).

End Conversion.

Definition tt_ (off : Z) (name : string) : ttinfo :=
  {| utcoff := off; tzname := name |}.

(** The tz database entry for Asia/Ho_Chi_Minh (the table is data of the
    tz database, not of this repository): local mean time, then +07 from
    1911, with the +08 and +09 periods of 1943-1975; +07 ever since
    1975-06-12 16:00:00 UTC. *)
Definition Asia_Ho_Chi_Minh : ZoneInfo :=
  {| tti_before := tt_ 25590 "LMT";
     trans_list_utc :=
       [ (-2004073590, tt_ 25590 "PLMT");
         (-1851577590, tt_ 25200 "+07");
         (-852105600, tt_ 28800 "+08");
         (-782643600, tt_ 32400 "+09");
         (-767869200, tt_ 25200 "+07");
         (-718095600, tt_ 28800 "+08");
         (-457772400, tt_ 25200 "+07");
         (-315648000, tt_ 28800 "+08");
         (171820800, tt_ 25200 "+07") ];
     tz_after := tt_ 25200 "+07" |}.

(** [convert_utc_to_vietnam_time]: the body above with the zone the
    script names, [ZoneInfo("Asia/Ho_Chi_Minh")]. *)
Definition convert_utc_to_vietnam_time (utc_timestamp : Z) : result string :=
  convert_utc_to_zone Asia_Ho_Chi_Minh utc_timestamp.

(** *** What the result is to be: the wall clock of the instant *)

(** These follow the words of the specification, not the code: the
    proleptic Gregorian calendar by its rules, the offsets of the zone
    period by period, and decimal fields of a fixed width. *)

Definition is_leap (y : Z) : bool :=
  ((y mod 4 =? 0) && negb (y mod 100 =? 0)) || (y mod 400 =? 0).

Definition days_in_month (y m : Z) : Z :=
  if m =? 2 then (if is_leap y then 29 else 28)
  else if (m =? 4) || (m =? 6) || (m =? 9) || (m =? 11) then 30
  else 31.

(** Days from 0001-01-01 to the first day of year [y]. *)
Definition days_before_year (y : Z) : Z :=
  365 * (y - 1) + (y - 1) / 4 - (y - 1) / 100 + (y - 1) / 400.

(** Days from the first day of year [y] to the first day of its month
    [m]. *)
Definition days_before_month (y m : Z) : Z :=
  fold_right Z.add 0
    (map (fun k => days_in_month y (Z.of_nat k)) (seq 1 (Z.to_nat (m - 1)))).

(** The day count of a date, relative to 1970-01-01. *)
Definition days_from_civil (y m d : Z) : Z :=
  days_before_year y + days_before_month y m + (d - 1) - 719162.

(** The offset and the abbreviation in force in Vietnam at an instant. *)
Definition vietnam_zone (t : Z) : ttinfo :=
  if t <? -2004073590 then tt_ 25590 "LMT"
  else if t <? -1851577590 then tt_ 25590 "PLMT"
  else if t <? -852105600 then tt_ 25200 "+07"
  else if t <? -782643600 then tt_ 28800 "+08"
  else if t <? -767869200 then tt_ 32400 "+09"
  else if t <? -718095600 then tt_ 25200 "+07"
  else if t <? -457772400 then tt_ 28800 "+08"
  else if t <? -315648000 then tt_ 25200 "+07"
  else if t <? 171820800 then tt_ 28800 "+08"
  else tt_ 25200 "+07".

(** A number in [width] decimal digits, with leading zeros. *)
Definition decimal_digit (d : Z) : ascii := ascii_of_nat (48 + Z.to_nat d).

Fixpoint decimal (width : nat) (v : Z) : string :=
  match width with
  | O => ""
  | S width' => decimal width' (v / 10) +:+ String (decimal_digit (v mod 10)) ""
  end.

(** [YYYY-MM-DD HH:MM:SS <zone-abbreviation>] *)
Definition timestamp_text (y m d h mi s : Z) (abbreviation : string) : string :=
  decimal 4 y +:+ "-" +:+ decimal 2 m +:+ "-" +:+ decimal 2 d +:+ " "
  +:+ decimal 2 h +:+ ":" +:+ decimal 2 mi +:+ ":" +:+ decimal 2 s
  +:+ " " +:+ abbreviation.

(** The epoch values whose wall clock in Vietnam lies in the years 1000
    to 9999: from 1000-01-01 00:00:00 local mean time to 9999-12-31
    23:59:59 +07. *)
Definition four_digit_epoch (t : Z) : Prop :=
  -30610249590 <= t <= 253402275599.

(** The instants that the conversion accepts: from the first second of
    year 1 on the UTC clock to the last second of year 9999 on the wall
    clock of the zone. *)
Definition convertible (t : Z) : Prop := -62135596800 <= t <= 253402275599.

End TimeConv.

Import TimeConv.


(* ===================================================================== *)
(** ** Python values and the json interface                               *)
(* ===================================================================== *)

Module Json.

(** The values the two scripts build and exchange through the files.
    A dict keeps its items in insertion order.  [PyFloat n] is the float
    of whole value [n]: the forum reports [created_utc] as a float that
    holds a whole number of seconds. *)
#[warnings="-register-all"]
Inductive pyval : Type :=
| PyNone
| PyBool (b : bool)
| PyInt (n : Z)
| PyFloat (n : Z)
| PyStr (s : string)
| PyList (items : list pyval)
| PyDict (items : list (string * pyval)).

(** [d[k]] *)
Fixpoint assoc (k : string) (kv : list (string * pyval)) : option pyval :=
  match kv with
  | [] => None
  | (k', v) :: kv' => if String.eqb k k' then Some v else assoc k kv'
  end.

Definition getitem (d : pyval) (k : string) : option pyval :=
  match d with
  | PyDict kv => assoc k kv
  | _ => None
  end.

(** [d[k].append(x)] *)
Fixpoint assoc_append (k : string) (x : pyval) (kv : list (string * pyval))
  : list (string * pyval) :=
  match kv with
  | [] => []
  | (k', v) :: kv' =>
      if String.eqb k k' then
        match v with
        | PyList l => (k', PyList (l ++ [x])) :: kv'
        | _ => (k', v) :: kv'
        end
      else (k', v) :: assoc_append k x kv'
  end.

Definition getitem_append (d : pyval) (k : string) (x : pyval) : pyval :=
  match d with
  | PyDict kv => PyDict (assoc_append k x kv)
  | _ => d
  end.

(** The list held under key [k] ([[]] when there is none). *)
Definition list_at (d : pyval) (k : string) : list pyval :=
  match getitem d k with
  | Some (PyList l) => l
  | _ => []
  end.

(** A Python dict has no two items with one key: a well-formed value
    has pairwise distinct keys in every dict. *)
Fixpoint distinct_keys (v : pyval) : Prop :=
  match v with
  | PyList l => fold_right (fun x acc => distinct_keys x /\ acc) True l
  | PyDict kv =>
      NoDup (map fst kv)
      /\ fold_right (fun p acc => distinct_keys (snd p) /\ acc) True kv
  | _ => True
  end.

(** Induction on values, with the property available for the items of
    lists and dicts. *)
Section Induction.

Variable P : pyval -> Prop.
Hypothesis HNone : P PyNone.
Hypothesis HBool : forall b, P (PyBool b).
Hypothesis HInt : forall n, P (PyInt n).
Hypothesis HFloat : forall n, P (PyFloat n).
Hypothesis HStr : forall s, P (PyStr s).
Hypothesis HList : forall l, Forall P l -> P (PyList l).
Hypothesis HDict : forall kv, Forall (fun p => P (snd p)) kv -> P (PyDict kv).

Fixpoint pyval_nested_ind (v : pyval) : P v :=
  match v with
  | PyNone => HNone
  | PyBool b => HBool b
  | PyInt n => HInt n
  | PyFloat n => HFloat n
  | PyStr s => HStr s
  | PyList l =>
      HList l ((fix go (l : list pyval) : Forall P l :=
                  match l with
                  | [] => @List.Forall_nil _ P
                  | x :: l' => @List.Forall_cons _ P x l' (pyval_nested_ind x) (go l')
                  end) l)
  | PyDict kv =>
      HDict kv ((fix go (kv : list (string * pyval))
                   : Forall (fun p => P (snd p)) kv :=
                   match kv with
                   | [] => @List.Forall_nil _ (fun p => P (snd p))
                   | p :: kv' =>
                       @List.Forall_cons _ (fun p => P (snd p)) p kv'
                         (pyval_nested_ind (snd p)) (go kv')
                   end) kv)
  end.

End Induction.

(** The [json] module as the scripts use it: [json.dumps] on the writing
    side, [json.loads] on the reading side.  [json.loads] returns the
    document, or raises [JSONDecodeError] for a text that is no
    document, or raises something else: CPython's raises
    [RecursionError] for a text nested deeper than the interpreter's
    recursion limit and [ValueError] for an integer of more digits than
    the interpreter converts. *)
Class JsonModule : Type := {
  json_dumps : pyval -> string;
  json_loads : string -> result pyval
}.

End Json.

Import Json.

(* ===================================================================== *)
(** ** The collector: async_headphone_scraper.py                          *)
(* ===================================================================== *)

Module Scraper.

(** *** Configuration *)

Definition SUBREDDIT_NAME : string := "Chainsawfolk".
Definition POST_LIMIT : Z := 500.
Definition POSTS_FILE : string := "nu_eta/posts_async.jsonl".
Definition COMMENTS_FILE : string := "nu_eta/comments_async.jsonl".

(** *** The forum client, as the script sees it *)

(** A listed post, with the attributes the script reads; [author] is
    [None] for a deleted account. *)
Record Submission : Type := {
  s_id : string;
  s_title : string;
  s_score : Z;
  s_url : string;
  s_author : option string;
  s_created_utc : Z;
  s_selftext : string
}.

Record Comment : Type := {
  c_id : string;
  c_parent_id : string;
  c_body : string;
  c_score : Z;
  c_author : option string;
  c_created_utc : Z
}.

(** An entry of [submission.comments.list()]: a comment, or a "load more"
    placeholder that [replace_more] left behind. *)
Inductive node : Type :=
| IsComment (c : Comment)
| MoreComments.

(** What the client answers when the comments of a post are requested:
    [reddit.submission] raises, or [replace_more] raises, or the
    flattened forest comes back.  These two awaited calls are the only
    client calls of the [try] block; the loop over the forest reads
    attributes of objects that were already fetched. *)
Inductive fetched : Type :=
| SubmissionRaises (e : exc)
| ReplaceMoreRaises (e : exc)
| Forest (comments : list node).

(** The forum for one run: whether the community lookup succeeds, the
    newest posts in listing order with the client's answer for each, and
    how the listing ends ([None]: exhausted; [Some e]: it raises [e]). *)
Record Reddit : Type := {
  subreddit_lookup : option exc;
  newest : list (Submission * fetched);
  listing_end : option exc
}.

(** [subreddit.new(limit=limit)]: at most [limit] posts; the end of the
    listing is only met when fewer posts than [limit] exist. *)
Definition subreddit_new (reddit : Reddit) (limit : Z)
  : list (Submission * fetched) * option exc :=
  if (Z.of_nat (length (newest reddit)) <? limit)
  then (newest reddit, listing_end reddit)
  else (take (Z.to_nat limit) (newest reddit), None).

(** [str(x.author)]: the account name, or the text [None]. *)
Definition str_author (a : option string) : string :=
  match a with
  | Some name => name
  | None => "None"
  end.

(** *** The machine state of a run *)

Inductive level : Type := INFO | ERROR.

(** What a run does to the outside, in order. *)
Inductive event : Type :=
| EvLog (lv : level) (msg : string)
| EvSubreddit (name : string)
| EvNextPost
| EvSubmission (id : string)
| EvReplaceMore (id : string)
| EvOpen (path : string)
| EvWrite (path : string) (data : string)
| EvClose (path : string)
| EvSessionClose.

(** Files, what happened so far, and the variables of [scrape_subreddit]. *)
Record state : Type := {
  fs : gmap string string;
  events : list event;
  all_posts_data : list pyval;
  all_comments_data : list pyval;
  post_count : Z;
  post_data : pyval
}.

Definition M (A : Type) : Type := state -> state * result A.

#[global] Instance M_ret : MRet M := fun A a st => (st, Ok a).
#[global] Instance M_bind : MBind M := fun A B k m st =>
  match m st with
  | (st', Ok a) => k a st'
  | (st', Raise e) => (st', Raise e)
  end.

Definition raise {A} (e : exc) : M A := fun st => (st, Raise e).

Definition lift {A} (r : result A) : M A := fun st => (st, r).

(** [try: body except RedditAPIException as e: handler e]; what [body]
    did before it raised stays done. *)
Definition try_except_api (body : M unit) (handler : string -> M unit) : M unit :=
  fun st =>
    match body st with
    | (st', Raise (RedditAPIException msg)) => handler msg st'
    | r => r
    end.

Definition emit (ev : event) : M unit := fun st =>
  ({| fs := fs st; events := events st ++ [ev];
      all_posts_data := all_posts_data st;
      all_comments_data := all_comments_data st;
      post_count := post_count st; post_data := post_data st |}, Ok ()).

Definition log_info (msg : string) : M unit := emit (EvLog INFO msg).
Definition log_error (msg : string) : M unit := emit (EvLog ERROR msg).

Definition set_fs (f : gmap string string) : M unit := fun st =>
  ({| fs := f; events := events st;
      all_posts_data := all_posts_data st;
      all_comments_data := all_comments_data st;
      post_count := post_count st; post_data := post_data st |}, Ok ()).

Definition set_post_count (n : Z) : M unit := fun st =>
  ({| fs := fs st; events := events st;
      all_posts_data := all_posts_data st;
      all_comments_data := all_comments_data st;
      post_count := n; post_data := post_data st |}, Ok ()).

Definition set_post_data (d : pyval) : M unit := fun st =>
  ({| fs := fs st; events := events st;
      all_posts_data := all_posts_data st;
      all_comments_data := all_comments_data st;
      post_count := post_count st; post_data := d |}, Ok ()).

Definition set_all_posts_data (l : list pyval) : M unit := fun st =>
  ({| fs := fs st; events := events st;
      all_posts_data := l;
      all_comments_data := all_comments_data st;
      post_count := post_count st; post_data := post_data st |}, Ok ()).

Definition set_all_comments_data (l : list pyval) : M unit := fun st =>
  ({| fs := fs st; events := events st;
      all_posts_data := all_posts_data st;
      all_comments_data := l;
      post_count := post_count st; post_data := post_data st |}, Ok ()).

Definition get {A} (proj : state -> A) : M A := fun st => (st, Ok (proj st)).

(** [for x in l: body x] *)
Fixpoint for_each {A} (l : list A) (body : A -> M unit) : M unit :=
  match l with
  | [] => mret ()
  | x :: l' => body x ;; for_each l' body
  end.

(** *** Files *)

(** [aiofiles.open(path, "w")]: the file is created or emptied. *)
Definition open_w (path : string) : M unit :=
  emit (EvOpen path) ;;
  f ← get fs;
  set_fs (<[path := ""]> f).

(** [file.write(data)]: appended to what was written since the open. *)
Definition write (path : string) (data : string) : M unit :=
  emit (EvWrite path data) ;;
  f ← get fs;
  set_fs (<[path := default "" (f !! path) +:+ data]> f).

Definition close (path : string) : M unit := emit (EvClose path).

(** *** scrape_subreddit *)

Definition dquote : string := String (ascii_of_nat 34) "".
Definition newline : string := String LF "".

Section Run.

Context {json : JsonModule}.
Variable reddit : Reddit.

(** The dict built for a listed post (lines 50-60). *)
Definition new_post_data (post : Submission) (created_vietnam : string) : pyval :=
  PyDict [ ("id", PyStr (s_id post));
           ("title", PyStr (s_title post));
           ("score", PyInt (s_score post));
           ("url", PyStr (s_url post));
           ("author", PyStr (str_author (s_author post)));
           ("created_utc", PyFloat (s_created_utc post));
           ("created_vietnam", PyStr created_vietnam);
           ("selftext", PyStr (s_selftext post));
           ("comments", PyList []) ].

(** The dict built for a comment of [post] (lines 70-81). *)
Definition new_comment_data (post : Submission) (comment : Comment)
    (created_vietnam : string) : pyval :=
  PyDict [ ("id", PyStr (c_id comment));
           ("post_id", PyStr (s_id post));
           ("parent_id", PyStr (c_parent_id comment));
           ("body", PyStr (c_body comment));
           ("score", PyInt (c_score comment));
           ("author", PyStr (str_author (c_author comment)));
           ("created_utc", PyFloat (c_created_utc comment));
           ("created_vietnam", PyStr created_vietnam) ].

(** The body of [for comment in comments] (lines 69-83). *)
Definition collect_comment (post : Submission) (n : node) : M unit :=
  match n with
  | IsComment comment =>
      created_vietnam ← lift (convert_utc_to_vietnam_time (c_created_utc comment));
      let comment_data := new_comment_data post comment created_vietnam in
      pd ← get post_data;
      set_post_data (getitem_append pd "comments" comment_data) ;;
      acd ← get all_comments_data;
      set_all_comments_data (acd ++ [comment_data])
  | MoreComments => mret ()
  end.

(** The [try] block (lines 63-83). *)
Definition fetch_comments (post : Submission) (answer : fetched) : M unit :=
  emit (EvSubmission (s_id post)) ;;
  match answer with
  | SubmissionRaises e => raise e
  | ReplaceMoreRaises e =>
      log_info ("  Fetching comments for post " +:+ s_id post +:+ "...") ;;
      emit (EvReplaceMore (s_id post)) ;;
      raise e
  | Forest comments =>
      log_info ("  Fetching comments for post " +:+ s_id post +:+ "...") ;;
      emit (EvReplaceMore (s_id post)) ;;
      log_info ("  Found " +:+ str_int (Z.of_nat (length comments))
                +:+ " comments.") ;;
      for_each comments (collect_comment post)
  end.

(** The body of [async for post in subreddit.new(...)] (lines 45-87). *)
Definition process_post (entry : Submission * fetched) : M unit :=
  let '(post, answer) := entry in
  n ← get post_count;
  set_post_count (n + 1) ;;
  n ← get post_count;
  log_info ("Processing post " +:+ str_int n +:+ "/" +:+ str_int POST_LIMIT
            +:+ ": " +:+ dquote +:+ s_title post +:+ dquote
            +:+ " (ID: " +:+ s_id post +:+ ")") ;;
  created_vietnam ← lift (convert_utc_to_vietnam_time (s_created_utc post));
  set_post_data (new_post_data post created_vietnam) ;;
  try_except_api
    (fetch_comments post answer)
    (fun e => log_error ("Could not process comments for post "
                         +:+ s_id post +:+ ": " +:+ e)) ;;
  pd ← get post_data;
  apd ← get all_posts_data;
  set_all_posts_data (apd ++ [pd]).

(** The whole [async for] loop: each round asks the listing for its next
    post; the last request finds the listing exhausted, or raising. *)
Definition traverse (listing : list (Submission * fetched) * option exc) : M unit :=
  for_each (fst listing) (fun entry => emit EvNextPost ;; process_post entry) ;;
  emit EvNextPost ;;
  match snd listing with
  | Some e => raise e
  | None => mret ()
  end.

(** [async with aiofiles.open(path, "w") as f: for item in items:
    await f.write(json.dumps(item) + "\n")] *)
Definition save (path : string) (items : list pyval) : M unit :=
  open_w path ;;
  for_each items (fun item => write path (json_dumps item +:+ newline)) ;;
  close path.

Definition save_posts : M unit :=
  apd ← get all_posts_data;
  match apd with
  | _ :: _ =>
      save POSTS_FILE apd ;;
      log_info (newline +:+ "Successfully saved "
                +:+ str_int (Z.of_nat (length apd)) +:+ " posts to: "
                +:+ POSTS_FILE)
  | [] => log_info (newline +:+ "No posts found to save.")
  end.

Definition save_comments : M unit :=
  acd ← get all_comments_data;
  match acd with
  | _ :: _ =>
      save COMMENTS_FILE acd ;;
      log_info ("Successfully saved "
                +:+ str_int (Z.of_nat (length acd)) +:+ " comments to: "
                +:+ COMMENTS_FILE)
  | [] => log_info "No comments found to save."
  end.

(** The first part of [scrape_subreddit], up to the end of the
    [async for] loop (lines 36-87). *)
Definition collect : M unit :=
  log_info ("Connecting to subreddit: r/" +:+ SUBREDDIT_NAME) ;;
  emit (EvSubreddit SUBREDDIT_NAME) ;;
  match subreddit_lookup reddit with
  | Some e => raise e
  | None => mret ()
  end ;;
  set_all_posts_data [] ;;
  set_all_comments_data [] ;;
  set_post_count 0 ;;
  log_info ("Fetching the latest " +:+ str_int POST_LIMIT +:+ " posts...") ;;
  traverse (subreddit_new reddit POST_LIMIT).

(** [scrape_subreddit]: the traversal, then the two files (lines 89-95
    and 97-105). *)
Definition scrape_subreddit : M unit :=
  collect ;;
  save_posts ;;
  save_comments.

(** [main]: the session is closed whatever [scrape_subreddit] did. *)
Definition main : M unit := fun st =>
  let '(st', r) := scrape_subreddit st in
  let '(st'', _) := (emit EvSessionClose ;;
                     log_info (newline +:+ "--- Script Finished ---")) st' in
  (st'', r).

End Run.

(** The state a run starts from: the files already on disk. *)
Definition start (files : gmap string string) : state :=
  {| fs := files; events := []; all_posts_data := []; all_comments_data := [];
     post_count := 0; post_data := PyNone |}.

(** *** Vocabulary of the properties *)

(** The events that touch an output file. *)
Definition is_file_event (ev : event) : bool :=
  match ev with
  | EvOpen _ | EvWrite _ _ | EvClose _ => true
  | _ => false
  end.

(** The events of the traversal: requests to the forum client. *)
Definition is_client_event (ev : event) : bool :=
  match ev with
  | EvSubreddit _ | EvNextPost | EvSubmission _ | EvReplaceMore _ => true
  | _ => false
  end.

Definition opens (path : string) (ev : event) : bool :=
  match ev with
  | EvOpen p => String.eqb p path
  | _ => false
  end.

Definition is_api_error (answer : fetched) : bool :=
  match answer with
  | SubmissionRaises (RedditAPIException _)
  | ReplaceMoreRaises (RedditAPIException _) => true
  | _ => false
  end.

(** The posts that the listing of a run yields. *)
Definition listed (reddit : Reddit) : list (Submission * fetched) :=
  fst (subreddit_new reddit POST_LIMIT).

(** The text a file holds after [items] were saved to it. *)
Definition jsonl {json : JsonModule} (items : list pyval) : string :=
  foldr (fun item rest => json_dumps item +:+ newline +:+ rest) "" items.

(** The files after the [if items: ... else: ...] of a saving block. *)
Definition saved {json : JsonModule} (path : string) (items : list pyval)
    (files : gmap string string) : gmap string string :=
  match items with
  | [] => files
  | _ :: _ => <[path := jsonl items]> files
  end.

(** The events of a saving block that finds [items] to save. *)
Definition save_events {json : JsonModule} (path : string) (items : list pyval)
  : list event :=
  [EvOpen path]
  ++ map (fun item => EvWrite path (json_dumps item +:+ newline)) items
  ++ [EvClose path].

(** A listed post for which nothing goes wrong but, at most, an API
    error: its timestamps and those of its comments can be converted,
    and the client either delivers the forest or raises
    [RedditAPIException]. *)
Definition benign (entry : Submission * fetched) : bool :=
  is_ok (convert_utc_to_vietnam_time (s_created_utc (fst entry)))
  && match snd entry with
     | Forest nodes =>
         forallb (fun n => match n with
                           | IsComment c =>
                               is_ok (convert_utc_to_vietnam_time (c_created_utc c))
                           | MoreComments => true
                           end) nodes
     | answer => is_api_error answer
     end.


(** *** The records of a run, as functions of the forum *)

(** These describe, without state, what the traversal accumulates; the
    lemmas below relate them to [process_post] and [traverse]. *)

(** The comment records of the forest of [post]; a timestamp that cannot
    be converted raises. *)
Fixpoint comment_records (post : Submission) (nodes : list node)
  : result (list pyval) :=
  match nodes with
  | [] => Ok []
  | MoreComments :: nodes' => comment_records post nodes'
  | IsComment c :: nodes' =>
      match convert_utc_to_vietnam_time (c_created_utc c) with
      | Ok created =>
          match comment_records post nodes' with
          | Ok cs => Ok (new_comment_data post c created :: cs)
          | Raise e => Raise e
          end
      | Raise e => Raise e
      end
  end.

(** The comment records a post ends up with: none when the client
    reports an API error, which the [try] block absorbs. *)
Definition comments_for (post : Submission) (answer : fetched)
  : result (list pyval) :=
  match answer with
  | Forest nodes => comment_records post nodes
  | SubmissionRaises (RedditAPIException _) => Ok []
  | ReplaceMoreRaises (RedditAPIException _) => Ok []
  | SubmissionRaises e => Raise e
  | ReplaceMoreRaises e => Raise e
  end.

(** The post record once the comment records [cs] were appended. *)
Definition post_record (post : Submission) (created_vietnam : string)
    (cs : list pyval) : pyval :=
  PyDict [ ("id", PyStr (s_id post));
           ("title", PyStr (s_title post));
           ("score", PyInt (s_score post));
           ("url", PyStr (s_url post));
           ("author", PyStr (str_author (s_author post)));
           ("created_utc", PyFloat (s_created_utc post));
           ("created_vietnam", PyStr created_vietnam);
           ("selftext", PyStr (s_selftext post));
           ("comments", PyList cs) ].

(** The shapes of the two kinds of records. *)
Definition is_comment_record (c : pyval) : Prop :=
  exists post comment created, c = new_comment_data post comment created.

Definition is_post_record (r : pyval) : Prop :=
  exists post created cs,
    r = post_record post created cs /\ Forall is_comment_record cs.

(** Post records and comment records of a listing, in order. *)
Fixpoint records_of (entries : list (Submission * fetched))
  : result (list pyval * list pyval) :=
  match entries with
  | [] => Ok ([], [])
  | (post, answer) :: entries' =>
      match convert_utc_to_vietnam_time (s_created_utc post) with
      | Ok created =>
          match comments_for post answer with
          | Ok cs =>
              match records_of entries' with
              | Ok (ps, cms) => Ok (post_record post created cs :: ps, (cs ++ cms)%list)
              | Raise e => Raise e
              end
          | Raise e => Raise e
          end
      | Raise e => Raise e
      end
  end.

(** State after the comment records [cs] were collected. *)
Definition with_comments (cs : list pyval) (st : state) : state :=
  {| fs := fs st; events := events st;
     all_posts_data := all_posts_data st;
     all_comments_data := all_comments_data st ++ cs;
     post_count := post_count st;
     post_data := foldl (fun d c => getitem_append d "comments" c) (post_data st) cs |}.

(** A computation that leaves the files alone: whatever it returns or
    raises, the files are as before and it adds no file event. *)
Definition quiet {A} (m : M A) : Prop :=
  forall st,
    fs (fst (m st)) = fs st
    /\ exists evs, events (fst (m st)) = (events st ++ evs)%list
                   /\ Forall (fun ev => is_file_event ev = false) evs.

(** The comment records whose [post_id] is [id]. *)
Definition has_post_id (id : string) (c : pyval) : bool :=
  match getitem c "post_id" with
  | Some (PyStr i) => String.eqb i id
  | _ => false
  end.

(** *** More vocabulary: the forest, the trace, the session *)

(** The comments among the nodes of a forest, in order. *)
Definition real_comments (nodes : list node) : list Comment :=
  omap (fun n => match n with
                 | IsComment c => Some c
                 | MoreComments => None
                 end) nodes.

(** The exception with which the retrieval of the comments of a post
    ends the run: what the client raised, unless it is the API error
    that the [try] block absorbs. *)
Definition fatal_answer (answer : fetched) : option exc :=
  match answer with
  | SubmissionRaises (RedditAPIException _) => None
  | ReplaceMoreRaises (RedditAPIException _) => None
  | SubmissionRaises e => Some e
  | ReplaceMoreRaises e => Some e
  | Forest _ => None
  end.

(** The message of the API error that the client answers with, if it
    does. *)
Definition api_message (answer : fetched) : option string :=
  match answer with
  | SubmissionRaises (RedditAPIException msg) => Some msg
  | ReplaceMoreRaises (RedditAPIException msg) => Some msg
  | _ => None
  end.

(** Whether [reddit.submission] delivered the post. *)
Definition delivered (entry : Submission * fetched) : bool :=
  match snd entry with
  | SubmissionRaises _ => false
  | _ => true
  end.

(** The error line that the handler of the [try] block writes for a
    listed post, if the client answered with an API error. *)
Definition error_line (entry : Submission * fetched) : option string :=
  match api_message (snd entry) with
  | Some msg => Some ("Could not process comments for post "
                      +:+ s_id (fst entry) +:+ ": " +:+ msg)
  | None => None
  end.

(** The line of the log that announces the [n]th post. *)
Definition progress_line (n : Z) (post : Submission) : string :=
  "Processing post " +:+ str_int n +:+ "/" +:+ str_int POST_LIMIT
  +:+ ": " +:+ dquote +:+ s_title post +:+ dquote
  +:+ " (ID: " +:+ s_id post +:+ ")".

(** What a run adds to the trace before the listing is read. *)
Definition opening_events : list event :=
  [ EvLog INFO ("Connecting to subreddit: r/" +:+ SUBREDDIT_NAME);
    EvSubreddit SUBREDDIT_NAME;
    EvLog INFO ("Fetching the latest " +:+ str_int POST_LIMIT +:+ " posts...") ].

(** What the [try] block and its handler add to the trace for a post
    whose comments are collected, or given up on an API error. *)
Definition fetch_events (post : Submission) (answer : fetched) : list event :=
  EvSubmission (s_id post)
  :: match answer with
     | SubmissionRaises _ => []
     | ReplaceMoreRaises _ =>
         [ EvLog INFO ("  Fetching comments for post " +:+ s_id post +:+ "...");
           EvReplaceMore (s_id post) ]
     | Forest comments =>
         [ EvLog INFO ("  Fetching comments for post " +:+ s_id post +:+ "...");
           EvReplaceMore (s_id post);
           EvLog INFO ("  Found " +:+ str_int (Z.of_nat (length comments))
                       +:+ " comments.") ]
     end
  ++ match api_message answer with
     | Some msg => [ EvLog ERROR ("Could not process comments for post "
                                  +:+ s_id post +:+ ": " +:+ msg) ]
     | None => []
     end.

(** One round of the loop, for the [n]th post. *)
Definition post_events (n : Z) (entry : Submission * fetched) : list event :=
  [ EvNextPost; EvLog INFO (progress_line n (fst entry)) ]
  ++ fetch_events (fst entry) (snd entry).

(** The rounds for the posts that follow the first [n]. *)
Fixpoint listing_events (n : Z) (entries : list (Submission * fetched))
  : list event :=
  match entries with
  | [] => []
  | entry :: entries' => post_events (n + 1) entry ++ listing_events (n + 1) entries'
  end.

(** The ids for which the comments were requested, in the order of the
    requests. *)
Definition requested (evs : list event) : list string :=
  omap (fun ev => match ev with
                  | EvSubmission id => Some id
                  | _ => None
                  end) evs.

(** The ids of the posts whose comment forest was expanded. *)
Definition expanded (evs : list event) : list string :=
  omap (fun ev => match ev with
                  | EvReplaceMore id => Some id
                  | _ => None
                  end) evs.

(** The error lines of the log. *)
Definition error_lines (evs : list event) : list string :=
  omap (fun ev => match ev with
                  | EvLog ERROR msg => Some msg
                  | _ => None
                  end) evs.

(** The events of the two saving blocks: file events and lines of the
    log. *)
Definition is_saving_event (ev : event) : bool :=
  match ev with
  | EvOpen _ | EvWrite _ _ | EvClose _ | EvLog INFO _ => true
  | _ => false
  end.

Definition is_session_close (ev : event) : bool :=
  match ev with
  | EvSessionClose => true
  | _ => false
  end.

Definition keeps_session_open (ev : event) : bool := negb (is_session_close ev).

(** What [main] adds once [scrape_subreddit] is over. *)
Definition closing_events : list event :=
  [EvSessionClose; EvLog INFO (newline +:+ "--- Script Finished ---")].

(** A computation that only adds events that [allowed] accepts, whatever
    it returns or raises. *)
Definition emits_only (allowed : event -> bool) {A} (m : M A) : Prop :=
  forall st,
    exists evs, events (fst (m st)) = (events st ++ evs)%list
                /\ Forall (fun ev => allowed ev = true) evs.

End Scraper.

Import Scraper.

(* ===================================================================== *)
(** ** The analyzer's loader: nu_eta/visualization.py                     *)
(* ===================================================================== *)

Module Analyzer.

(** A file as [open(file_path, "r", encoding="utf-8")] and [for line in
    f] find it: its bytes are the UTF-8 encoding of a text, or they are
    not, and then the reader, which decodes the file block by block,
    yields the lines that it completed in the blocks before the
    offending one and raises [UnicodeDecodeError]. *)
Inductive file : Type :=
| Text (content : string)
| Undecodable (yielded : list string).

(** The text files of the collector, as the analyzer finds them: what
    [json.dumps] writes is ASCII, which UTF-8 decodes to the same
    text. *)
Definition on_disk (files : gmap string string) : gmap string file :=
  Text <$> files.

(** [for line in f], for a file opened in text mode: a line runs up to
    and including its terminator; [\r\n] and a lone [\r] are read as
    [\n]; text after the last terminator is a final line. *)
Fixpoint text_lines_from (cur : string) (s : string) : list string :=
  match s with
  | EmptyString =>
      match cur with
      | EmptyString => []
      | _ => [cur]
      end
  | String c s' =>
      if Ascii.eqb c LF then (cur +:+ newline) :: text_lines_from "" s'
      else if Ascii.eqb c CR then
        match s' with
        | String c' s'' =>
            if Ascii.eqb c' LF then (cur +:+ newline) :: text_lines_from "" s''
            else (cur +:+ newline) :: text_lines_from "" s'
        | EmptyString => [cur +:+ newline]
        end
      else text_lines_from (cur +:+ String c "") s'
  end.

Definition text_lines (content : string) : list string :=
  text_lines_from "" content.

(** The lines that the iteration over a file yields, and how it ends. *)
Definition lines_of (f : file) : list string :=
  match f with
  | Text content => text_lines content
  | Undecodable yielded => yielded
  end.

Definition end_of (f : file) : result unit :=
  match f with
  | Text _ => Ok ()
  | Undecodable _ => Raise UnicodeDecodeError
  end.

(** [str.strip()] *)
Definition is_space (c : ascii) : bool :=
  let n := nat_of_ascii c in
  ((9 <=? n) && (n <=? 13) || (28 <=? n) && (n <=? 32)
   || (n =? 133) || (n =? 160))%nat.

Fixpoint lstrip (s : string) : string :=
  match s with
  | String c s' => if is_space c then lstrip s' else s
  | EmptyString => EmptyString
  end.

Definition strip (s : string) : string :=
  String.rev (lstrip (String.rev (lstrip s))).

Section Loader.

Context {json : JsonModule}.

(** What is printed for a line that [json.loads] rejects. *)
Definition skip_message (file_path line : string) : string :=
  "Skipping invalid line in " +:+ file_path +:+ ": " +:+ strip line.

(** One round of the loop of [load_jsonl] (lines 14-17): [data] grows
    by the parsed line, or a message is printed for [JSONDecodeError];
    the [except] clause names no other exception, which therefore
    leaves the loop. *)
Definition load_line (file_path : string) (acc : list pyval * list string)
    (line : string) : result (list pyval * list string) :=
  match json_loads line with
  | Ok v => Ok ((fst acc ++ [v])%list, snd acc)
  | Raise JSONDecodeError =>
      Ok (fst acc, (snd acc ++ [skip_message file_path line])%list)
  | Raise e => Raise e
  end.

(** The loop over the lines that the reader yields: [data] and what was
    printed when it ends, and the exception that ended it, if any. *)
Fixpoint load_loop (file_path : string) (acc : list pyval * list string)
    (lines : list string) : (list pyval * list string) * result unit :=
  match lines with
  | [] => (acc, Ok ())
  | line :: lines' =>
      match load_line file_path acc line with
      | Ok acc' => load_loop file_path acc' lines'
      | Raise e => (acc, Raise e)
      end
  end.

(** [load_jsonl(file_path)] on the files [files]: what the call prints,
    and the rows it hands to [pd.DataFrame] or the exception it raises:
    [FileNotFoundError] when the file does not exist, the exception
    that left the loop, or [UnicodeDecodeError] when the reader meets
    bytes that are not UTF-8. *)
Definition load_jsonl (files : gmap string file) (file_path : string)
  : list string * result (list pyval) :=
  match files !! file_path with
  | None => ([], Raise FileNotFoundError)
  | Some f =>
      match load_loop file_path ([], []) (lines_of f) with
      | (acc, Ok _) =>
          match end_of f with
          | Ok _ => (snd acc, Ok (fst acc))
          | Raise e => (snd acc, Raise e)
          end
      | (acc, Raise e) => (snd acc, Raise e)
      end
  end.

End Loader.

(** Whether a text has no line terminator in it. *)
Fixpoint one_line (s : string) : bool :=
  match s with
  | EmptyString => true
  | String c s' => negb (Ascii.eqb c LF) && negb (Ascii.eqb c CR) && one_line s'
  end.

(** *** Vocabulary of the properties *)

(** Whether a line holds a JSON document. *)
Definition valid_line {json : JsonModule} (line : string) : bool :=
  match json_loads line with
  | Ok _ => true
  | Raise _ => false
  end.

(** Whether [json.loads] rejects a line with [JSONDecodeError]. *)
Definition malformed_line {json : JsonModule} (line : string) : bool :=
  match json_loads line with
  | Raise JSONDecodeError => true
  | _ => false
  end.

(** Whether the loop of the loader gets past a line. *)
Definition tolerated_line {json : JsonModule} (line : string) : bool :=
  valid_line line || malformed_line line.

(** The documents of the lines that hold one. *)
Definition documents {json : JsonModule} (lines : list string) : list pyval :=
  omap (fun line => match json_loads line with
                    | Ok v => Some v
                    | Raise _ => None
                    end) lines.

(** What the loader prints for the lines that [json.loads] rejects. *)
Definition skip_messages {json : JsonModule} (file_path : string)
    (lines : list string) : list string :=
  map (skip_message file_path) (List.filter malformed_line lines).

End Analyzer.

Import Analyzer.

(* ===================================================================== *)
(** ** The analyzer's script: nu_eta/visualization.py                    *)
(* ===================================================================== *)

(** The statements of the script below [load_jsonl].  Texts are
    sequences of characters with code points below 256, as everywhere in
    this development; the tables of [str.lower], [str.isdigit] and of the
    class [\w] are those of Python for these code points. *)

Module Visualization.

(** *** Text: [str.lower], [str.isdigit], [re.findall] *)

Definition between (lo hi : nat) (c : ascii) : bool :=
  let n := nat_of_ascii c in ((lo <=? n) && (n <=? hi))%nat.

(** The characters that have a lowercase form of their own. *)
Definition is_upper (c : ascii) : bool :=
  between 65 90 c || between 192 214 c || between 216 222 c.

Definition lower_char (c : ascii) : ascii :=
  if is_upper c then ascii_of_nat (nat_of_ascii c + 32) else c.

(** [s.lower()] *)
Fixpoint lower (s : string) : string :=
  match s with
  | EmptyString => EmptyString
  | String c s' => String (lower_char c) (lower s')
  end.

Definition is_digit_char (c : ascii) : bool :=
  between 48 57 c || between 178 179 c || between 185 185 c.

Fixpoint all_chars (p : ascii -> bool) (s : string) : bool :=
  match s with
  | EmptyString => true
  | String c s' => p c && all_chars p s'
  end.

(** [s.isdigit()]: every character is a digit and there is one. *)
Definition isdigit (s : string) : bool :=
  match s with
  | EmptyString => false
  | _ => all_chars is_digit_char s
  end.

(** The class [\w] of a [str] pattern. *)
Definition is_word_char (c : ascii) : bool :=
  between 48 57 c || between 65 90 c || between 95 95 c || between 97 122 c
  || between 170 170 c || between 178 179 c || between 181 181 c
  || between 185 186 c || between 188 190 c || between 192 214 c
  || between 216 246 c || between 248 255 c.

(** [re.findall(r"\b\w+\b", s)]: the maximal runs of word characters,
    from left to right; [cur] is the run being read. *)
Fixpoint findall_words_from (cur : string) (s : string) : list string :=
  match s with
  | EmptyString =>
      match cur with
      | EmptyString => []
      | _ => [cur]
      end
  | String c s' =>
      if is_word_char c then findall_words_from (cur +:+ String c "") s'
      else match cur with
           | EmptyString => findall_words_from "" s'
           | _ => cur :: findall_words_from "" s'
           end
  end.

Definition findall_words (s : string) : list string := findall_words_from "" s.

(** *** collections.Counter *)

(** A counter keeps its keys in the order of their first insertion. *)
Definition Counter : Type := list (string * nat).

Fixpoint counter_add (w : string) (c : Counter) : Counter :=
  match c with
  | [] => [(w, 1%nat)]
  | (k, n) :: c' =>
      if String.eqb k w then (k, S n) :: c' else (k, n) :: counter_add w c'
  end.

(** [c.update(words)] *)
Definition update (c : Counter) (words : list string) : Counter :=
  foldl (fun c w => counter_add w c) c words.

(** [sorted(items, key=itemgetter(1), reverse=True)]: by decreasing
    count; items of equal count keep their order. *)
Fixpoint insert_by_count (x : string * nat) (l : list (string * nat))
  : list (string * nat) :=
  match l with
  | [] => [x]
  | y :: l' =>
      if (snd y <=? snd x)%nat then x :: l else y :: insert_by_count x l'
  end.

Definition sorted_by_count (c : Counter) : list (string * nat) :=
  foldr insert_by_count [] c.

(** [c.most_common(n)] *)
Definition most_common (n : nat) (c : Counter) : list (string * nat) :=
  take n (sorted_by_count c).

(** *** pandas.DataFrame, as far as the script looks into it *)

(** A frame built from a list of JSON objects: one row per object, a
    column for every key that occurs.  ([pd.DataFrame] of rows that are
    not objects builds frames of other shapes; they are outside this
    model.) *)
Definition DataFrame : Type := list (list (string * pyval)).

Definition as_row (v : pyval) : option (list (string * pyval)) :=
  match v with
  | PyDict kv => Some kv
  | _ => None
  end.

(** [pd.DataFrame(data)] *)
Fixpoint new_DataFrame (data : list pyval) : option DataFrame :=
  match data with
  | [] => Some []
  | v :: data' =>
      match as_row v, new_DataFrame data' with
      | Some row, Some df => Some (row :: df)
      | _, _ => None
      end
  end.

(** [len(df)] *)
Definition len (df : DataFrame) : Z := Z.of_nat (length df).

(** [name in df.columns] *)
Definition has_column (name : string) (df : DataFrame) : bool :=
  existsb (fun row => existsb (fun kv => String.eqb (fst kv) name) row) df.

(** [df[name].dropna()]: the cells of the column that hold a value; a
    row without the key, or with [null], has none. *)
Definition column_dropna (name : string) (df : DataFrame) : list pyval :=
  omap (fun row => match assoc name row with
                   | Some PyNone => None
                   | cell => cell
                   end) df.

(** *** The script *)

(** How a run of the script ends when it does not reach its last
    statement: by [exit()], or of an exception. *)
Inductive error : Type :=
| Builtin (e : exc)
| AttributeError
| LibraryError (msg : string).

Inductive ending : Type :=
| Exited
| Crashed (e : error)
| OutsideModel.

(** The plotting blocks, each from its first statement to [plt.close()]:
    what pandas and matplotlib compute in them is not modelled; a block
    completes, and has then saved its picture, or raises. *)
Class Plotting : Type := {
  posts_comments_over_time : DataFrame -> DataFrame -> option error;
  post_scores_distribution : DataFrame -> option error;
  comment_scores_distribution : DataFrame -> option error;
  top_words_in_titles : list string -> list nat -> option error
}.

(** A step of the script: what is printed so far, and a value or the end. *)
Inductive step (A : Type) : Type :=
| Next (a : A)
| End_ (e : ending).
Arguments Next {A} a.
Arguments End_ {A} e.

Definition V (A : Type) : Type := list string -> list string * step A.

#[global] Instance V_ret : MRet V := fun A a out => (out, Next a).
#[global] Instance V_bind : MBind V := fun A B k m out =>
  match m out with
  | (out', Next a) => k a out'
  | (out', End_ e) => (out', End_ e)
  end.

Definition print (line : string) : V unit := fun out => (out ++ [line], Next ()).
Definition stop {A} (e : ending) : V A := fun out => (out, End_ e).

(** A plotting block: it completes or the script dies of what it raised. *)
Definition block (r : option error) : V unit :=
  match r with
  | None => mret ()
  | Some e => stop (Crashed e)
  end.

Definition stopwords : list string :=
  [ "t"; "s"; "the"; "a"; "to"; "and"; "is"; "in"; "it"; "of"; "for"; "i";
    "you"; "he"; "she"; "that"; "this"; "what"; "why"; "how"; "who"; "when";
    "where"; "my"; "me"; "we"; "our"; "your"; "about"; "an"; "are"; "as";
    "at"; "be"; "by"; "from"; "has"; "have"; "if"; "on"; "or"; "with" ].

Definition is_stopword (w : string) : bool :=
  existsb (String.eqb w) stopwords.

(** The words of a title that are counted (lines 176-177). *)
Definition counted_words (title : string) : list string :=
  List.filter (fun w => negb (is_stopword w) && negb (isdigit w))
              (findall_words (lower title)).

(** The loop over the titles (lines 174-177); a title that is not a text
    has no [lower]. *)
Fixpoint count_titles (word_counts : Counter) (titles : list pyval) : V Counter :=
  match titles with
  | [] => mret word_counts
  | PyStr title :: titles' =>
      count_titles (update word_counts (counted_words title)) titles'
  | _ :: _ => stop (Crashed AttributeError)
  end.

Section Script.

Context {json : JsonModule} {plot : Plotting}.

(** The files of the directory in which the script is started. *)
Variable files : gmap string file.

(** [str(e)] for the [FileNotFoundError] of [open(file_path)]. *)
Definition no_such_file (file_path : string) : string :=
  "[Errno 2] No such file or directory: '" +:+ file_path +:+ "'".

(** One call of [load_jsonl] inside the [try] (lines 22-29): only
    [FileNotFoundError] has a handler. *)
Definition load (file_path : string) : V DataFrame := fun out =>
  match load_jsonl files file_path with
  | (printed, Ok data) =>
      match new_DataFrame data with
      | Some df => (out ++ printed, Next df)
      | None => (out ++ printed, End_ OutsideModel)
      end
  | (printed, Raise FileNotFoundError) =>
      (out ++ printed
       ++ ["Error: " +:+ no_such_file file_path
           +:+ ". Make sure the jsonl files are in the same directory as the script."],
       End_ Exited)
  | (printed, Raise e) => (out ++ printed, End_ (Crashed (Builtin e)))
  end.

(** Visualization 1 (lines 34-75). *)
Definition over_time (posts_df comments_df : DataFrame) : V unit :=
  print "Generating plot for posts and comments over time..." ;;
  if has_column "created_utc" posts_df && has_column "created_utc" comments_df
  then block (posts_comments_over_time posts_df comments_df) ;;
       print "Saved posts_comments_over_time.png"
  else print "Skipping time series plot because 'created_utc' column is missing.".

(** Visualization 2 (lines 79-98). *)
Definition post_scores (posts_df : DataFrame) : V unit :=
  print "Generating plot for post score distribution..." ;;
  if has_column "score" posts_df
  then block (post_scores_distribution posts_df) ;;
       print "Saved post_scores_distribution.png"
  else print "Skipping post score distribution plot because 'score' column is missing.".

(** Visualization 3 (lines 102-120). *)
Definition comment_scores (comments_df : DataFrame) : V unit :=
  print "Generating plot for comment score distribution..." ;;
  if has_column "score" comments_df
  then block (comment_scores_distribution comments_df) ;;
       print "Saved comment_scores_distribution.png"
  else print "Skipping comment score distribution plot because 'score' column is missing.".

(** Visualization 4 (lines 124-193); [words, counts = zip(...)] needs
    two tuples to unpack, and [zip] of no pair yields none. *)
Definition top_words (posts_df : DataFrame) : V unit :=
  print "Generating plot for top words in post titles..." ;;
  if has_column "title" posts_df
  then word_counts ← count_titles [] (column_dropna "title" posts_df);
       let most_common_words := most_common 20 word_counts in
       match most_common_words with
       | [] => stop (Crashed (Builtin ValueError))
       | _ :: _ =>
           block (top_words_in_titles (map fst most_common_words)
                                      (map snd most_common_words)) ;;
           print "Saved top_words_in_titles.png"
       end
  else print "Skipping top words plot because 'title' column is missing.".

(** The script, from its first statement to its last. *)
Definition script : V unit :=
  posts_df ← load "posts_async.jsonl";
  comments_df ← load "comments_async.jsonl";
  print ("Loaded " +:+ str_int (len posts_df) +:+ " posts and "
         +:+ str_int (len comments_df) +:+ " comments.") ;;
  over_time posts_df comments_df ;;
  post_scores posts_df ;;
  comment_scores comments_df ;;
  top_words posts_df ;;
  print (newline
         +:+ "All visualizations have been generated and saved as PNG files.").

End Script.

(** *** Vocabulary of the properties *)

Definition is_text (v : pyval) : bool :=
  match v with
  | PyStr _ => true
  | _ => false
  end.

(** The words that the loop over the titles counts, in order. *)
Definition title_words (titles : list pyval) : list string :=
  flat_map (fun v => match v with
                     | PyStr title => counted_words title
                     | _ => []
                     end) titles.

(** The count that a counter holds for a word. *)
Fixpoint counter_get (w : string) (c : Counter) : nat :=
  match c with
  | [] => 0
  | (k, n) :: c' => if String.eqb k w then n else counter_get w c'
  end.

(** A counter in good order: no key twice, no count of zero. *)
Definition well_formed (c : Counter) : Prop :=
  NoDup (map fst c) /\ Forall (fun kv => (1 <= snd kv)%nat) c.

(** The order of [most_common]: the higher count first. *)
Definition by_count (x y : string * nat) : Prop := (snd y <= snd x)%nat.

(** The line that the handler of [FileNotFoundError] prints. *)
Definition missing_file_line (file_path : string) : string :=
  "Error: " +:+ no_such_file file_path
  +:+ ". Make sure the jsonl files are in the same directory as the script.".

(** What the script prints once both files are loaded and no frame has
    any row. *)
Definition all_skipped : list string :=
  [ "Loaded 0 posts and 0 comments.";
    "Generating plot for posts and comments over time...";
    "Skipping time series plot because 'created_utc' column is missing.";
    "Generating plot for post score distribution...";
    "Skipping post score distribution plot because 'score' column is missing.";
    "Generating plot for comment score distribution...";
    "Skipping comment score distribution plot because 'score' column is missing.";
    "Generating plot for top words in post titles...";
    "Skipping top words plot because 'title' column is missing.";
    newline +:+ "All visualizations have been generated and saved as PNG files." ].

(** The directory of the analyzer holds the two files of the scraper:
    the scraper writes them into [nu_eta/], and the analyzer, started
    there, opens them by their bare names. *)
Definition started_in_nu_eta (files : gmap string string)
    (local : gmap string file) : Prop :=
  local !! "posts_async.jsonl" = on_disk files !! POSTS_FILE
  /\ local !! "comments_async.jsonl" = on_disk files !! COMMENTS_FILE.

End Visualization.

Import Visualization.


(* ===================================================================== *)
(** ** A reference implementation of the json interface                   *)
(* ===================================================================== *)

(** An executable [json.dumps] / [json.loads] pair with the defaults the
    scripts rely on (items separated by a comma and a space, keys by a
    colon and a space, every character outside the printable ASCII
    range escaped), over the characters of code below 256.  It gives
    the interface above an instance to run the scripts with. *)
Module RefJson.

Definition backslash : ascii := ascii_of_nat 92.
Definition dq : ascii := ascii_of_nat 34.

Definition hex_char (n : Z) : ascii :=
  if n <? 10 then digit_char n else ascii_of_nat (87 + Z.to_nat n).

Definition escape_char (c : ascii) : string :=
  let n := Z.of_nat (nat_of_ascii c) in
  if n =? 34 then String backslash (String dq "")
  else if n =? 92 then String backslash (String backslash "")
  else if n =? 10 then String backslash "n"
  else if n =? 13 then String backslash "r"
  else if n =? 9 then String backslash "t"
  else if n =? 8 then String backslash "b"
  else if n =? 12 then String backslash "f"
  else if (32 <=? n) && (n <=? 126) then String c ""
  else String backslash
         (String "u" (String "0" (String "0"
            (String (hex_char (n / 16)) (String (hex_char (n mod 16)) ""))))).

Fixpoint escape (s : string) : string :=
  match s with
  | EmptyString => EmptyString
  | String c s' => escape_char c +:+ escape s'
  end.

Definition dumps_str (s : string) : string :=
  String dq (escape s +:+ String dq "").

Fixpoint join (sep : string) (l : list string) : string :=
  match l with
  | [] => ""
  | [x] => x
  | x :: l' => x +:+ sep +:+ join sep l'
  end.

Fixpoint dumps (v : pyval) : string :=
  match v with
  | PyNone => "null"
  | PyBool true => "true"
  | PyBool false => "false"
  | PyInt n => str_int n
  | PyFloat n => str_int n +:+ ".0"
  | PyStr s => dumps_str s
  | PyList l => "[" +:+ join ", " (map dumps l) +:+ "]"
  | PyDict kv =>
      "{" +:+ join ", " (map (fun p => match p with
                                       | (k, x) => dumps_str k +:+ ": " +:+ dumps x
                                       end) kv) +:+ "}"
  end.

(** *** Reading *)

Definition is_ws (c : ascii) : bool :=
  let n := nat_of_ascii c in
  ((n =? 32) || (n =? 9) || (n =? 10) || (n =? 13))%nat.

Fixpoint skip_ws (s : string) : string :=
  match s with
  | String c s' => if is_ws c then skip_ws s' else s
  | EmptyString => EmptyString
  end.

Definition hex_val (c : ascii) : option Z :=
  let n := Z.of_nat (nat_of_ascii c) in
  if (48 <=? n) && (n <=? 57) then Some (n - 48)
  else if (97 <=? n) && (n <=? 102) then Some (n - 87)
  else if (65 <=? n) && (n <=? 70) then Some (n - 55)
  else None.

Definition hex4 (a b c d : ascii) : option Z :=
  match hex_val a, hex_val b, hex_val c, hex_val d with
  | Some x, Some y, Some z, Some w => Some (((x * 16 + y) * 16 + z) * 16 + w)
  | _, _, _, _ => None
  end.

Definition unescape1 (c : ascii) : option ascii :=
  let n := nat_of_ascii c in
  if (n =? 34)%nat then Some dq
  else if (n =? 92)%nat then Some backslash
  else if (n =? 47)%nat then Some c
  else if (n =? 110)%nat then Some LF
  else if (n =? 114)%nat then Some CR
  else if (n =? 116)%nat then Some (ascii_of_nat 9)
  else if (n =? 98)%nat then Some (ascii_of_nat 8)
  else if (n =? 102)%nat then Some (ascii_of_nat 12)
  else None.

(** The characters of a string literal, after its opening quote. *)
Fixpoint parse_chars (s : string) : option (string * string) :=
  match s with
  | EmptyString => None
  | String c s' =>
      if Ascii.eqb c dq then Some ("", s')
      else if Ascii.eqb c backslash then
        match s' with
        | String e s'' =>
            if Ascii.eqb e "u" then
              match s'' with
              | String h1 (String h2 (String h3 (String h4 s3))) =>
                  match hex4 h1 h2 h3 h4 with
                  | Some n =>
                      if n <? 256 then
                        match parse_chars s3 with
                        | Some (str, r) =>
                            Some (String (ascii_of_nat (Z.to_nat n)) str, r)
                        | None => None
                        end
                      else None
                  | None => None
                  end
              | _ => None
              end
            else
              match unescape1 e with
              | Some x =>
                  match parse_chars s'' with
                  | Some (str, r) => Some (String x str, r)
                  | None => None
                  end
              | None => None
              end
        | EmptyString => None
        end
      else if (nat_of_ascii c <? 32)%nat then None
      else
        match parse_chars s' with
        | Some (str, r) => Some (String c str, r)
        | None => None
        end
  end.

(** A run of decimal digits: its value, whether it is empty, the rest. *)
Fixpoint parse_digits (acc : Z) (seen : bool) (s : string) : Z * bool * string :=
  match s with
  | String c s' =>
      if is_digit c
      then parse_digits (acc * 10 + (Z.of_nat (nat_of_ascii c) - 48)) true s'
      else (acc, seen, s)
  | EmptyString => (acc, seen, s)
  end.

(** An unsigned number: an integer, or a float written with a zero
    fraction; other fractions and exponents denote floats outside
    [pyval] and are not read. *)
Definition parse_unsigned (s : string) : option (Z * bool * string) :=
  match s with
  | String c s' =>
      if is_digit c then
        let '(n, _, r) :=
          if Ascii.eqb c "0" then (0, true, s') else parse_digits 0 false s in
        match r with
        | String "." r' =>
            match parse_digits 0 false r' with
            | (0, true, r'') =>
                match r'' with
                | String "e" _ | String "E" _ => None
                | _ => Some (n, true, r'')
                end
            | _ => None
            end
        | String "e" _ | String "E" _ => None
        | _ => Some (n, false, r)
        end
      else None
  | EmptyString => None
  end.

Definition parse_number (s : string) : option (pyval * string) :=
  let '(sign, s1) :=
    match s with
    | String "-" s' => (-1, s')
    | _ => (1, s)
    end in
  match parse_unsigned s1 with
  | Some (n, true, r) => Some (PyFloat (sign * n), r)
  | Some (n, false, r) => Some (PyInt (sign * n), r)
  | None => None
  end.

Fixpoint strip_prefix (p s : string) : option string :=
  match p, s with
  | EmptyString, _ => Some s
  | String a p', String b s' => if Ascii.eqb a b then strip_prefix p' s' else None
  | _, EmptyString => None
  end.

(** [d[k] = v] on the items of a dict. *)
Fixpoint assoc_set (k : string) (v : pyval) (kv : list (string * pyval))
  : list (string * pyval) :=
  match kv with
  | [] => [(k, v)]
  | (k', v') :: kv' =>
      if String.eqb k k' then (k', v) :: kv' else (k', v') :: assoc_set k v kv'
  end.

Section Containers.

(** The reader of one value, for the nesting depth that is left. *)
Variable parse_value : string -> option (pyval * string).

(** Elements of an array, from the first one on. *)
Fixpoint parse_elements (fuel : nat) (acc : list pyval) (s : string)
  : option (pyval * string) :=
  match fuel with
  | O => None
  | S fuel' =>
      match parse_value s with
      | Some (v, r) =>
          match skip_ws r with
          | String c r' =>
              if Ascii.eqb c "," then parse_elements fuel' (acc ++ [v]) (skip_ws r')
              else if Ascii.eqb c "]" then Some (PyList (acc ++ [v]), r')
              else None
          | EmptyString => None
          end
      | None => None
      end
  end.

(** Members of an object, from the opening quote of the first key on. *)
Fixpoint parse_members (fuel : nat) (acc : list (string * pyval)) (s : string)
  : option (pyval * string) :=
  match fuel with
  | O => None
  | S fuel' =>
      match s with
      | String q s1 =>
          if Ascii.eqb q dq then
            match parse_chars s1 with
            | Some (k, r) =>
                match skip_ws r with
                | String ":" r1 =>
                    match parse_value (skip_ws r1) with
                    | Some (v, r2) =>
                        match skip_ws r2 with
                        | String c r3 =>
                            if Ascii.eqb c ","
                            then parse_members fuel' (assoc_set k v acc) (skip_ws r3)
                            else if Ascii.eqb c "}"
                            then Some (PyDict (assoc_set k v acc), r3)
                            else None
                        | EmptyString => None
                        end
                    | None => None
                    end
                | _ => None
                end
            | None => None
            end
          else None
      | EmptyString => None
      end
  end.

End Containers.

Fixpoint parse_value (fuel : nat) (s : string) : option (pyval * string) :=
  match fuel with
  | O => None
  | S fuel' =>
      match s with
      | String c rest =>
          if Ascii.eqb c dq then
            match parse_chars rest with
            | Some (str, r) => Some (PyStr str, r)
            | None => None
            end
          else if Ascii.eqb c "[" then
            match skip_ws rest with
            | String "]" r => Some (PyList [], r)
            | r => parse_elements (parse_value fuel') fuel' [] r
            end
          else if Ascii.eqb c "{" then
            match skip_ws rest with
            | String "}" r => Some (PyDict [], r)
            | r => parse_members (parse_value fuel') fuel' [] r
            end
          else if Ascii.eqb c "n" then
            match strip_prefix "ull" rest with
            | Some r => Some (PyNone, r)
            | None => None
            end
          else if Ascii.eqb c "t" then
            match strip_prefix "rue" rest with
            | Some r => Some (PyBool true, r)
            | None => None
            end
          else if Ascii.eqb c "f" then
            match strip_prefix "alse" rest with
            | Some r => Some (PyBool false, r)
            | None => None
            end
          else parse_number s
      | EmptyString => None
      end
  end.

(** [json.loads]: one value, with white space allowed around it. *)
Definition loads (s : string) : option pyval :=
  match parse_value (S (String.length s)) (skip_ws s) with
  | Some (v, r) =>
      match skip_ws r with
      | EmptyString => Some v
      | _ => None
      end
  | None => None
  end.

(** The reference implementation knows no limit of depth or of digits:
    a text is a document or raises [JSONDecodeError]. *)
#[global] Instance reference : JsonModule :=
  {| json_dumps := dumps;
     json_loads := fun s => match loads s with
                            | Some v => Ok v
                            | None => Raise JSONDecodeError
                            end |}.

(** *** Vocabulary of the round trip *)

(** What may follow a value in a document. *)
Definition stops (rest : string) : bool :=
  match rest with
  | EmptyString => true
  | String c _ =>
      Ascii.eqb c "," || Ascii.eqb c "]" || Ascii.eqb c "}" || Ascii.eqb c LF
  end.

(** The characters a written value can begin with. *)
Definition value_head (c : ascii) : bool :=
  Ascii.eqb c dq || Ascii.eqb c "[" || Ascii.eqb c "{" || Ascii.eqb c "n"
  || Ascii.eqb c "t" || Ascii.eqb c "f" || Ascii.eqb c "-" || is_digit c.

(** Number of nodes of a value: nesting depth enough to read it. *)
Fixpoint value_size (v : pyval) : nat :=
  match v with
  | PyList l => S (list_sum (map value_size l))
  | PyDict kv => S (list_sum (map (fun p => value_size (snd p)) kv))
  | _ => 1
  end.

(** One member of a written object. *)
Definition member (p : string * pyval) : string :=
  dumps_str (fst p) +:+ ": " +:+ dumps (snd p).

End RefJson.

(** What the round trip through a file needs of [json]: a value is
    written without a line break, and reading a written value, with the
    line terminator after it, gives the value back. *)
Class JsonRoundTrip (json : JsonModule) : Prop := {
  json_dumps_one_line : forall v, one_line (json_dumps v) = true;
  json_loads_dumps :
    forall v, distinct_keys v -> json_loads (json_dumps v +:+ newline) = Ok v
}.


(* ===================================================================== *)
(** ** A small forum to run the scripts on                                *)
(* ===================================================================== *)

Module Example.

Definition post_a : Submission :=
  {| s_id := "1abc"; s_title := "First post"; s_score := 12;
     s_url := "https://example.org/a"; s_author := Some "alice";
     s_created_utc := 1700000000; s_selftext := "hello" |}.

Definition post_b : Submission :=
  {| s_id := "1abd"; s_title := "Second post"; s_score := -3;
     s_url := "https://example.org/b"; s_author := None;
     s_created_utc := 1700000500; s_selftext := "" |}.

Definition post_c : Submission :=
  {| s_id := "1abe"; s_title := "Third post"; s_score := 0;
     s_url := "https://example.org/c"; s_author := Some "carol";
     s_created_utc := 1700001000; s_selftext := "bye" |}.

Definition comment_1 : Comment :=
  {| c_id := "c1"; c_parent_id := "t3_1abc"; c_body := "nice"; c_score := 3;
     c_author := None; c_created_utc := 1700000100 |}.

Definition comment_2 : Comment :=
  {| c_id := "c2"; c_parent_id := "t1_c1"; c_body := "agreed"; c_score := 1;
     c_author := Some "bob"; c_created_utc := 1700000200 |}.

Definition comment_3 : Comment :=
  {| c_id := "c3"; c_parent_id := "t3_1abe"; c_body := "late"; c_score := -1;
     c_author := Some "dave"; c_created_utc := 1700001100 |}.

(** Three posts; the client reports an API error for the second. *)
Definition forum : Reddit :=
  {| subreddit_lookup := None;
     newest :=
       [ (post_a, Forest [IsComment comment_1; MoreComments; IsComment comment_2]);
         (post_b, ReplaceMoreRaises (RedditAPIException "RATELIMIT"));
         (post_c, Forest [IsComment comment_3]) ];
     listing_end := None |}.

(** A community without posts. *)
Definition empty_forum : Reddit :=
  {| subreddit_lookup := None; newest := []; listing_end := None |}.

(** A listing that breaks after its first post. *)
Definition broken_forum : Reddit :=
  {| subreddit_lookup := None;
     newest := [ (post_a, Forest [IsComment comment_1]) ];
     listing_end := Some (OtherClientError "503") |}.

(** A listing that yields the same post twice: the script takes what
    the listing yields and does not look for repeated identifiers. *)
Definition repeating_forum : Reddit :=
  {| subreddit_lookup := None;
     newest := [ (post_a, Forest [IsComment comment_1]);
                 (post_a, Forest [IsComment comment_1]) ];
     listing_end := None |}.

(** Files left by an earlier run. *)
Definition old_line : string :=
  RefJson.dumps (PyDict [("id", PyStr "old")]) +:+ newline.

Definition old_files : gmap string string :=
  {[ POSTS_FILE := old_line; COMMENTS_FILE := old_line ]}.

(** A listing whose second post cannot be fetched, for a reason that is
    not an API error. *)
Definition failing_forum : Reddit :=
  {| subreddit_lookup := None;
     newest :=
       [ (post_a, Forest [IsComment comment_1]);
         (post_b, SubmissionRaises (OtherClientError "500"));
         (post_c, Forest [IsComment comment_3]) ];
     listing_end := None |}.

(** Two posts that nobody commented on. *)
Definition silent_forum : Reddit :=
  {| subreddit_lookup := None;
     newest := [ (post_b, Forest []); (post_c, Forest [MoreComments]) ];
     listing_end := None |}.

(** A plotting library whose blocks all complete. *)
Definition plots_fine : Visualization.Plotting :=
  {| Visualization.posts_comments_over_time := fun _ _ => None;
     Visualization.post_scores_distribution := fun _ => None;
     Visualization.comment_scores_distribution := fun _ => None;
     Visualization.top_words_in_titles := fun _ _ => None |}.

(** Titles to count the words of. *)
Definition titles : list pyval :=
  [ PyStr "The quick fox"; PyStr "Quick 2024 FOX, fox!" ].

(** A frame whose titles hold nothing to count. *)
Definition dull_frame : Visualization.DataFrame :=
  [ [("title", PyStr "The 2024")]; [("title", PyNone)]; [("id", PyStr "x")] ].

(** The directory of the analyzer after a run over [reddit] that started
    without files. *)
Definition nu_eta (reddit : Reddit) : gmap string file :=
  let st' := fst (scrape_subreddit reddit (start ∅)) in
  match fs st' !! POSTS_FILE, fs st' !! COMMENTS_FILE with
  | Some posts, Some comments =>
      {[ "posts_async.jsonl" := Text posts;
         "comments_async.jsonl" := Text comments ]}
  | Some posts, None => {[ "posts_async.jsonl" := Text posts ]}
  | None, Some comments => {[ "comments_async.jsonl" := Text comments ]}
  | None, None => ∅
  end.






End Example.

(* ===================================================================== *)
(** * Properties                                                          *)
(* ===================================================================== *)

(** ** Time conversion *)

Lemma days_to_civil_range (days : Z) :
  0 <= days <= 2932896 ->
  let '(y, m, d) := days_to_civil days in
  1970 <= y <= 9999 /\ 1 <= m <= 12 /\ 1 <= d <= 31.
Proof.
  intros Hd. unfold days_to_civil.
  set (z := days + 719468).
  set (era := z / 146097).
  set (doe := z - era * 146097).
  set (yoe := (doe - doe / 1460 + doe / 36524 - doe / 146096) / 365).
  set (doy := doe - (365 * yoe + yoe / 4 - yoe / 100)).
  set (mp := (5 * doy + 2) / 153).
  assert (Hera : 4 <= era <= 24)
    by (subst era z; Z.to_euclidean_division_equations; lia).
  assert (Hdoe : 0 <= doe <= 146096)
    by (subst doe era; Z.to_euclidean_division_equations; lia).
  assert (Hyoe : 0 <= yoe <= 399)
    by (subst yoe; Z.to_euclidean_division_equations; lia).
  assert (Hdoy : 0 <= doy <= 365)
    by (subst doy yoe; Z.to_euclidean_division_equations; lia).
  assert (Hmp : 0 <= mp <= 11)
    by (subst mp; Z.to_euclidean_division_equations; lia).
  assert (Hday : 1 <= doy - (153 * mp + 2) / 5 + 1 <= 31)
    by (subst mp; Z.to_euclidean_division_equations; lia).
  assert (Hlo : era = 4 -> 369 <= yoe /\ (yoe = 369 -> 306 <= doy))
    by (intros He; subst doy yoe doe; rewrite He in *; subst z;
        Z.to_euclidean_division_equations; lia).
  assert (Hhi : era = 24 -> yoe = 399 -> doy <= 305)
    by (intros He Hy; subst doy; rewrite Hy in *; subst yoe doe;
        rewrite He in *; subst z; Z.to_euclidean_division_equations; lia).
  assert (Hm10 : 306 <= doy -> 10 <= mp)
    by (intros; subst mp; Z.to_euclidean_division_equations; lia).
  assert (Hm9 : doy <= 305 -> mp <= 9)
    by (intros; subst mp; Z.to_euclidean_division_equations; lia).
  clearbody mp doy yoe doe era z.
  destruct (mp <? 10) eqn:E1; [apply Z.ltb_lt in E1 | apply Z.ltb_ge in E1].
  - destruct (mp + 3 <=? 2) eqn:E2; [apply Z.leb_le in E2; lia | ].
    repeat split; try lia.
  - destruct (mp - 9 <=? 2) eqn:E2; [ | apply Z.leb_gt in E2; lia ].
    repeat split; try lia.
Qed.

Lemma wall_clock_fields (ts : Z) (i : ttinfo) :
  0 <= ts + utcoff i <= 253402300799 ->
  let dt := wall_clock ts i in
  (1970 <= year dt <= 9999) /\ (1 <= month dt <= 12) /\ (1 <= day dt <= 31)
  /\ (0 <= hour dt <= 23) /\ (0 <= minute dt <= 59) /\ (0 <= second dt <= 59)
  /\ instant dt = ts /\ tti dt = i.
Proof.
  intros Hr. unfold wall_clock.
  pose proof (days_to_civil_range ((ts + utcoff i) / 86400)) as Hc.
  destruct (days_to_civil ((ts + utcoff i) / 86400)) as [[y m] d].
  cbn [year month day hour minute second instant tti].
  assert (Hdays : 0 <= (ts + utcoff i) / 86400 <= 2932896)
    by (Z.to_euclidean_division_equations; lia).
  specialize (Hc Hdays).
  repeat split; try lia; Z.to_euclidean_division_equations; lia.
Qed.

Lemma in_range_wall_clock (ts : Z) (i : ttinfo) :
  0 <= ts + utcoff i <= 253402300799 -> in_range (wall_clock ts i) = true.
Proof.
  intros Hr. pose proof (wall_clock_fields ts i Hr) as (Hy & _).
  unfold in_range, MINYEAR, MAXYEAR.
  apply andb_true_intro; split; apply Z.leb_le; lia.
Qed.

Lemma is_digit_digit_char (d : Z) :
  0 <= d <= 9 -> is_digit (digit_char d) = true.
Proof.
  intros Hd.
  assert (Hc : d = 0 \/ d = 1 \/ d = 2 \/ d = 3 \/ d = 4 \/ d = 5 \/ d = 6
               \/ d = 7 \/ d = 8 \/ d = 9) by lia.
  repeat (destruct Hc as [-> | Hc]; [reflexivity | ]).
  subst d. reflexivity.
Qed.

Lemma str_digits_four (fuel : nat) (y : Z) :
  (4 <= fuel)%nat -> 1000 <= y <= 9999 ->
  str_digits fuel y "" =
  String (digit_char (y / 10 / 10 / 10))
    (String (digit_char (y / 10 / 10 mod 10))
       (String (digit_char (y / 10 mod 10))
          (String (digit_char (y mod 10)) ""))).
Proof.
  intros Hf Hy.
  destruct fuel as [ | [ | [ | [ | fuel]]]]; try lia.
  cbn [str_digits].
  assert (H1 : (y <? 10) = false) by (apply Z.ltb_ge; lia).
  assert (H2 : (y / 10 <? 10) = false)
    by (apply Z.ltb_ge; Z.to_euclidean_division_equations; lia).
  assert (H3 : (y / 10 / 10 <? 10) = false)
    by (apply Z.ltb_ge; Z.to_euclidean_division_equations; lia).
  assert (H4 : (y / 10 / 10 / 10 <? 10) = true)
    by (apply Z.ltb_lt; Z.to_euclidean_division_equations; lia).
  rewrite H1, H2, H3, H4.
  assert (H5 : y / 10 / 10 / 10 mod 10 = y / 10 / 10 / 10)
    by (apply Z.mod_small; Z.to_euclidean_division_equations; lia).
  rewrite H5. reflexivity.
Qed.

Lemma str_int_four (y : Z) :
  1000 <= y <= 9999 ->
  str_int y =
  String (digit_char (y / 10 / 10 / 10))
    (String (digit_char (y / 10 / 10 mod 10))
       (String (digit_char (y / 10 mod 10))
          (String (digit_char (y mod 10)) ""))).
Proof.
  intros Hy. unfold str_int, str_nat.
  assert (H0 : (y <? 0) = false) by (apply Z.ltb_ge; lia).
  rewrite H0. apply str_digits_four; [ | exact Hy].
  assert (Hl : 9 <= Z.log2 y).
  { change 9 with (Z.log2 1000). apply Z.log2_le_mono. lia. }
  lia.
Qed.

(** Between the epoch and the end of year 9999 the zone of the script is
    eight hours ahead of UTC until 1975-06-12 16:00:00 UTC and seven
    hours ahead from then on. *)
Lemma find_trans_vietnam (t : Z) :
  0 <= t ->
  find_trans Asia_Ho_Chi_Minh t =
  if t <? 171820800 then tt_ 28800 "+08" else tt_ 25200 "+07".
Proof.
  intros Ht. unfold find_trans, Asia_Ho_Chi_Minh.
  cbn [trans_list_utc tti_before tz_after last_trans last].
  repeat (match goal with
          | |- context [?a <? ?b] => destruct (Z.ltb_spec a b); try lia
          end); reflexivity.
Qed.

Lemma shape_of_fields (dt : datetime) :
  1000 <= year dt <= 9999 -> 0 <= month dt <= 99 -> 0 <= day dt <= 99 ->
  0 <= hour dt <= 99 -> 0 <= minute dt <= 99 -> 0 <= second dt <= 99 ->
  (exists z rest, tzname (tti dt) = String z rest /\ z <> " "%char) ->
  timestamp_shape (strftime dt) = true.
Proof.
  intros Hy Hm Hd Hh Hn Hs (z & rest & Hz & Hne).
  unfold strftime. rewrite (str_int_four _ Hy), Hz. unfold pad2.
  cbv [String.append timestamp_shape forallb].
  rewrite !is_digit_digit_char
    by (Z.to_euclidean_division_equations; lia).
  cbn [andb]. apply negb_true_iff, Ascii.eqb_neq. exact Hne.
Qed.

Lemma fromtimestamp_UTC (t : Z) :
  0 <= t <= 253402300799 ->
  fromtimestamp t UTC = Ok (wall_clock t (tt_ 0 "UTC")).
Proof.
  intros Ht. unfold fromtimestamp.
  replace (find_trans UTC t) with (tt_ 0 "UTC") by reflexivity.
  rewrite in_range_wall_clock; [reflexivity | ].
  unfold tt_, utcoff. lia.
Qed.

Lemma astimezone_in_range (dt : datetime) (tz : ZoneInfo) :
  0 <= instant dt + utcoff (find_trans tz (instant dt)) <= 253402300799 ->
  astimezone dt tz = Ok (wall_clock (instant dt) (find_trans tz (instant dt))).
Proof.
  intros Hr. unfold astimezone. rewrite in_range_wall_clock; [reflexivity | exact Hr].
Qed.

Lemma instant_wall_clock (ts : Z) (i : ttinfo) : instant (wall_clock ts i) = ts.
Proof.
  unfold wall_clock. destruct (days_to_civil _) as [[y m] d]. reflexivity.
Qed.

Lemma result_bind_Ok {A B : Type} (a : A) (k : A -> result B) :
  (Ok a ≫= k) = k a.
Proof. reflexivity. Qed.

Lemma convert_in_range (tz : ZoneInfo) (t : Z) :
  0 <= t <= 253402300799 ->
  0 <= t + utcoff (find_trans tz t) <= 253402300799 ->
  convert_utc_to_zone tz t = Ok (strftime (wall_clock t (find_trans tz t))).
Proof.
  intros Ht Hloc. unfold convert_utc_to_zone.
  rewrite (fromtimestamp_UTC t Ht), result_bind_Ok.
  rewrite astimezone_in_range; rewrite instant_wall_clock; [ | exact Hloc].
  rewrite result_bind_Ok. reflexivity.
Qed.

Lemma conversion_raises (t : Z) (e : exc) :
  convert_utc_to_vietnam_time t = Raise e -> e = ValueError \/ e = OverflowError.
Proof.
  unfold convert_utc_to_vietnam_time, convert_utc_to_zone, fromtimestamp.
  destruct (in_range (wall_clock t (find_trans UTC t)));
    [rewrite result_bind_Ok | intros [= <-]; left; reflexivity].
  unfold astimezone. destruct (in_range _).
  - rewrite result_bind_Ok. discriminate.
  - intros [= <-]. right; reflexivity.
Qed.

(** *** The domain of the conversion *)

Lemma days_to_civil_year (days : Z) :
  let '(y, _, _) := days_to_civil days in
  (1 <= y <= 9999) <-> (-719162 <= days <= 2932896).
Proof.
  unfold days_to_civil.
  set (z := days + 719468).
  set (era := z / 146097).
  set (doe := z - era * 146097).
  set (yoe := (doe - doe / 1460 + doe / 36524 - doe / 146096) / 365).
  set (doy := doe - (365 * yoe + yoe / 4 - yoe / 100)).
  set (mp := (5 * doy + 2) / 153).
  assert (Hz : z = era * 146097 + doe) by (subst doe; lia).
  assert (Hdoe : 0 <= doe <= 146096)
    by (subst doe era; Z.to_euclidean_division_equations; lia).
  assert (Hyoe : 0 <= yoe <= 399)
    by (subst yoe; Z.to_euclidean_division_equations; lia).
  assert (Hdoy : 0 <= doy <= 365)
    by (subst doy yoe; Z.to_euclidean_division_equations; lia).
  assert (Hlo : yoe = 0 -> doy = doe)
    by (intros Hy; subst doy; rewrite Hy; Z.to_euclidean_division_equations; lia).
  assert (Hlo' : doe <= 364 -> yoe = 0)
    by (intros; subst yoe; Z.to_euclidean_division_equations; lia).
  assert (Hlo'' : yoe = 0 -> doe <= 365)
    by (intros; subst yoe; Z.to_euclidean_division_equations; lia).
  assert (Hhi : yoe = 399 -> doy = doe - 145731)
    by (intros Hy; subst doy; rewrite Hy; Z.to_euclidean_division_equations; lia).
  assert (Hhi' : 145731 <= doe -> yoe = 399)
    by (intros; subst yoe; Z.to_euclidean_division_equations; lia).
  assert (Hm10 : 306 <= doy <-> 10 <= mp)
    by (subst mp; split; intros; Z.to_euclidean_division_equations; lia).
  assert (Hmp : 0 <= mp <= 11)
    by (subst mp; Z.to_euclidean_division_equations; lia).
  assert (Hd : days = z - 719468) by (subst z; lia).
  clearbody mp doy yoe doe era z. subst days z.
  destruct (mp <? 10) eqn:E1; [apply Z.ltb_lt in E1 | apply Z.ltb_ge in E1].
  - destruct (mp + 3 <=? 2) eqn:E2; [apply Z.leb_le in E2; lia | ].
    split; intros H; lia.
  - destruct (mp - 9 <=? 2) eqn:E2; [ | apply Z.leb_gt in E2; lia ].
    split; intros H; lia.
Qed.

Lemma in_range_iff (ts : Z) (i : ttinfo) :
  in_range (wall_clock ts i) = true
  <-> -62135596800 <= ts + utcoff i <= 253402300799.
Proof.
  unfold in_range, wall_clock, MINYEAR, MAXYEAR.
  pose proof (days_to_civil_year ((ts + utcoff i) / 86400)) as Hy.
  destruct (days_to_civil ((ts + utcoff i) / 86400)) as [[y m] d].
  cbn [year]. rewrite andb_true_iff, !Z.leb_le, Hy.
  split; intros H; Z.to_euclidean_division_equations; lia.
Qed.

Lemma vietnam_offset (t : Z) :
  25200 <= utcoff (find_trans Asia_Ho_Chi_Minh t) <= 32400
  /\ (171820800 <= t -> utcoff (find_trans Asia_Ho_Chi_Minh t) = 25200)
  /\ (t < -2004073590 -> utcoff (find_trans Asia_Ho_Chi_Minh t) = 25590).
Proof.
  unfold find_trans, Asia_Ho_Chi_Minh.
  cbn [trans_list_utc tti_before tz_after last_trans last].
  repeat (match goal with
          | |- context [?a <? ?b] => destruct (Z.ltb_spec a b); try lia
          end); cbn [utcoff tt_]; lia.
Qed.

(** X9: the conversion returns exactly for the instants from the first
    second of year 1 (UTC) to the last second of year 9999 on the wall
    clock of Vietnam; for every other epoch value it raises. *)
Theorem conversion_domain (t : Z) :
  is_ok (convert_utc_to_vietnam_time t) = true <-> convertible t.
Proof.
  unfold convertible, convert_utc_to_vietnam_time, convert_utc_to_zone,
    fromtimestamp, astimezone.
  pose proof (in_range_iff t (find_trans UTC t)) as Hu.
  replace (utcoff (find_trans UTC t)) with 0 in Hu by reflexivity.
  destruct (in_range (wall_clock t (find_trans UTC t))).
  - rewrite result_bind_Ok, instant_wall_clock.
    pose proof (in_range_iff t (find_trans Asia_Ho_Chi_Minh t)) as Hv.
    pose proof (vietnam_offset t) as (Hoff & Hlate & Hearly).
    destruct (in_range (wall_clock t (find_trans Asia_Ho_Chi_Minh t))).
    + rewrite result_bind_Ok. cbn [is_ok].
      split; [intros _ | reflexivity].
      destruct Hu as [Hu _], Hv as [Hv _].
      specialize (Hu eq_refl). specialize (Hv eq_refl).
      destruct (Z.le_gt_cases 171820800 t) as [Hl | Hl]; [ | lia].
      rewrite (Hlate Hl) in Hv. lia.
    + cbn [is_ok mbind result_bind]. split; [discriminate | ].
      intros Ht. destruct Hv as [_ Hv]. apply Hv.
      destruct (Z.le_gt_cases 171820800 t) as [Hl | Hl];
        [rewrite (Hlate Hl) | ]; lia.
  - cbn [is_ok mbind result_bind]. split; [discriminate | ].
    intros Ht. destruct Hu as [_ Hu]. apply Hu. lia.
Qed.


(** *** The text is the wall clock of the instant *)

Lemma find_trans_vietnam_zone (t : Z) :
  find_trans Asia_Ho_Chi_Minh t = vietnam_zone t.
Proof.
  unfold find_trans, Asia_Ho_Chi_Minh, vietnam_zone.
  cbn [trans_list_utc tti_before tz_after last_trans last].
  repeat (match goal with
          | |- context [?a <? ?b] => destruct (Z.ltb_spec a b); try lia
          end); reflexivity.
Qed.

Lemma days_before_month_cases (y m : Z) :
  1 <= m <= 12 ->
  days_before_month y m
  = (if m <=? 1 then 0 else if m <=? 2 then 31
     else (if is_leap y then 1 else 0)
          + (if m <=? 3 then 59 else if m <=? 4 then 90 else if m <=? 5 then 120
             else if m <=? 6 then 151 else if m <=? 7 then 181
             else if m <=? 8 then 212 else if m <=? 9 then 243
             else if m <=? 10 then 273 else if m <=? 11 then 304 else 334)).
Proof.
  intros Hm.
  assert (Hc : m = 1 \/ m = 2 \/ m = 3 \/ m = 4 \/ m = 5 \/ m = 6 \/ m = 7
               \/ m = 8 \/ m = 9 \/ m = 10 \/ m = 11 \/ m = 12) by lia.
  unfold days_before_month, days_in_month.
  repeat (destruct Hc as [-> | Hc]; [destruct (is_leap y); reflexivity | ]).
  subst m. destruct (is_leap y); reflexivity.
Qed.

Lemma is_leap_spec (y : Z) :
  (if is_leap y then 1 else 0) = y / 4 - (y - 1) / 4 - (y / 100 - (y - 1) / 100)
                                 + (y / 400 - (y - 1) / 400).
Proof.
  unfold is_leap.
  destruct (Z.eqb_spec (y mod 4) 0), (Z.eqb_spec (y mod 100) 0),
    (Z.eqb_spec (y mod 400) 0); cbn [andb orb negb];
    Z.to_euclidean_division_equations; lia.
Qed.

(** One month of the year that starts in March: the tables are computed
    and what is left is linear. *)
Ltac calendar_case mp m y Hm Hy :=
  subst mp;
  repeat match goal with
         | H : context [(153 * ?k + 2) / 5] |- _ =>
             let c := eval vm_compute in ((153 * k + 2) / 5) in
             change ((153 * k + 2) / 5) with c in H
         | |- context [(153 * ?k + 2) / 5] =>
             let c := eval vm_compute in ((153 * k + 2) / 5) in
             change ((153 * k + 2) / 5) with c
         end;
  vm_compute in Hm; subst m;
  match type of Hy with
  | context [?a <=? ?b] =>
      let c := eval vm_compute in (a <=? b) in change (a <=? b) with c in Hy
  end;
  cbv iota in Hy;
  split; [lia | ];
  unfold days_from_civil, days_before_year;
  rewrite days_before_month_cases by lia;
  unfold days_in_month;
  cbn [Z.eqb Z.leb Z.compare Pos.compare Pos.compare_cont Pos.eqb orb];
  pose proof (is_leap_spec y) as Hleap;
  destruct (is_leap y);
  (split; [ | subst y; Z.to_euclidean_division_equations; lia]);
  subst y; Z.to_euclidean_division_equations; lia.

(** The date that [days_to_civil] computes is a date of the calendar,
    and it is the date of the given day. *)
Lemma days_to_civil_correct (days : Z) :
  let '(y, m, d) := days_to_civil days in
  1 <= m <= 12 /\ 1 <= d <= days_in_month y m /\ days_from_civil y m d = days.
Proof.
  unfold days_to_civil.
  set (z := days + 719468).
  set (era := z / 146097).
  set (doe := z - era * 146097).
  set (yoe := (doe - doe / 1460 + doe / 36524 - doe / 146096) / 365).
  set (doy := doe - (365 * yoe + yoe / 4 - yoe / 100)).
  set (mp := (5 * doy + 2) / 153).
  assert (Hdays : days = era * 146097 + doe - 719468) by (subst doe z; lia).
  assert (Hdoe : 0 <= doe <= 146096)
    by (subst doe era; Z.to_euclidean_division_equations; lia).
  assert (Hyoe : 0 <= yoe <= 399)
    by (subst yoe; Z.to_euclidean_division_equations; lia).
  assert (Hdoy : 0 <= doy <= 365)
    by (subst doy yoe; Z.to_euclidean_division_equations; lia).
  assert (Hdoy' : doy = 365 ->
                  (yoe + 1) mod 4 = 0 /\ ((yoe + 1) mod 100 <> 0 \/ yoe = 399)).
  { intros H. subst doy yoe. Z.to_euclidean_division_equations. lia. }
  assert (Hmp : 0 <= mp <= 11)
    by (subst mp; Z.to_euclidean_division_equations; lia).
  assert (Hd : (153 * mp + 2) / 5 <= doy < (153 * (mp + 1) + 2) / 5)
    by (subst mp; Z.to_euclidean_division_equations; lia).
  assert (Hdoe' : doe = 365 * yoe + yoe / 4 - yoe / 100 + doy) by (subst doy; lia).
  clearbody mp doy yoe doe era z. subst days. clear z.
  remember (if mp <? 10 then mp + 3 else mp - 9) as m eqn:Hm.
  remember (if m <=? 2 then yoe + era * 400 + 1 else yoe + era * 400) as y eqn:Hy.
  assert (Hc : mp = 0 \/ mp = 1 \/ mp = 2 \/ mp = 3 \/ mp = 4 \/ mp = 5 \/ mp = 6
               \/ mp = 7 \/ mp = 8 \/ mp = 9 \/ mp = 10 \/ mp = 11) by lia.
  repeat (destruct Hc as [Hc | Hc]; [calendar_case mp m y Hm Hy | ]).
  calendar_case mp m y Hm Hy.
Qed.

(** The years of four digits. *)
Lemma days_to_civil_four_digits (days : Z) :
  -354285 <= days <= 2932896 ->
  let '(y, _, _) := days_to_civil days in 1000 <= y <= 9999.
Proof.
  intros Hdays.
  pose proof (days_to_civil_year days) as Hyear.
  pose proof (days_to_civil_correct days) as Hcal.
  destruct (days_to_civil days) as [[y m] d].
  destruct Hcal as (Hm & Hd & Heq).
  split; [ | apply Hyear; lia].
  destruct (Z.le_gt_cases 1000 y) as [Hy | Hy]; [exact Hy | exfalso].
  assert (Hbd : days_before_month y m + (d - 1)
                <= 364 + (if is_leap y then 1 else 0)).
  { rewrite days_before_month_cases by exact Hm.
    assert (Hc : m = 1 \/ m = 2 \/ m = 3 \/ m = 4 \/ m = 5 \/ m = 6 \/ m = 7
                 \/ m = 8 \/ m = 9 \/ m = 10 \/ m = 11 \/ m = 12) by lia.
    unfold days_in_month in Hd.
    repeat (destruct Hc as [-> | Hc];
            [cbn [Z.eqb Pos.eqb orb] in Hd; destruct (is_leap y);
             cbn [Z.leb Z.compare Pos.compare Pos.compare_cont]; lia | ]).
    subst m. cbn [Z.eqb Pos.eqb orb] in Hd. destruct (is_leap y);
      cbn [Z.leb Z.compare Pos.compare Pos.compare_cont]; lia. }
  pose proof (is_leap_spec y) as Hleap.
  unfold days_from_civil, days_before_year in Heq.
  revert Hbd Hleap Heq. generalize (days_before_month y m).
  generalize (if is_leap y then 1 else 0).
  intros l b Hbd Hleap Heq. Z.to_euclidean_division_equations. lia.
Qed.

Lemma decimal_two (v : Z) : 0 <= v <= 99 -> decimal 2 v = pad2 v.
Proof.
  intros Hv. unfold pad2. cbv [decimal String.append].
  unfold decimal_digit, digit_char.
  replace (v / 10 mod 10) with (v / 10)
    by (Z.to_euclidean_division_equations; lia).
  reflexivity.
Qed.

Lemma decimal_four (y : Z) : 1000 <= y <= 9999 -> decimal 4 y = str_int y.
Proof.
  intros Hy. rewrite (str_int_four y Hy). cbv [decimal String.append].
  unfold decimal_digit, digit_char.
  replace (y / 10 / 10 / 10 mod 10) with (y / 10 / 10 / 10)
    by (Z.to_euclidean_division_equations; lia).
  reflexivity.
Qed.

(** C5, amended: for every epoch value whose wall clock in Vietnam lies
    in the years 1000 to 9999 the conversion returns (it never raises),
    and the text it returns reads [YYYY-MM-DD HH:MM:SS] followed by a
    space and the abbreviation that the zone has at that instant; the
    six fields are those of a date of the calendar and of a time of day,
    and they are the wall clock of the instant: the date and the time
    that lie as many seconds after 1970-01-01 00:00:00 as the epoch
    value plus the offset of the zone at that instant.  The result
    depends on the epoch value alone: it is a function of it. *)
Theorem conversion_total_and_formatted (t : Z) :
  four_digit_epoch t ->
  exists y m d h mi s : Z,
    convert_utc_to_vietnam_time t
    = Ok (timestamp_text y m d h mi s (tzname (vietnam_zone t)))
    /\ timestamp_shape (timestamp_text y m d h mi s (tzname (vietnam_zone t)))
       = true
    /\ 1000 <= y <= 9999 /\ 1 <= m <= 12 /\ 1 <= d <= days_in_month y m
    /\ 0 <= h <= 23 /\ 0 <= mi <= 59 /\ 0 <= s <= 59
    /\ days_from_civil y m d * 86400 + h * 3600 + mi * 60 + s
       = t + utcoff (vietnam_zone t).
Proof.
  unfold four_digit_epoch. intros Ht.
  pose proof (vietnam_offset t) as (Hoff & Hlate & Hearly).
  rewrite find_trans_vietnam_zone in Hoff, Hlate, Hearly.
  assert (Hloc : -30610224000 <= t + utcoff (vietnam_zone t) <= 253402300799).
  { destruct (Z.le_gt_cases 171820800 t) as [Hl | Hl];
      [rewrite (Hlate Hl); lia | ].
    destruct (Z.lt_ge_cases t (-2004073590)) as [He | He];
      [rewrite (Hearly He); lia | lia]. }
  assert (Hconv : convert_utc_to_vietnam_time t
                  = Ok (strftime (wall_clock t (vietnam_zone t)))).
  { unfold convert_utc_to_vietnam_time, convert_utc_to_zone, fromtimestamp,
      astimezone.
    assert (Hu : in_range (wall_clock t (find_trans UTC t)) = true).
    { apply in_range_iff. replace (utcoff (find_trans UTC t)) with 0 by reflexivity.
      lia. }
    rewrite Hu, result_bind_Ok, instant_wall_clock, find_trans_vietnam_zone.
    assert (Hv : in_range (wall_clock t (vietnam_zone t)) = true)
      by (apply in_range_iff; lia).
    rewrite Hv, result_bind_Ok. reflexivity. }
  rewrite Hconv. clear Hconv.
  set (loc := t + utcoff (vietnam_zone t)) in *.
  assert (Hdays : -354285 <= loc / 86400 <= 2932896)
    by (Z.to_euclidean_division_equations; lia).
  pose proof (days_to_civil_correct (loc / 86400)) as Hcal.
  pose proof (days_to_civil_four_digits (loc / 86400) Hdays) as Hyear.
  unfold strftime, wall_clock. fold loc.
  destruct (days_to_civil (loc / 86400)) as [[y m] d].
  destruct Hcal as (Hm & Hd & Heq).
  cbn [year month day hour minute second instant tti].
  exists y, m, d, (loc mod 86400 / 3600), (loc mod 86400 mod 3600 / 60),
    (loc mod 86400 mod 60).
  assert (Hd' : 1 <= d <= 31).
  { unfold days_in_month in Hd.
    destruct (m =? 2); [destruct (is_leap y); lia | ].
    destruct ((m =? 4) || (m =? 6) || (m =? 9) || (m =? 11)); lia. }
  assert (Hh : 0 <= loc mod 86400 / 3600 <= 23)
    by (Z.to_euclidean_division_equations; lia).
  assert (Hn : 0 <= loc mod 86400 mod 3600 / 60 <= 59)
    by (Z.to_euclidean_division_equations; lia).
  assert (Hs : 0 <= loc mod 86400 mod 60 <= 59)
    by (Z.to_euclidean_division_equations; lia).
  assert (Htext : str_int y +:+ "-" +:+ pad2 m +:+ "-" +:+ pad2 d +:+ " "
                  +:+ pad2 (loc mod 86400 / 3600) +:+ ":"
                  +:+ pad2 (loc mod 86400 mod 3600 / 60) +:+ ":"
                  +:+ pad2 (loc mod 86400 mod 60) +:+ " "
                  +:+ tzname (vietnam_zone t)
                  = timestamp_text y m d (loc mod 86400 / 3600)
                      (loc mod 86400 mod 3600 / 60) (loc mod 86400 mod 60)
                      (tzname (vietnam_zone t))).
  { unfold timestamp_text.
    rewrite (decimal_four y Hyear), !decimal_two by lia. reflexivity. }
  split; [rewrite Htext; reflexivity | ].
  split.
  { rewrite <- Htext.
    apply (shape_of_fields
             {| year := y; month := m; day := d;
                hour := loc mod 86400 / 3600;
                minute := loc mod 86400 mod 3600 / 60;
                second := loc mod 86400 mod 60;
                instant := t; tti := vietnam_zone t |});
      cbn [year month day hour minute second tti]; try lia.
    unfold vietnam_zone.
    repeat (match goal with
            | |- context [?a <? ?b] => destruct (a <? b)
            end);
      cbn [tzname tt_]; eexists _, _; (split; [reflexivity | discriminate]). }
  repeat (split; [lia | ]).
  rewrite Heq. Z.to_euclidean_division_equations. lia.
Qed.

(** A run of the theorem of C5 on a timestamp of November 2023. *)
Lemma conversion_total_and_formatted_witness :
  exists y m d h mi s : Z,
    convert_utc_to_vietnam_time 1700000000
    = Ok (timestamp_text y m d h mi s (tzname (vietnam_zone 1700000000)))
    /\ timestamp_shape
         (timestamp_text y m d h mi s (tzname (vietnam_zone 1700000000))) = true
    /\ 1000 <= y <= 9999 /\ 1 <= m <= 12 /\ 1 <= d <= days_in_month y m
    /\ 0 <= h <= 23 /\ 0 <= mi <= 59 /\ 0 <= s <= 59
    /\ days_from_civil y m d * 86400 + h * 3600 + mi * 60 + s
       = 1700000000 + utcoff (vietnam_zone 1700000000).
Proof.
  apply (conversion_total_and_formatted 1700000000).
  unfold four_digit_epoch. lia.
Defined.

(** C5, as stated, fails for epoch values that the function accepts: the
    second before the year 1000 comes back with a year of three digits
    and the first second of year 1 with a year of one, and the second
    after 9999-12-31 23:59:59 +07, which is still a date of UTC, makes
    the conversion raise. *)
Lemma conversion_misformats_or_raises_outside :
  convert_utc_to_vietnam_time (-30610249591) = Ok "999-12-31 23:59:59 LMT"
  /\ timestamp_shape "999-12-31 23:59:59 LMT" = false
  /\ convert_utc_to_vietnam_time (-62135596800) = Ok "1-01-01 07:06:30 LMT"
  /\ timestamp_shape "1-01-01 07:06:30 LMT" = false
  /\ is_ok (fromtimestamp 253402275600 UTC) = true
  /\ convert_utc_to_vietnam_time 253402275600 = Raise OverflowError.
Proof. repeat split; vm_compute; reflexivity. Qed.

(** C3, as stated, fails: at epoch 0 the conversion does not yield
    [1970-01-01 07:00:00] followed by an abbreviation. *)
Lemma epoch_zero_is_not_seven_oclock :
  ~ exists abbrev : string,
      convert_utc_to_vietnam_time 0 = Ok ("1970-01-01 07:00:00 " +:+ abbrev).
Proof.
  intros [abbrev H]. vm_compute in H. discriminate H.
Qed.

(** C3, amended: at epoch 0 the zone of the script is eight hours ahead
    of UTC and the conversion yields [1970-01-01 08:00:00 +08]; in any
    zone that is seven hours ahead of UTC at epoch 0, the same conversion
    yields [1970-01-01 07:00:00] followed by the abbreviation of that
    zone. *)
Theorem epoch_zero_conversion (tz : ZoneInfo) :
  utcoff (find_trans tz 0) = 25200 ->
  convert_utc_to_zone tz 0
    = Ok ("1970-01-01 07:00:00 " +:+ tzname (find_trans tz 0))
  /\ utcoff (find_trans Asia_Ho_Chi_Minh 0) = 28800
  /\ convert_utc_to_vietnam_time 0 = Ok "1970-01-01 08:00:00 +08".
Proof.
  intros Hoff. split; [ | split; reflexivity].
  rewrite convert_in_range by (rewrite ?Hoff; lia).
  destruct (find_trans tz 0) as [off name]. cbn [utcoff] in Hoff. subst off.
  reflexivity.
Qed.

(** The theorem of C3 at a zone that has been seven hours ahead of UTC
    throughout. *)
Lemma epoch_zero_conversion_witness :
  convert_utc_to_zone
    {| tti_before := tt_ 25200 "+07"; trans_list_utc := [];
       tz_after := tt_ 25200 "+07" |} 0
    = Ok "1970-01-01 07:00:00 +07"
  /\ utcoff (find_trans Asia_Ho_Chi_Minh 0) = 28800
  /\ convert_utc_to_vietnam_time 0 = Ok "1970-01-01 08:00:00 +08".
Proof.
  apply (epoch_zero_conversion
           {| tti_before := tt_ 25200 "+07"; trans_list_utc := [];
              tz_after := tt_ 25200 "+07" |}).
  reflexivity.
Defined.

(** ** The collector *)

(** *** Computations that leave the files alone *)

Lemma quiet_ret {A} (a : A) : quiet (mret a).
Proof.
  intros st. split; [reflexivity | ].
  exists []. split; [symmetry; apply app_nil_r | constructor].
Qed.

Lemma quiet_bind {A B} (m : M A) (k : A -> M B) :
  quiet m -> (forall a, quiet (k a)) -> quiet (m ≫= k).
Proof.
  intros Hm Hk st. unfold mbind, M_bind.
  destruct (Hm st) as (Hfs & evs & Hev & Hq).
  destruct (m st) as [st1 [a | e]]; cbn [fst] in *.
  - destruct (Hk a st1) as (Hfs' & evs' & Hev' & Hq').
    split; [congruence | ].
    exists (evs ++ evs'). split.
    + rewrite Hev', Hev. symmetry. apply app_assoc.
    + apply Forall_app. split; assumption.
  - split; [assumption | ]. exists evs. split; assumption.
Qed.

Lemma quiet_emit (ev : event) : is_file_event ev = false -> quiet (emit ev).
Proof.
  intros Hev st. split; [reflexivity | ].
  exists [ev]. split; [reflexivity | ]. constructor; [assumption | constructor].
Qed.

Lemma quiet_unchanged {A} (m : M A) :
  (forall st, fs (fst (m st)) = fs st /\ events (fst (m st)) = events st) ->
  quiet m.
Proof.
  intros H st. destruct (H st) as [Hfs Hev]. split; [assumption | ].
  exists []. split; [rewrite Hev; symmetry; apply app_nil_r | constructor].
Qed.

Lemma quiet_get {A} (proj : state -> A) : quiet (get proj).
Proof. apply quiet_unchanged. intros st. split; reflexivity. Qed.

Lemma quiet_raise {A} (e : exc) : quiet (@raise A e).
Proof. apply quiet_unchanged. intros st. split; reflexivity. Qed.

Lemma quiet_lift {A} (r : result A) : quiet (lift r).
Proof. apply quiet_unchanged. intros st. split; reflexivity. Qed.

Lemma quiet_set_post_count (n : Z) : quiet (set_post_count n).
Proof. apply quiet_unchanged. intros st. split; reflexivity. Qed.

Lemma quiet_set_post_data (d : pyval) : quiet (set_post_data d).
Proof. apply quiet_unchanged. intros st. split; reflexivity. Qed.

Lemma quiet_set_all_posts_data (l : list pyval) : quiet (set_all_posts_data l).
Proof. apply quiet_unchanged. intros st. split; reflexivity. Qed.

Lemma quiet_set_all_comments_data (l : list pyval) :
  quiet (set_all_comments_data l).
Proof. apply quiet_unchanged. intros st. split; reflexivity. Qed.

Lemma quiet_log_info (msg : string) : quiet (log_info msg).
Proof. apply quiet_emit. reflexivity. Qed.

Lemma quiet_log_error (msg : string) : quiet (log_error msg).
Proof. apply quiet_emit. reflexivity. Qed.

Lemma quiet_for_each {A} (l : list A) (body : A -> M unit) :
  (forall x, quiet (body x)) -> quiet (for_each l body).
Proof.
  intros Hb. induction l as [ | x l IH]; cbn [for_each].
  - apply quiet_ret.
  - apply quiet_bind; [apply Hb | intros _; exact IH].
Qed.

Lemma quiet_try_except_api (body : M unit) (handler : string -> M unit) :
  quiet body -> (forall msg, quiet (handler msg)) ->
  quiet (try_except_api body handler).
Proof.
  intros Hb Hh st. unfold try_except_api.
  destruct (Hb st) as (Hfs & evs & Hev & Hq).
  destruct (body st) as [st1 [a | e]]; cbn [fst] in *.
  - split; [assumption | ]. exists evs. split; assumption.
  - destruct e; try (split; [assumption | exists evs; split; assumption]).
    destruct (Hh msg st1) as (Hfs' & evs' & Hev' & Hq').
    split; [congruence | ].
    exists (evs ++ evs'). split.
    + rewrite Hev', Hev. symmetry. apply app_assoc.
    + apply Forall_app. split; assumption.
Qed.

Create HintDb quiet.

#[local] Hint Resolve quiet_ret quiet_get quiet_raise quiet_lift
  quiet_set_post_count quiet_set_post_data quiet_set_all_posts_data
  quiet_set_all_comments_data quiet_log_info quiet_log_error : quiet.

(** Breaks a computation into its steps and discharges each of them. *)
Ltac quiet_steps :=
  repeat match goal with
         | |- forall _, _ => intro
         | |- quiet (_ ≫= _) => apply quiet_bind
         | |- quiet (for_each _ _) => apply quiet_for_each
         | |- quiet (try_except_api _ _) => apply quiet_try_except_api
         | |- quiet (emit _) => apply quiet_emit; reflexivity
         | |- quiet _ => solve [auto with quiet]
         end.

Section Traversal.

Context {json : JsonModule}.

Lemma quiet_collect_comment (post : Submission) (n : node) :
  quiet (collect_comment post n).
Proof. destruct n; unfold collect_comment; quiet_steps. Qed.

Lemma quiet_fetch_comments (post : Submission) (answer : fetched) :
  quiet (fetch_comments post answer).
Proof.
  unfold fetch_comments. destruct answer; quiet_steps.
  apply quiet_collect_comment.
Qed.

Lemma quiet_process_post (entry : Submission * fetched) :
  quiet (process_post entry).
Proof.
  destruct entry as [post answer]. unfold process_post. quiet_steps.
  apply quiet_fetch_comments.
Qed.

Lemma quiet_traverse (listing : list (Submission * fetched) * option exc) :
  quiet (traverse listing).
Proof.
  unfold traverse. quiet_steps.
  - apply quiet_process_post.
  - destruct (snd listing); quiet_steps.
Qed.

End Traversal.

(** *** What the traversal accumulates *)

Lemma with_comments_nil (st : state) : with_comments [] st = st.
Proof.
  destruct st. unfold with_comments. cbn. rewrite app_nil_r. reflexivity.
Qed.

Lemma with_comments_cons (c : pyval) (cs : list pyval) (st : state) :
  with_comments cs (with_comments [c] st) = with_comments (c :: cs) st.
Proof.
  unfold with_comments. cbn. rewrite <- app_assoc. reflexivity.
Qed.

Lemma M_bind_Ok {A B} (m : M A) (k : A -> M B) (st st1 : state) (a : A) :
  m st = (st1, Ok a) -> (m ≫= k) st = k a st1.
Proof. intros H. unfold mbind, M_bind. rewrite H. reflexivity. Qed.

Lemma M_bind_Raise {A B} (m : M A) (k : A -> M B) (st st1 : state) (e : exc) :
  m st = (st1, Raise e) -> (m ≫= k) st = (st1, Raise e).
Proof. intros H. unfold mbind, M_bind. rewrite H. reflexivity. Qed.

Lemma post_record_append (post : Submission) (created : string)
    (cs l : list pyval) :
  foldl (fun d c => getitem_append d "comments" c) (post_record post created l) cs
  = post_record post created (l ++ cs).
Proof.
  revert l. induction cs as [ | c cs IH]; intros l; cbn [foldl].
  - rewrite app_nil_r. reflexivity.
  - replace (getitem_append (post_record post created l) "comments" c)
      with (post_record post created (l ++ [c])) by reflexivity.
    rewrite IH, <- app_assoc. reflexivity.
Qed.

Section Accumulation.

Context {json : JsonModule}.

#[local] Opaque convert_utc_to_vietnam_time.

Lemma collect_comment_spec (post : Submission) (n : node) (st : state) :
  collect_comment post n st =
  match n with
  | MoreComments => (st, Ok ())
  | IsComment c =>
      match convert_utc_to_vietnam_time (c_created_utc c) with
      | Ok created => (with_comments [new_comment_data post c created] st, Ok ())
      | Raise e => (st, Raise e)
      end
  end.
Proof.
  destruct n as [c | ]; [ | reflexivity].
  unfold collect_comment, mbind, M_bind, lift.
  destruct (convert_utc_to_vietnam_time (c_created_utc c)); reflexivity.
Qed.

Lemma for_each_collect (post : Submission) (nodes : list node) (st : state) :
  match comment_records post nodes with
  | Ok cs => for_each nodes (collect_comment post) st = (with_comments cs st, Ok ())
  | Raise e => snd (for_each nodes (collect_comment post) st) = Raise e
  end.
Proof.
  revert st. induction nodes as [ | n nodes IH]; intros st.
  - cbn. rewrite with_comments_nil. reflexivity.
  - cbn [for_each comment_records]. unfold mbind, M_bind.
    rewrite collect_comment_spec.
    destruct n as [c | ].
    + destruct (convert_utc_to_vietnam_time (c_created_utc c)) as [created | e];
        [ | reflexivity].
      specialize (IH (with_comments [new_comment_data post c created] st)).
      destruct (comment_records post nodes) as [cs | e].
      * rewrite IH, with_comments_cons. reflexivity.
      * exact IH.
    + apply IH.
Qed.

Lemma comment_records_raises (post : Submission) (nodes : list node) (e : exc) :
  comment_records post nodes = Raise e -> e = ValueError \/ e = OverflowError.
Proof.
  induction nodes as [ | [c | ] nodes IH]; cbn [comment_records].
  - discriminate.
  - destruct (convert_utc_to_vietnam_time (c_created_utc c)) as [created | e'] eqn:E.
    + destruct (comment_records post nodes); [discriminate | ].
      intros [= <-]. apply IH. reflexivity.
    + intros [= <-]. apply (conversion_raises _ _ E).
  - exact IH.
Qed.

Lemma try_fetch_spec (post : Submission) (answer : fetched) (st : state)
    (handler : string -> M unit) :
  (forall msg st1, exists evs,
      handler msg st1 =
      ({| fs := fs st1; events := events st1 ++ evs;
          all_posts_data := all_posts_data st1;
          all_comments_data := all_comments_data st1;
          post_count := post_count st1; post_data := post_data st1 |}, Ok ())) ->
  match comments_for post answer with
  | Ok cs =>
      exists evs,
        try_except_api (fetch_comments post answer) handler st =
        ({| fs := fs st; events := events st ++ evs;
            all_posts_data := all_posts_data st;
            all_comments_data := all_comments_data st ++ cs;
            post_count := post_count st;
            post_data := foldl (fun d c => getitem_append d "comments" c)
                               (post_data st) cs |}, Ok ())
  | Raise e =>
      snd (try_except_api (fetch_comments post answer) handler st) = Raise e
  end.
Proof.
  intros Hh. unfold try_except_api, fetch_comments.
  destruct answer as [e | e | nodes]; cbn [comments_for].
  - unfold mbind, M_bind, emit, raise.
    destruct e; try reflexivity.
    match goal with |- context [handler msg ?s] => destruct (Hh msg s) as [evs ->] end.
    cbn. rewrite ?app_nil_r, <- ?app_assoc. eexists. reflexivity.
  - unfold mbind, M_bind, log_info, emit, raise.
    destruct e; try reflexivity.
    match goal with |- context [handler msg ?s] => destruct (Hh msg s) as [evs ->] end.
    cbn. rewrite ?app_nil_r, <- ?app_assoc. eexists. reflexivity.
  - unfold mbind, M_bind, log_info, emit.
    match goal with
    | |- context [for_each nodes (collect_comment post) ?s] =>
        pose proof (for_each_collect post nodes s) as Hloop
    end.
    destruct (comment_records post nodes) as [cs | e] eqn:E.
    + rewrite Hloop. cbn. rewrite <- ?app_assoc. eexists. reflexivity.
    + destruct (for_each nodes (collect_comment post) _) as [st1 r].
      cbn [snd] in Hloop. subst r.
      destruct (comment_records_raises _ _ _ E) as [-> | ->]; reflexivity.
Qed.

End Accumulation.

(** Runs the state-passing steps of a computation as far as they go. *)
Ltac run_steps :=
  cbv beta iota zeta
      delta [mbind M_bind mret M_ret get set_fs set_post_count set_post_data
             set_all_posts_data set_all_comments_data log_info log_error emit
             lift raise fst snd fs events all_posts_data all_comments_data
             post_count post_data].

Section Posts.

Context {json : JsonModule}.

#[local] Opaque convert_utc_to_vietnam_time.

Lemma process_post_spec (post : Submission) (answer : fetched) (st : state) :
  match convert_utc_to_vietnam_time (s_created_utc post) with
  | Raise e => snd (process_post (post, answer) st) = Raise e
  | Ok created =>
      match comments_for post answer with
      | Raise e => snd (process_post (post, answer) st) = Raise e
      | Ok cs =>
          exists st',
            process_post (post, answer) st = (st', Ok ())
            /\ all_posts_data st' = all_posts_data st ++ [post_record post created cs]
            /\ all_comments_data st' = all_comments_data st ++ cs
            /\ post_count st' = post_count st + 1
      end
  end.
Proof.
  unfold process_post. run_steps.
  destruct (convert_utc_to_vietnam_time (s_created_utc post)) as [created | e];
    [ | reflexivity].
  match goal with
  | |- context [try_except_api ?b ?h ?s] =>
      pose proof (try_fetch_spec post answer s h) as Htry
  end.
  assert (Hh : forall msg st1, exists evs,
             log_error ("Could not process comments for post "
                        +:+ s_id post +:+ ": " +:+ msg) st1 =
             ({| fs := fs st1; events := events st1 ++ evs;
                 all_posts_data := all_posts_data st1;
                 all_comments_data := all_comments_data st1;
                 post_count := post_count st1; post_data := post_data st1 |}, Ok ())).
  { intros msg st1. eexists. reflexivity. }
  specialize (Htry Hh). clear Hh.
  destruct (comments_for post answer) as [cs | e].
  - destruct Htry as [evs ->]. eexists. split; [reflexivity | ].
    cbn [all_posts_data all_comments_data post_count post_data].
    change (new_post_data post created) with (post_record post created []).
    rewrite post_record_append. cbn [app]. repeat split.
  - destruct (try_except_api _ _ _) as [st1 r]. cbn [snd] in Htry. subst r.
    reflexivity.
Qed.

Lemma for_each_process (entries : list (Submission * fetched)) (st : state) :
  match records_of entries with
  | Ok (ps, cms) =>
      exists st',
        for_each entries (fun entry => emit EvNextPost ;; process_post entry) st
        = (st', Ok ())
        /\ all_posts_data st' = all_posts_data st ++ ps
        /\ all_comments_data st' = all_comments_data st ++ cms
        /\ post_count st' = post_count st + Z.of_nat (length entries)
  | Raise e =>
      snd (for_each entries (fun entry => emit EvNextPost ;; process_post entry) st)
      = Raise e
  end.
Proof.
  revert st. induction entries as [ | [post answer] entries IH]; intros st.
  - cbn. exists st. rewrite !app_nil_r, Z.add_0_r. repeat split.
  - cbn [records_of for_each].
    pose proof (process_post_spec post answer (fst (emit EvNextPost st))) as Hp.
    destruct (convert_utc_to_vietnam_time (s_created_utc post)) as [created | e].
    + destruct (comments_for post answer) as [cs | e].
      * destruct Hp as (st1 & Heq & Hps & Hcs & Hn).
        assert (Hstep : (emit EvNextPost ;; process_post (post, answer)) st
                        = (st1, Ok ())) by exact Heq.
        rewrite (M_bind_Ok _ _ _ _ _ Hstep).
        cbn [emit fst all_posts_data all_comments_data post_count] in Hps, Hcs, Hn.
        specialize (IH st1).
        destruct (records_of entries) as [[ps cms] | e].
        -- destruct IH as (st' & -> & Hps' & Hcs' & Hn').
           exists st'. split; [reflexivity | ].
           rewrite Hps', Hcs', Hn', Hps, Hcs, Hn, <- !app_assoc.
           cbn [app length]. repeat split. lia.
        -- exact IH.
      * destruct (process_post _ _) as [st1 r] eqn:Heq. cbn [snd] in Hp. subst r.
        assert (Hstep : (emit EvNextPost ;; process_post (post, answer)) st
                        = (st1, Raise e)) by exact Heq.
        rewrite (M_bind_Raise _ _ _ _ _ Hstep). reflexivity.
    + destruct (process_post _ _) as [st1 r] eqn:Heq. cbn [snd] in Hp. subst r.
      assert (Hstep : (emit EvNextPost ;; process_post (post, answer)) st
                      = (st1, Raise e)) by exact Heq.
      rewrite (M_bind_Raise _ _ _ _ _ Hstep). reflexivity.
Qed.

End Posts.

(** *** The two saving blocks *)

Lemma string_app_nil_r (s : string) : s +:+ "" = s.
Proof.
  induction s as [ | c s IH]; [reflexivity | ].
  cbv [String.append]. fold String.append. rewrite IH. reflexivity.
Qed.

Lemma string_app_assoc (a b c : string) : (a +:+ b) +:+ c = a +:+ (b +:+ c).
Proof.
  induction a as [ | x a IH]; [reflexivity | ].
  cbv [String.append]. fold String.append. rewrite IH. reflexivity.
Qed.

Section Saving.

Context {json : JsonModule}.

Lemma for_each_write (path : string) (items : list pyval) (st : state)
    (content : string) :
  fs st !! path = Some content ->
  for_each items (fun item => write path (json_dumps item +:+ newline)) st =
  ({| fs := <[path := content +:+ jsonl items]> (fs st);
      events := events st
                ++ map (fun item => EvWrite path (json_dumps item +:+ newline)) items;
      all_posts_data := all_posts_data st;
      all_comments_data := all_comments_data st;
      post_count := post_count st; post_data := post_data st |}, Ok ()).
Proof.
  revert st content. induction items as [ | item items IH]; intros st content Hc.
  - cbn [for_each jsonl foldr map]. destruct st as [f ev ps cs n d]. cbn in *.
    rewrite string_app_nil_r, app_nil_r, insert_id by exact Hc. reflexivity.
  - cbn [for_each].
    assert (Hw : write path (json_dumps item +:+ newline) st =
                 ({| fs := <[path := content +:+ (json_dumps item +:+ newline)]> (fs st);
                     events := events st ++ [EvWrite path (json_dumps item +:+ newline)];
                     all_posts_data := all_posts_data st;
                     all_comments_data := all_comments_data st;
                     post_count := post_count st; post_data := post_data st |}, Ok ())).
    { unfold write. run_steps. fold (fs st). rewrite Hc. reflexivity. }
    rewrite (M_bind_Ok _ _ _ _ _ Hw).
    rewrite (IH _ (content +:+ (json_dumps item +:+ newline)))
      by (cbn [fs]; apply lookup_insert_eq).
    cbn [fs events all_posts_data all_comments_data post_count post_data jsonl foldr map].
    rewrite insert_insert_eq, <- app_assoc, !string_app_assoc. reflexivity.
Qed.

Lemma save_spec (path : string) (items : list pyval) (st : state) :
  save path items st =
  ({| fs := <[path := jsonl items]> (fs st);
      events := events st ++ save_events path items;
      all_posts_data := all_posts_data st;
      all_comments_data := all_comments_data st;
      post_count := post_count st; post_data := post_data st |}, Ok ()).
Proof.
  unfold save.
  assert (Ho : open_w path st =
               ({| fs := <[path := ""]> (fs st);
                   events := events st ++ [EvOpen path];
                   all_posts_data := all_posts_data st;
                   all_comments_data := all_comments_data st;
                   post_count := post_count st; post_data := post_data st |}, Ok ()))
    by reflexivity.
  rewrite (M_bind_Ok _ _ _ _ _ Ho).
  erewrite M_bind_Ok
    by (apply (for_each_write path items _ ""); cbn [fs]; apply lookup_insert_eq).
  unfold close, emit, save_events.
  cbn [fs events all_posts_data all_comments_data post_count post_data].
  rewrite insert_insert_eq, <- !app_assoc. reflexivity.
Qed.

Lemma save_events_client (path : string) (items : list pyval) :
  Forall (fun ev => is_client_event ev = false) (save_events path items).
Proof.
  unfold save_events. apply Forall_app. split; [repeat constructor | ].
  apply Forall_app. split; [ | repeat constructor].
  induction items; cbn [map]; constructor; auto.
Qed.

Lemma save_events_opens (path path' : string) (items : list pyval) :
  List.filter (opens path') (save_events path items)
  = if String.eqb path path' then [EvOpen path] else [].
Proof.
  unfold save_events. rewrite !List.filter_app.
  assert (Hw : List.filter (opens path')
                 (map (fun item => EvWrite path (json_dumps item +:+ newline)) items)
               = []).
  { induction items; cbn; auto. }
  rewrite Hw. cbn. destruct (String.eqb path path'); reflexivity.
Qed.

Lemma save_posts_spec (st : state) :
  exists evs,
    save_posts st =
    ({| fs := saved POSTS_FILE (all_posts_data st) (fs st);
        events := events st ++ evs;
        all_posts_data := all_posts_data st;
        all_comments_data := all_comments_data st;
        post_count := post_count st; post_data := post_data st |}, Ok ())
    /\ Forall (fun ev => is_client_event ev = false) evs
    /\ (length (List.filter (opens POSTS_FILE) evs) <= 1)%nat
    /\ List.filter (opens COMMENTS_FILE) evs = [].
Proof.
  unfold save_posts. unfold mbind at 1, M_bind at 1, get at 1.
  destruct (all_posts_data st) as [ | p ps] eqn:E.
  - eexists. split; [unfold saved, log_info, emit; rewrite E; reflexivity | ].
    repeat split; repeat constructor.
  - erewrite M_bind_Ok by apply save_spec.
    eexists. split.
    + unfold saved, log_info, emit.
      cbn [fs events all_posts_data all_comments_data post_count post_data].
      rewrite E, <- app_assoc. reflexivity.
    + split; [apply Forall_app; split; [apply save_events_client | repeat constructor] | ].
      rewrite !List.filter_app, !save_events_opens. split; reflexivity.
Qed.

Lemma save_comments_spec (st : state) :
  exists evs,
    save_comments st =
    ({| fs := saved COMMENTS_FILE (all_comments_data st) (fs st);
        events := events st ++ evs;
        all_posts_data := all_posts_data st;
        all_comments_data := all_comments_data st;
        post_count := post_count st; post_data := post_data st |}, Ok ())
    /\ Forall (fun ev => is_client_event ev = false) evs
    /\ (length (List.filter (opens COMMENTS_FILE) evs) <= 1)%nat
    /\ List.filter (opens POSTS_FILE) evs = [].
Proof.
  unfold save_comments. unfold mbind at 1, M_bind at 1, get at 1.
  destruct (all_comments_data st) as [ | c cs] eqn:E.
  - eexists. split; [unfold saved, log_info, emit; rewrite E; reflexivity | ].
    repeat split; repeat constructor.
  - erewrite M_bind_Ok by apply save_spec.
    eexists. split.
    + unfold saved, log_info, emit.
      cbn [fs events all_posts_data all_comments_data post_count post_data].
      rewrite E, <- app_assoc. reflexivity.
    + split; [apply Forall_app; split; [apply save_events_client | repeat constructor] | ].
      rewrite !List.filter_app, !save_events_opens. split; reflexivity.
Qed.

End Saving.

(** *** The whole run *)

Section WholeRun.

Context {json : JsonModule}.
Variable reddit : Reddit.

Lemma quiet_collect : quiet (collect reddit).
Proof.
  unfold collect. quiet_steps.
  - destruct (subreddit_lookup reddit); quiet_steps.
  - apply quiet_traverse.
Qed.

(** State in which the traversal starts. *)
Lemma collect_unfold (st : state) :
  exists evs st_e,
    collect reddit st =
    match subreddit_lookup reddit with
    | Some e => (st_e, Raise e)
    | None =>
        traverse (subreddit_new reddit POST_LIMIT)
          {| fs := fs st; events := events st ++ evs;
             all_posts_data := []; all_comments_data := [];
             post_count := 0; post_data := post_data st |}
    end.
Proof.
  unfold collect.
  unfold mbind at 1 2 3 4 5 6 7, M_bind at 1 2 3 4 5 6 7.
  unfold log_info, emit, set_all_posts_data, set_all_comments_data, set_post_count.
  cbn [fs events all_posts_data all_comments_data post_count post_data].
  destruct (subreddit_lookup reddit) as [e | ].
  - unfold raise. exists []. eexists. reflexivity.
  - unfold mret, M_ret.
    cbn [fs events all_posts_data all_comments_data post_count post_data].
    exists [EvLog INFO ("Connecting to subreddit: r/" +:+ SUBREDDIT_NAME);
            EvSubreddit SUBREDDIT_NAME;
            EvLog INFO ("Fetching the latest " +:+ str_int POST_LIMIT +:+ " posts...")].
    eexists st. rewrite <- !app_assoc. reflexivity.
Qed.

Lemma traverse_spec (listing : list (Submission * fetched) * option exc)
    (st : state) :
  match records_of (fst listing), snd listing with
  | Ok (ps, cms), None =>
      exists st1, traverse listing st = (st1, Ok ())
                  /\ all_posts_data st1 = all_posts_data st ++ ps
                  /\ all_comments_data st1 = all_comments_data st ++ cms
  | Ok _, Some e => snd (traverse listing st) = Raise e
  | Raise e, _ => snd (traverse listing st) = Raise e
  end.
Proof.
  unfold traverse.
  pose proof (for_each_process (fst listing) st) as Hloop.
  destruct (records_of (fst listing)) as [[ps cms] | e].
  - destruct Hloop as (st1 & Hrun & Hps & Hcs & _).
    rewrite (M_bind_Ok _ _ _ _ _ Hrun).
    destruct (snd listing) as [e | ].
    + reflexivity.
    + eexists. split; [reflexivity | ]. split; assumption.
  - match type of Hloop with
    | snd ?run = _ => destruct run as [st1 r] eqn:Hrun
    end.
    cbn [snd] in Hloop. subst r.
    rewrite (M_bind_Raise _ _ _ _ _ Hrun).
    destruct (snd listing); reflexivity.
Qed.

Lemma collect_spec (st : state) :
  match subreddit_lookup reddit with
  | Some e => snd (collect reddit st) = Raise e
  | None =>
      match records_of (listed reddit), snd (subreddit_new reddit POST_LIMIT) with
      | Ok (ps, cms), None =>
          exists st1, collect reddit st = (st1, Ok ())
                      /\ all_posts_data st1 = ps /\ all_comments_data st1 = cms
      | Ok _, Some e => snd (collect reddit st) = Raise e
      | Raise e, _ => snd (collect reddit st) = Raise e
      end
  end.
Proof.
  destruct (collect_unfold st) as (evs & st_e & ->). unfold listed.
  destruct (subreddit_lookup reddit) as [e | ]; [reflexivity | ].
  match goal with
  | |- context [traverse ?l ?s] => pose proof (traverse_spec l s) as Ht
  end.
  destruct (records_of (fst (subreddit_new reddit POST_LIMIT))) as [[ps cms] | e];
    [ | exact Ht].
  destruct (snd (subreddit_new reddit POST_LIMIT)); exact Ht.
Qed.

(** A run that returns: nothing raised, and the accumulators and the
    files are those of the records of the listing. *)
Lemma scrape_returns (st st' : state) :
  scrape_subreddit reddit st = (st', Ok ()) ->
  subreddit_lookup reddit = None
  /\ snd (subreddit_new reddit POST_LIMIT) = None
  /\ records_of (listed reddit) = Ok (all_posts_data st', all_comments_data st')
  /\ fs st' = saved COMMENTS_FILE (all_comments_data st')
                (saved POSTS_FILE (all_posts_data st') (fs st)).
Proof.
  unfold scrape_subreddit. intros Hrun.
  pose proof (collect_spec st) as Hc.
  destruct (quiet_collect st) as [Hfs _].
  destruct (collect reddit st) as [st1 [[] | e]] eqn:Hcol; cbn [fst snd] in *.
  - rewrite (M_bind_Ok _ _ _ _ _ Hcol) in Hrun.
    destruct (save_posts_spec st1) as (evs2 & Hsp & _).
    rewrite (M_bind_Ok _ _ _ _ _ Hsp) in Hrun.
    destruct (save_comments_spec
                {| fs := saved POSTS_FILE (all_posts_data st1) (fs st1);
                   events := events st1 ++ evs2;
                   all_posts_data := all_posts_data st1;
                   all_comments_data := all_comments_data st1;
                   post_count := post_count st1; post_data := post_data st1 |})
      as (evs3 & Hsc & _).
    rewrite Hsc in Hrun. injection Hrun as <-.
    cbn [fs all_posts_data all_comments_data]. rewrite Hfs.
    destruct (subreddit_lookup reddit); [discriminate Hc | ].
    destruct (records_of (listed reddit)) as [[ps cms] | e]; [ | discriminate Hc].
    destruct (snd (subreddit_new reddit POST_LIMIT)); [discriminate Hc | ].
    destruct Hc as (st1' & [= <-] & <- & <-). repeat split.
  - rewrite (M_bind_Raise _ _ _ _ _ Hcol) in Hrun. discriminate Hrun.
Qed.

(** Conversely, a run in which neither the lookup nor the listing nor
    any record raises does return. *)
Lemma scrape_completes (st : state) (ps cms : list pyval) :
  subreddit_lookup reddit = None ->
  snd (subreddit_new reddit POST_LIMIT) = None ->
  records_of (listed reddit) = Ok (ps, cms) ->
  exists st', scrape_subreddit reddit st = (st', Ok ())
              /\ all_posts_data st' = ps /\ all_comments_data st' = cms.
Proof.
  intros Hl He Hr. unfold scrape_subreddit.
  pose proof (collect_spec st) as Hc. rewrite Hl, Hr, He in Hc.
  destruct Hc as (st1 & Hcol & Hps & Hcs).
  rewrite (M_bind_Ok _ _ _ _ _ Hcol).
  destruct (save_posts_spec st1) as (evs2 & Hsp & _).
  rewrite (M_bind_Ok _ _ _ _ _ Hsp).
  match goal with
  | |- context [save_comments ?s] =>
      destruct (save_comments_spec s) as (evs3 & Hsc & _)
  end.
  rewrite Hsc. eexists. split; [reflexivity | ]. split; assumption.
Qed.

End WholeRun.

(** *** The records of a listing *)

Section Records.

#[local] Opaque convert_utc_to_vietnam_time.

Lemma comment_records_inv (post : Submission) (nodes : list node)
    (cs : list pyval) (c : pyval) :
  comment_records post nodes = Ok cs -> In c cs ->
  exists cm created,
    In (IsComment cm) nodes
    /\ convert_utc_to_vietnam_time (c_created_utc cm) = Ok created
    /\ c = new_comment_data post cm created.
Proof.
  revert cs. induction nodes as [ | [cm | ] nodes IH]; intros cs; cbn [comment_records].
  - intros [= <-] [].
  - destruct (convert_utc_to_vietnam_time (c_created_utc cm)) as [created | e] eqn:E;
      [ | discriminate].
    destruct (comment_records post nodes) as [cs' | e]; [ | discriminate].
    intros [= <-] [<- | Hin].
    + exists cm, created. repeat split; [left; reflexivity | exact E].
    + destruct (IH cs' eq_refl Hin) as (cm' & created' & Hn & Hc & ->).
      exists cm', created'. repeat split; [right; exact Hn | exact Hc].
  - intros Hr Hin. destruct (IH cs Hr Hin) as (cm' & created' & Hn & Hc & ->).
    exists cm', created'. repeat split; [right; exact Hn | exact Hc].
Qed.

Lemma comment_records_complete (post : Submission) (nodes : list node)
    (cs : list pyval) (cm : Comment) :
  comment_records post nodes = Ok cs -> In (IsComment cm) nodes ->
  exists created,
    convert_utc_to_vietnam_time (c_created_utc cm) = Ok created
    /\ In (new_comment_data post cm created) cs.
Proof.
  revert cs. induction nodes as [ | [cm' | ] nodes IH]; intros cs; cbn [comment_records].
  - intros _ [].
  - destruct (convert_utc_to_vietnam_time (c_created_utc cm')) as [created | e] eqn:E;
      [ | discriminate].
    destruct (comment_records post nodes) as [cs' | e]; [ | discriminate].
    intros [= <-] [[= ->] | Hin].
    + exists created. split; [exact E | left; reflexivity].
    + destruct (IH cs' eq_refl Hin) as (created' & Hc & Hi).
      exists created'. split; [exact Hc | right; exact Hi].
  - intros Hr [Hd | Hin]; [discriminate Hd | ]. exact (IH cs Hr Hin).
Qed.

Lemma comments_for_inv (post : Submission) (answer : fetched)
    (cs : list pyval) (c : pyval) :
  comments_for post answer = Ok cs -> In c cs ->
  exists nodes cm created,
    answer = Forest nodes /\ In (IsComment cm) nodes
    /\ c = new_comment_data post cm created.
Proof.
  destruct answer as [e | e | nodes]; cbn [comments_for].
  - destruct e; try discriminate. intros [= <-] [].
  - destruct e; try discriminate. intros [= <-] [].
  - intros Hr Hin.
    destruct (comment_records_inv _ _ _ _ Hr Hin) as (cm & created & Hn & _ & ->).
    exists nodes, cm, created. repeat split. exact Hn.
Qed.

Lemma comments_for_api_error (post : Submission) (answer : fetched) :
  is_api_error answer = true -> comments_for post answer = Ok [].
Proof.
  destruct answer as [[] | [] | nodes]; cbn; intros H; try discriminate H; reflexivity.
Qed.

(** The post records follow the listing, one for one. *)
Lemma records_of_posts (entries : list (Submission * fetched))
    (ps cms : list pyval) :
  records_of entries = Ok (ps, cms) ->
  length ps = length entries
  /\ forall (i : nat) post answer,
       entries !! i = Some (post, answer) ->
       exists created cs,
         convert_utc_to_vietnam_time (s_created_utc post) = Ok created
         /\ comments_for post answer = Ok cs
         /\ ps !! i = Some (post_record post created cs)
         /\ forall c, In c cs -> In c cms.
Proof.
  revert ps cms. induction entries as [ | [post answer] entries IH]; intros ps cms;
    cbn [records_of].
  - intros [= <- <-]. split; [reflexivity | ]. intros i post answer Hi.
    rewrite lookup_nil in Hi. discriminate Hi.
  - destruct (convert_utc_to_vietnam_time (s_created_utc post)) as [created | e] eqn:E;
      [ | discriminate].
    destruct (comments_for post answer) as [cs | e] eqn:Ec; [ | discriminate].
    destruct (records_of entries) as [[ps' cms'] | e]; [ | discriminate].
    intros [= <- <-]. destruct (IH ps' cms' eq_refl) as [Hlen Hall].
    split; [cbn [length]; rewrite Hlen; reflexivity | ].
    intros [ | i] post' answer' Hi; cbn in Hi.
    + injection Hi as <- <-. exists created, cs.
      repeat split; try assumption. intros c Hc. apply in_or_app. left. exact Hc.
    + destruct (Hall i post' answer' Hi) as (created' & cs' & H1 & H2 & H3 & H4).
      exists created', cs'. repeat split; try assumption.
      intros c Hc. apply in_or_app. right. apply H4. exact Hc.
Qed.

(** Every comment record comes from the forest of a listed post. *)
Lemma records_of_comments (entries : list (Submission * fetched))
    (ps cms : list pyval) (c : pyval) :
  records_of entries = Ok (ps, cms) -> In c cms ->
  exists post answer created cs,
    In (post, answer) entries
    /\ comments_for post answer = Ok cs /\ In c cs
    /\ In (post_record post created cs) ps.
Proof.
  revert ps cms. induction entries as [ | [post answer] entries IH]; intros ps cms;
    cbn [records_of].
  - intros [= <- <-] [].
  - destruct (convert_utc_to_vietnam_time (s_created_utc post)) as [created | e] eqn:E;
      [ | discriminate].
    destruct (comments_for post answer) as [cs | e] eqn:Ec; [ | discriminate].
    destruct (records_of entries) as [[ps' cms'] | e]; [ | discriminate].
    intros [= <- <-] Hin. apply in_app_or in Hin. destruct Hin as [Hin | Hin].
    + exists post, answer, created, cs.
      repeat split; [left; reflexivity | assumption | assumption | left; reflexivity].
    + destruct (IH ps' cms' eq_refl Hin) as (p' & a' & cr' & cs' & H1 & H2 & H3 & H4).
      exists p', a', cr', cs'. repeat split; try assumption; right; assumption.
Qed.

End Records.

Section Counting.

#[local] Opaque convert_utc_to_vietnam_time.

Lemma filter_all (A : Type) (f : A -> bool) (l : list A) (b : bool) :
  (forall x, In x l -> f x = b) ->
  List.filter f l = if b then l else [].
Proof.
  intros H. induction l as [ | x l IH]; [destruct b; reflexivity | ].
  cbn [List.filter]. rewrite (H x) by (left; reflexivity).
  rewrite IH by (intros y Hy; apply H; right; exact Hy).
  destruct b; reflexivity.
Qed.

Lemma comments_for_filter (post : Submission) (answer : fetched)
    (cs : list pyval) (id : string) :
  comments_for post answer = Ok cs ->
  List.filter (has_post_id id) cs = if String.eqb (s_id post) id then cs else [].
Proof.
  intros Hr. apply filter_all. intros c Hc.
  destruct (comments_for_inv _ _ _ _ Hr Hc) as (nodes & cm & created & _ & _ & ->).
  reflexivity.
Qed.

Lemma records_of_no_comments (entries : list (Submission * fetched))
    (ps cms : list pyval) (id : string) :
  records_of entries = Ok (ps, cms) ->
  ~ In id (map (fun e => s_id (fst e)) entries) ->
  List.filter (has_post_id id) cms = [].
Proof.
  revert ps cms. induction entries as [ | [post answer] entries IH]; intros ps cms;
    cbn [records_of].
  - intros [= <- <-] _. reflexivity.
  - destruct (convert_utc_to_vietnam_time (s_created_utc post)) as [created | e];
      [ | discriminate].
    destruct (comments_for post answer) as [cs | e] eqn:Ec; [ | discriminate].
    destruct (records_of entries) as [[ps' cms'] | e]; [ | discriminate].
    intros [= <- <-] Hn. cbn [map fst] in Hn.
    rewrite List.filter_app, (comments_for_filter _ _ _ id Ec).
    rewrite (IH ps' cms' eq_refl) by (intros Hi; apply Hn; right; exact Hi).
    destruct (String.eqb_spec (s_id post) id) as [Heq | Hne]; [ | reflexivity].
    exfalso. apply Hn. left. exact Heq.
Qed.

Lemma records_of_ids (entries : list (Submission * fetched))
    (ps cms : list pyval) (P : pyval) (id : string) :
  records_of entries = Ok (ps, cms) ->
  In P ps -> getitem P "id" = Some (PyStr id) ->
  In id (map (fun e => s_id (fst e)) entries).
Proof.
  revert ps cms. induction entries as [ | [post answer] entries IH]; intros ps cms;
    cbn [records_of].
  - intros [= <- <-] [].
  - destruct (convert_utc_to_vietnam_time (s_created_utc post)) as [created | e];
      [ | discriminate].
    destruct (comments_for post answer) as [cs | e] eqn:Ec; [ | discriminate].
    destruct (records_of entries) as [[ps' cms'] | e]; [ | discriminate].
    intros [= <- <-] [<- | Hin] Hid; cbn [map fst].
    + left. cbn in Hid. injection Hid as <-. reflexivity.
    + right. exact (IH ps' cms' eq_refl Hin Hid).
Qed.

Lemma records_of_counts (entries : list (Submission * fetched))
    (ps cms : list pyval) :
  records_of entries = Ok (ps, cms) ->
  NoDup (map (fun e => s_id (fst e)) entries) ->
  forall P id,
    In P ps -> getitem P "id" = Some (PyStr id) ->
    length (list_at P "comments") = length (List.filter (has_post_id id) cms).
Proof.
  revert ps cms. induction entries as [ | [post answer] entries IH]; intros ps cms;
    cbn [records_of].
  - intros [= <- <-] _ P id [].
  - destruct (convert_utc_to_vietnam_time (s_created_utc post)) as [created | e];
      [ | discriminate].
    destruct (comments_for post answer) as [cs | e] eqn:Ec; [ | discriminate].
    destruct (records_of entries) as [[ps' cms'] | e] eqn:Er; [ | discriminate].
    intros [= <- <-] Hnd P id HP Hid. cbn [map fst] in Hnd.
    apply NoDup_cons in Hnd. destruct Hnd as [Hfresh Hnd].
    rewrite List.filter_app, length_app, (comments_for_filter _ _ _ id Ec).
    destruct HP as [<- | HP].
    + cbn in Hid. injection Hid as <-.
      rewrite String.eqb_refl.
      rewrite (records_of_no_comments _ _ _ _ Er)
        by (rewrite <- list_elem_of_In; exact Hfresh).
      cbn. lia.
    + pose proof (records_of_ids _ _ _ _ _ Er HP Hid) as Hin.
      destruct (String.eqb_spec (s_id post) id) as [Heq | Hne].
      * exfalso. apply Hfresh. rewrite list_elem_of_In, Heq. exact Hin.
      * cbn [length]. rewrite Nat.add_0_l. exact (IH ps' cms' eq_refl Hnd P id HP Hid).
Qed.

Lemma benign_comment_records (post : Submission) (nodes : list node) :
  forallb (fun n => match n with
                    | IsComment c =>
                        is_ok (convert_utc_to_vietnam_time (c_created_utc c))
                    | MoreComments => true
                    end) nodes = true ->
  exists cs, comment_records post nodes = Ok cs.
Proof.
  induction nodes as [ | [cm | ] nodes IH]; cbn [forallb comment_records].
  - eexists. reflexivity.
  - intros H. apply andb_prop in H. destruct H as [H1 H2].
    destruct (convert_utc_to_vietnam_time (c_created_utc cm)); [ | discriminate H1].
    destruct (IH H2) as [cs ->]. eexists. reflexivity.
  - intros H. exact (IH H).
Qed.

Lemma benign_records_of (entries : list (Submission * fetched)) :
  Forall (fun entry => benign entry = true) entries ->
  exists ps cms, records_of entries = Ok (ps, cms).
Proof.
  induction 1 as [ | [post answer] entries Hb _ IH]; cbn [records_of].
  - eexists _, _. reflexivity.
  - unfold benign in Hb. cbn [fst snd] in Hb.
    apply andb_prop in Hb. destruct Hb as [H1 H2].
    destruct (convert_utc_to_vietnam_time (s_created_utc post)); [ | discriminate H1].
    assert (Hc : exists cs, comments_for post answer = Ok cs).
    { destruct answer as [e | e | nodes].
      - rewrite (comments_for_api_error _ _ H2). eexists. reflexivity.
      - rewrite (comments_for_api_error _ _ H2). eexists. reflexivity.
      - exact (benign_comment_records _ _ H2). }
    destruct Hc as [cs ->]. destruct IH as (ps & cms & ->).
    eexists _, _. reflexivity.
Qed.

End Counting.

(** *** The claims about the records *)

Section RecordClaims.

Context {json : JsonModule}.

(** C7: in a run that returns, the [post_id] of every comment record of
    the global stream is the [id] of a post record of the same run. *)
Theorem comment_post_id_resolves (reddit : Reddit) (files : gmap string string)
    (st' : state) (c : pyval) :
  scrape_subreddit reddit (start files) = (st', Ok ()) ->
  In c (all_comments_data st') ->
  exists P id,
    In P (all_posts_data st')
    /\ getitem P "id" = Some (PyStr id)
    /\ getitem c "post_id" = Some (PyStr id).
Proof.
  intros Hrun Hc.
  destruct (scrape_returns _ _ _ Hrun) as (_ & _ & Hrec & _).
  destruct (records_of_comments _ _ _ _ Hrec Hc)
    as (post & answer & created & cs & _ & Hcs & Hin & HP).
  destruct (comments_for_inv _ _ _ _ Hcs Hin) as (nodes & cm & cr & _ & _ & ->).
  exists (post_record post created cs), (s_id post).
  repeat split. exact HP.
Qed.

(** C1, amended: in a run that returns, when the ids of the listed posts
    are pairwise distinct, the comment list embedded in a post record is
    as long as the number of comment records of the global stream that
    carry the id of that post as [post_id]. *)
Theorem embedded_comments_match_stream (reddit : Reddit)
    (files : gmap string string) (st' : state) (P : pyval) (id : string) :
  scrape_subreddit reddit (start files) = (st', Ok ()) ->
  NoDup (map (fun e => s_id (fst e)) (listed reddit)) ->
  In P (all_posts_data st') ->
  getitem P "id" = Some (PyStr id) ->
  length (list_at P "comments")
  = length (List.filter (has_post_id id) (all_comments_data st')).
Proof.
  intros Hrun Hnd HP Hid.
  destruct (scrape_returns _ _ _ Hrun) as (_ & _ & Hrec & _).
  exact (records_of_counts _ _ _ Hrec Hnd P id HP Hid).
Qed.

(** C2: when the only thing that goes wrong in a run is that the client
    reports API errors for the comments of some posts, the run returns;
    it emits one post record per listed post, in listing order, and the
    record of a post whose comments ran into an API error has an empty
    comment list. *)
Theorem api_errors_are_not_fatal (reddit : Reddit) (files : gmap string string) :
  subreddit_lookup reddit = None ->
  snd (subreddit_new reddit POST_LIMIT) = None ->
  Forall (fun entry => benign entry = true) (listed reddit) ->
  exists st',
    scrape_subreddit reddit (start files) = (st', Ok ())
    /\ length (all_posts_data st') = length (listed reddit)
    /\ forall (i : nat) post answer,
         listed reddit !! i = Some (post, answer) ->
         exists P,
           all_posts_data st' !! i = Some P
           /\ getitem P "id" = Some (PyStr (s_id post))
           /\ (is_api_error answer = true ->
               getitem P "comments" = Some (PyList [])).
Proof.
  intros Hl He Hb.
  destruct (benign_records_of _ Hb) as (ps & cms & Hrec).
  destruct (scrape_completes reddit (start files) ps cms Hl He Hrec)
    as (st' & Hrun & Hps & Hcs).
  exists st'. split; [exact Hrun | ].
  destruct (records_of_posts _ _ _ Hrec) as [Hlen Hall].
  rewrite Hps. split; [exact Hlen | ].
  intros i post answer Hi.
  destruct (Hall i post answer Hi) as (created & cs & _ & Hc & HP & _).
  exists (post_record post created cs). split; [exact HP | ].
  split; [reflexivity | ].
  intros Ha. rewrite (comments_for_api_error _ _ Ha) in Hc.
  injection Hc as <-. reflexivity.
Qed.

(** C10: in a run that returns, the [author] of every post record and of
    every comment record is a string, namely [str(author)] of the listed
    post or comment; for a missing author this is the text [None], which
    [json.dumps] writes as a quoted string and not as [null]. *)
Theorem author_is_always_a_string (reddit : Reddit) (files : gmap string string)
    (st' : state) :
  scrape_subreddit reddit (start files) = (st', Ok ()) ->
  (forall r, In r (all_posts_data st') \/ In r (all_comments_data st') ->
             exists s, getitem r "author" = Some (PyStr s))
  /\ (forall (i : nat) post answer,
        listed reddit !! i = Some (post, answer) ->
        exists P, all_posts_data st' !! i = Some P
                  /\ getitem P "author" = Some (PyStr (str_author (s_author post))))
  /\ (forall post nodes cm,
        In (post, Forest nodes) (listed reddit) -> In (IsComment cm) nodes ->
        exists r, In r (all_comments_data st')
                  /\ getitem r "id" = Some (PyStr (c_id cm))
                  /\ getitem r "author" = Some (PyStr (str_author (c_author cm))))
  /\ str_author None = "None"
  /\ RefJson.dumps (PyStr (str_author None)) = dquote +:+ "None" +:+ dquote.
Proof.
  intros Hrun.
  destruct (scrape_returns _ _ _ Hrun) as (_ & _ & Hrec & _).
  destruct (records_of_posts _ _ _ Hrec) as [Hlen Hall].
  split; [ | split; [ | split; [ | split; reflexivity]]].
  - intros r [Hr | Hr].
    + apply list_elem_of_In, list_elem_of_lookup in Hr. destruct Hr as [i Hi].
      assert (Hlt : (i < length (listed reddit))%nat)
        by (rewrite <- Hlen; eapply lookup_lt_Some; exact Hi).
      apply lookup_lt_is_Some in Hlt. destruct Hlt as [[post answer] He].
      destruct (Hall i post answer He) as (created & cs & _ & _ & HP & _).
      rewrite HP in Hi. injection Hi as <-. eexists. reflexivity.
    + destruct (records_of_comments _ _ _ _ Hrec Hr)
        as (post & answer & created & cs & _ & Hcs & Hin & _).
      destruct (comments_for_inv _ _ _ _ Hcs Hin) as (nodes & cm & cr & _ & _ & ->).
      eexists. reflexivity.
  - intros i post answer Hi.
    destruct (Hall i post answer Hi) as (created & cs & _ & _ & HP & _).
    eexists. split; [exact HP | reflexivity].
  - intros post nodes cm Hin Hn.
    apply list_elem_of_In, list_elem_of_lookup in Hin. destruct Hin as [i Hi].
    destruct (Hall i _ _ Hi) as (created & cs & _ & Hc & _ & Hsub).
    cbn [comments_for] in Hc.
    destruct (comment_records_complete _ _ _ _ Hc Hn) as (cr & _ & Hcin).
    eexists. split; [apply Hsub; exact Hcin | ]. split; reflexivity.
Qed.

End RecordClaims.

(** C1, as stated, fails: the script takes the ids as the listing gives
    them and does not compare them.  When the listing yields a post
    twice, the run returns, each of the two records with that id embeds
    one comment, and the stream holds two comments with that id as
    [post_id]. *)
Lemma repeated_ids_pool_their_comments :
  snd (scrape_subreddit Example.repeating_forum (start ∅)) = Ok ()
  /\ map (fun P => getitem P "id")
       (all_posts_data (fst (scrape_subreddit Example.repeating_forum (start ∅))))
     = [Some (PyStr "1abc"); Some (PyStr "1abc")]
  /\ map (fun P => length (list_at P "comments"))
       (all_posts_data (fst (scrape_subreddit Example.repeating_forum (start ∅))))
     = [1%nat; 1%nat]
  /\ length (List.filter (has_post_id "1abc")
               (all_comments_data
                  (fst (scrape_subreddit Example.repeating_forum (start ∅)))))
     = 2%nat.
Proof. repeat split; vm_compute; reflexivity. Qed.


Lemma Forall_of_forallb {A : Type} (f : A -> bool) (l : list A) :
  forallb f l = true -> Forall (fun x => f x = true) l.
Proof.
  intros H. apply Forall_forall. intros x Hx.
  apply (proj1 (forallb_forall f l) H x). apply list_elem_of_In. exact Hx.
Qed.

(** A run whose outcome is [Ok] returned, in its final state. *)
Lemma returned (run : state * result unit) :
  snd run = Ok () -> run = (fst run, Ok ()).
Proof. destruct run as [st r]. cbn. intros ->. reflexivity. Qed.

(** C7 on the example forum, for the first comment of the first post. *)
Lemma comment_post_id_resolves_witness :
  exists P id,
    In P (all_posts_data (fst (scrape_subreddit Example.forum (start ∅))))
    /\ getitem P "id" = Some (PyStr id)
    /\ getitem (new_comment_data Example.post_a Example.comment_1
                  "2023-11-15 05:15:00 +07") "post_id" = Some (PyStr id).
Proof.
  apply (comment_post_id_resolves Example.forum ∅ (fst (scrape_subreddit Example.forum (start ∅)))).
  - apply returned. vm_compute. reflexivity.
  - vm_compute. left. reflexivity.
Defined.

(** C1 on the example forum, for its first post and the two comments
    under it. *)
Lemma embedded_comments_match_stream_witness :
  length (list_at (post_record Example.post_a "2023-11-15 05:13:20 +07"
                     [new_comment_data Example.post_a Example.comment_1
                        "2023-11-15 05:15:00 +07";
                      new_comment_data Example.post_a Example.comment_2
                        "2023-11-15 05:16:40 +07"]) "comments")
  = length (List.filter (has_post_id "1abc")
              (all_comments_data (fst (scrape_subreddit Example.forum (start ∅))))).
Proof.
  apply (embedded_comments_match_stream Example.forum ∅ (fst (scrape_subreddit Example.forum (start ∅)))).
  - apply returned. vm_compute. reflexivity.
  - vm_compute. repeat constructor; rewrite list_elem_of_In; cbn; intuition discriminate.
  - vm_compute. left. reflexivity.
  - reflexivity.
Defined.

(** C2 on the example forum, whose second post runs into an API error. *)
Lemma api_errors_are_not_fatal_witness :
  exists st',
    scrape_subreddit Example.forum (start ∅) = (st', Ok ())
    /\ length (all_posts_data st') = length (listed Example.forum)
    /\ forall (i : nat) post answer,
         listed Example.forum !! i = Some (post, answer) ->
         exists P,
           all_posts_data st' !! i = Some P
           /\ getitem P "id" = Some (PyStr (s_id post))
           /\ (is_api_error answer = true ->
               getitem P "comments" = Some (PyList [])).
Proof.
  apply (api_errors_are_not_fatal Example.forum ∅).
  - reflexivity.
  - reflexivity.
  - apply Forall_of_forallb. vm_compute. reflexivity.
Defined.

(** C10 on the example forum: its second post and its first comment have
    no author. *)
Lemma author_is_always_a_string_witness :
  (forall r, In r (all_posts_data (fst (scrape_subreddit Example.forum (start ∅))))
             \/ In r (all_comments_data (fst (scrape_subreddit Example.forum (start ∅)))) ->
             exists s, getitem r "author" = Some (PyStr s))
  /\ (forall (i : nat) post answer,
        listed Example.forum !! i = Some (post, answer) ->
        exists P, all_posts_data (fst (scrape_subreddit Example.forum (start ∅))) !! i = Some P
                  /\ getitem P "author" = Some (PyStr (str_author (s_author post))))
  /\ (forall post nodes cm,
        In (post, Forest nodes) (listed Example.forum) -> In (IsComment cm) nodes ->
        exists r, In r (all_comments_data (fst (scrape_subreddit Example.forum (start ∅))))
                  /\ getitem r "id" = Some (PyStr (c_id cm))
                  /\ getitem r "author" = Some (PyStr (str_author (c_author cm))))
  /\ str_author None = "None"
  /\ RefJson.dumps (PyStr (str_author None)) = dquote +:+ "None" +:+ dquote.
Proof.
  apply (author_is_always_a_string Example.forum ∅ (fst (scrape_subreddit Example.forum (start ∅)))).
  apply returned. vm_compute. reflexivity.
Defined.

(** *** The claims about the files *)

Lemma no_file_event_opens (path : string) (evs : list event) :
  Forall (fun ev => is_file_event ev = false) evs ->
  List.filter (opens path) evs = [].
Proof.
  induction 1 as [ | ev evs Hev _ IH]; [reflexivity | ].
  cbn [List.filter]. rewrite IH.
  destruct ev; try reflexivity; discriminate Hev.
Qed.

Lemma files_differ : POSTS_FILE <> COMMENTS_FILE.
Proof. discriminate. Qed.

Section FileClaims.

Context {json : JsonModule}.

(** C6: whatever a run does, the events that touch a file all come
    after the last request to the forum client, each of the two files is
    opened at most once, and a run that ends by raising (as it does when
    the listing fails) has touched no file: the files are as they were
    before the run. *)
Theorem files_are_written_once_at_the_end (reddit : Reddit)
    (files : gmap string string) :
  (exists before after,
      events (fst (scrape_subreddit reddit (start files))) = before ++ after
      /\ Forall (fun ev => is_file_event ev = false) before
      /\ Forall (fun ev => is_client_event ev = false) after)
  /\ (length (List.filter (opens POSTS_FILE)
                (events (fst (scrape_subreddit reddit (start files))))) <= 1)%nat
  /\ (length (List.filter (opens COMMENTS_FILE)
                (events (fst (scrape_subreddit reddit (start files))))) <= 1)%nat
  /\ (forall e, snd (scrape_subreddit reddit (start files)) = Raise e ->
        fs (fst (scrape_subreddit reddit (start files))) = files
        /\ Forall (fun ev => is_file_event ev = false)
             (events (fst (scrape_subreddit reddit (start files)))))
  /\ (forall e, snd (subreddit_new reddit POST_LIMIT) = Some e ->
        exists e', snd (scrape_subreddit reddit (start files)) = Raise e').
Proof.
  unfold scrape_subreddit.
  destruct (quiet_collect reddit (start files)) as (Hfs & evs1 & Hev & Hq).
  pose proof (collect_spec reddit (start files)) as Hspec.
  destruct (collect reddit (start files)) as [st1 [[] | e1]] eqn:Hcol;
    cbn [fst snd start fs events app] in Hfs, Hev, Hspec.
  - rewrite (M_bind_Ok _ _ _ _ _ Hcol).
    destruct (save_posts_spec st1) as (evs2 & Hsp & Hc2 & Hp2 & Hk2).
    rewrite (M_bind_Ok _ _ _ _ _ Hsp).
    match goal with
    | |- context [save_comments ?s] =>
        destruct (save_comments_spec s) as (evs3 & Hsc & Hc3 & Hk3 & Hp3)
    end.
    rewrite Hsc. cbn [fst snd events]. rewrite Hev.
    split; [ | split; [ | split; [ | split]]].
    + exists evs1, (evs2 ++ evs3). split; [symmetry; apply app_assoc | ].
      split; [exact Hq | apply Forall_app; split; assumption].
    + rewrite !List.filter_app, !length_app, (no_file_event_opens _ _ Hq), Hp3.
      cbn [length]. lia.
    + rewrite !List.filter_app, !length_app, (no_file_event_opens _ _ Hq), Hk2.
      cbn [length]. lia.
    + intros e He. discriminate He.
    + intros e He. exfalso.
      destruct (subreddit_lookup reddit); [discriminate Hspec | ].
      rewrite He in Hspec.
      destruct (records_of (listed reddit)) as [[ps cms] | e0]; discriminate Hspec.
  - rewrite (M_bind_Raise _ _ _ _ _ Hcol). cbn [fst snd]. rewrite Hev.
    split; [ | split; [ | split; [ | split]]].
    + exists evs1, []. split; [symmetry; apply app_nil_r | ].
      split; [exact Hq | constructor].
    + rewrite (no_file_event_opens _ _ Hq). cbn. lia.
    + rewrite (no_file_event_opens _ _ Hq). cbn. lia.
    + intros e _. split; [exact Hfs | exact Hq].
    + intros e _. exists e1. reflexivity.
Qed.

(** C4, amended: a run that returns overwrites each output file for
    which it has records, and the file then holds exactly these records,
    one document per line, whatever it held before; a file for which the
    run has no record is left as it was, and so is every other file. *)
Theorem files_overwritten_when_there_are_records (reddit : Reddit)
    (files : gmap string string) (st' : state) :
  scrape_subreddit reddit (start files) = (st', Ok ()) ->
  fs st' !! POSTS_FILE
    = match all_posts_data st' with
      | [] => files !! POSTS_FILE
      | _ :: _ => Some (jsonl (all_posts_data st'))
      end
  /\ fs st' !! COMMENTS_FILE
    = match all_comments_data st' with
      | [] => files !! COMMENTS_FILE
      | _ :: _ => Some (jsonl (all_comments_data st'))
      end
  /\ forall path, path <> POSTS_FILE -> path <> COMMENTS_FILE ->
                  fs st' !! path = files !! path.
Proof.
  intros Hrun.
  destruct (scrape_returns _ _ _ Hrun) as (_ & _ & _ & ->).
  cbn [start fs]. pose proof files_differ as Hd.
  destruct (all_posts_data st') as [ | p ps], (all_comments_data st') as [ | c cs];
    unfold saved; repeat split; intros;
    rewrite ?lookup_insert_eq, ?lookup_insert_ne by congruence;
    rewrite ?lookup_insert_eq; reflexivity.
Qed.

End FileClaims.

(** C6 on a listing that breaks after its first post: the run raises
    and the files of the earlier run are untouched. *)
Lemma files_are_written_once_at_the_end_witness :
  fs (fst (scrape_subreddit Example.broken_forum (start Example.old_files)))
  = Example.old_files
  /\ Forall (fun ev => is_file_event ev = false)
       (events (fst (scrape_subreddit Example.broken_forum
                       (start Example.old_files)))).
Proof.
  apply (proj1 (proj2 (proj2 (proj2
           (files_are_written_once_at_the_end Example.broken_forum
              Example.old_files))))
           (OtherClientError "503")).
  vm_compute. reflexivity.
Defined.

(** C4, as stated, fails: a run over a community without posts returns
    and leaves in both files what an earlier run wrote there. *)
Lemma empty_run_leaves_old_files :
  snd (scrape_subreddit Example.empty_forum (start Example.old_files)) = Ok ()
  /\ all_posts_data (fst (scrape_subreddit Example.empty_forum
                            (start Example.old_files))) = []
  /\ fs (fst (scrape_subreddit Example.empty_forum (start Example.old_files)))
       !! POSTS_FILE = Some Example.old_line
  /\ fs (fst (scrape_subreddit Example.empty_forum (start Example.old_files)))
       !! COMMENTS_FILE = Some Example.old_line
  /\ Example.old_line <> "".
Proof.
  repeat split; try (vm_compute; reflexivity). discriminate.
Qed.

(** The theorem of C4 on the example forum, run over the files of an
    earlier run. *)
Lemma files_overwritten_when_there_are_records_witness :
  fs (fst (scrape_subreddit Example.forum (start Example.old_files))) !! POSTS_FILE
    = match all_posts_data (fst (scrape_subreddit Example.forum
                                   (start Example.old_files))) with
      | [] => Example.old_files !! POSTS_FILE
      | _ :: _ => Some (jsonl (all_posts_data
                                 (fst (scrape_subreddit Example.forum
                                         (start Example.old_files)))))
      end
  /\ fs (fst (scrape_subreddit Example.forum (start Example.old_files)))
       !! COMMENTS_FILE
    = match all_comments_data (fst (scrape_subreddit Example.forum
                                      (start Example.old_files))) with
      | [] => Example.old_files !! COMMENTS_FILE
      | _ :: _ => Some (jsonl (all_comments_data
                                 (fst (scrape_subreddit Example.forum
                                         (start Example.old_files)))))
      end
  /\ forall path, path <> POSTS_FILE -> path <> COMMENTS_FILE ->
                  fs (fst (scrape_subreddit Example.forum
                             (start Example.old_files))) !! path
                  = Example.old_files !! path.
Proof.
  apply (files_overwritten_when_there_are_records Example.forum Example.old_files).
  apply returned. vm_compute. reflexivity.
Defined.

(** ** The reference json implementation *)

(** It satisfies what the round trip needs of [json]. *)

Section ReferenceJson.

Import RefJson.

(** *** Strings *)

Lemma parse_chars_escape_char (c : ascii) (t : string) :
  parse_chars (escape_char c +:+ t)
  = match parse_chars t with
    | Some (str, r) => Some (String c str, r)
    | None => None
    end.
Proof.
  destruct c as [[] [] [] [] [] [] [] []]; reflexivity.
Qed.

Lemma parse_chars_escape (s rest : string) :
  parse_chars (escape s +:+ String dq rest) = Some (s, rest).
Proof.
  induction s as [ | c s IH].
  - reflexivity.
  - cbn [escape]. rewrite string_app_assoc, parse_chars_escape_char, IH.
    reflexivity.
Qed.

(** *** Numbers *)

Lemma digit_char_facts (d : Z) :
  0 <= d <= 9 ->
  is_digit (digit_char d) = true
  /\ Z.of_nat (nat_of_ascii (digit_char d)) - 48 = d
  /\ Ascii.eqb (digit_char d) "0" = (d =? 0)
  /\ Ascii.eqb (digit_char d) "-" = false.
Proof.
  intros Hd.
  assert (Hc : d = 0 \/ d = 1 \/ d = 2 \/ d = 3 \/ d = 4 \/ d = 5 \/ d = 6
               \/ d = 7 \/ d = 8 \/ d = 9) by lia.
  repeat (destruct Hc as [-> | Hc]; [repeat split | ]).
  subst d. repeat split.
Qed.

Lemma str_digits_app (fuel : nat) (n : Z) (acc rest : string) :
  str_digits fuel n acc +:+ rest = str_digits fuel n (acc +:+ rest).
Proof.
  revert n acc. induction fuel as [ | fuel IH]; intros n acc; cbn [str_digits].
  - reflexivity.
  - destruct (n <? 10); [reflexivity | ]. rewrite IH. reflexivity.
Qed.

Lemma parse_digits_digit (a : Z) (b : bool) (d : Z) (s : string) :
  0 <= d <= 9 ->
  parse_digits a b (String (digit_char d) s) = parse_digits (a * 10 + d) true s.
Proof.
  intros Hd. destruct (digit_char_facts d Hd) as (H1 & H2 & _).
  cbn [parse_digits]. rewrite H1, H2. reflexivity.
Qed.

(** Reading back the digits that [str_digits] wrote. *)
Lemma parse_str_digits (fuel : nat) :
  forall n : Z, 0 <= n < 2 ^ (Z.of_nat fuel + 1) ->
  exists m : Z,
    forall (acc : string) (a : Z) (b : bool),
      parse_digits a b (str_digits (S fuel) n acc)
      = parse_digits (a * m + n) true acc.
Proof.
  induction fuel as [ | fuel IH]; intros n Hn.
  - exists 10. intros acc a b. cbn [str_digits].
    change (2 ^ (Z.of_nat 0 + 1)) with 2 in Hn.
    assert (H10 : (n <? 10) = true) by (apply Z.ltb_lt; lia).
    rewrite H10, parse_digits_digit by (Z.to_euclidean_division_equations; lia).
    f_equal. f_equal. rewrite Z.mod_small by lia. reflexivity.
  - destruct (Z.ltb_spec n 10) as [Hlt | Hge].
    + exists 10. intros acc a b. cbn [str_digits].
      assert (H10 : (n <? 10) = true) by (apply Z.ltb_lt; lia).
      rewrite H10, parse_digits_digit by (Z.to_euclidean_division_equations; lia).
      f_equal. f_equal. rewrite Z.mod_small by lia. reflexivity.
    + assert (Hdiv : 0 <= n / 10 < 2 ^ (Z.of_nat fuel + 1)).
      { replace (Z.of_nat (S fuel) + 1) with (Z.succ (Z.of_nat fuel + 1)) in Hn by lia.
        rewrite Z.pow_succ_r in Hn by lia.
        Z.to_euclidean_division_equations. lia. }
      destruct (IH (n / 10) Hdiv) as [m Hm].
      exists (m * 10). intros acc a b.
      change (str_digits (S (S fuel)) n acc)
        with (let acc' := String (digit_char (n mod 10)) acc in
              if n <? 10 then acc' else str_digits (S fuel) (n / 10) acc').
      cbv zeta.
      assert (H10 : (n <? 10) = false) by (apply Z.ltb_ge; lia).
      rewrite H10, Hm, parse_digits_digit by (Z.to_euclidean_division_equations; lia).
      f_equal. pose proof (Z.div_mod n 10 ltac:(lia)) as Hdm. nia.
Qed.

Lemma str_digits_head (fuel : nat) :
  forall (n : Z) (acc : string), 0 < n < 2 ^ (Z.of_nat fuel + 1) ->
  exists d s, 1 <= d <= 9 /\ str_digits (S fuel) n acc = String (digit_char d) s.
Proof.
  induction fuel as [ | fuel IH]; intros n acc Hn.
  - change (2 ^ (Z.of_nat 0 + 1)) with 2 in Hn.
    exists n, acc. split; [lia | ]. cbn [str_digits].
    assert (H10 : (n <? 10) = true) by (apply Z.ltb_lt; lia).
    rewrite H10, Z.mod_small by lia. reflexivity.
  - destruct (Z.ltb_spec n 10) as [Hlt | Hge].
    + exists n, acc. split; [lia | ]. cbn [str_digits].
      assert (H10 : (n <? 10) = true) by (apply Z.ltb_lt; lia).
      rewrite H10, Z.mod_small by lia. reflexivity.
    + assert (Hdiv : 0 < n / 10 < 2 ^ (Z.of_nat fuel + 1)).
      { replace (Z.of_nat (S fuel) + 1) with (Z.succ (Z.of_nat fuel + 1)) in Hn by lia.
        rewrite Z.pow_succ_r in Hn by lia.
        Z.to_euclidean_division_equations. lia. }
      change (str_digits (S (S fuel)) n acc)
        with (let acc' := String (digit_char (n mod 10)) acc in
              if n <? 10 then acc' else str_digits (S fuel) (n / 10) acc').
      cbv zeta.
      assert (H10 : (n <? 10) = false) by (apply Z.ltb_ge; lia).
      rewrite H10. apply IH. exact Hdiv.
Qed.

Lemma str_nat_fuel (n : Z) :
  0 <= n -> n < 2 ^ (Z.of_nat (Z.to_nat (Z.log2 n)) + 1).
Proof.
  intros Hn. rewrite Z2Nat.id by apply Z.log2_nonneg.
  destruct (Z.eq_dec n 0) as [-> | Hne]; [reflexivity | ].
  pose proof (Z.log2_spec n ltac:(lia)) as [_ H]. 
  replace (Z.log2 n + 1) with (Z.succ (Z.log2 n)) by lia. exact H.
Qed.

Lemma parse_digits_stops (a : Z) (b : bool) (rest : string) :
  stops rest = true -> parse_digits a b rest = (a, b, rest).
Proof.
  destruct rest as [ | c rest]; [reflexivity | ]. cbn [stops parse_digits].
  intros H. repeat (apply orb_prop in H; destruct H as [H | H]);
    apply Ascii.eqb_eq in H; subst c; reflexivity.
Qed.

Lemma parse_unsigned_str_nat (n : Z) (rest : string) :
  0 <= n -> stops rest = true ->
  parse_unsigned (str_nat n +:+ rest) = Some (n, false, rest).
Proof.
  intros Hn Hs. unfold str_nat. rewrite str_digits_app.
  change ("" +:+ rest) with rest.
  pose proof (str_nat_fuel n Hn) as Hf.
  destruct (parse_str_digits _ n (conj Hn Hf)) as [m Hm].
  assert (Htail : match rest with
                  | String "." _ | String "e" _ | String "E" _ => False
                  | _ => True
                  end).
  { destruct rest as [ | c rest]; [exact I | ]. cbn [stops] in Hs.
    repeat (apply orb_prop in Hs; destruct Hs as [Hs | Hs]);
      apply Ascii.eqb_eq in Hs; subst c; exact I. }
  destruct (Z.eq_dec n 0) as [-> | Hne].
  - cbn. destruct rest as [ | c rest]; [reflexivity | ].
    cbn [stops] in Hs.
    repeat (apply orb_prop in Hs; destruct Hs as [Hs | Hs]);
      apply Ascii.eqb_eq in Hs; subst c; reflexivity.
  - assert (Hpos : 0 < n) by lia.
    destruct (str_digits_head _ n rest (conj Hpos Hf)) as (d & s & Hd & Heq).
    specialize (Hm rest 0 false). rewrite Heq in Hm |- *.
    assert (Hd' : 0 <= d <= 9) by lia.
    destruct (digit_char_facts d Hd') as (H1 & _ & H3 & _).
    unfold parse_unsigned. rewrite H1, H3.
    assert (Hd0 : (d =? 0) = false) by (apply Z.eqb_neq; lia).
    rewrite Hd0, Hm, parse_digits_stops by exact Hs.
    cbn [Z.mul Z.add].
    destruct rest as [ | c rest]; [reflexivity | ].
    cbn [stops] in Hs.
    repeat (apply orb_prop in Hs; destruct Hs as [Hs | Hs]);
      apply Ascii.eqb_eq in Hs; subst c; reflexivity.
Qed.

Lemma stops_cases (rest : string) (P : Prop) :
  stops rest = true ->
  (rest = "" -> P) ->
  (forall c r, rest = String c r ->
               c = ","%char \/ c = "]"%char \/ c = "}"%char \/ c = LF -> P) ->
  P.
Proof.
  destruct rest as [ | c r]; intros Hs H0 H1; [apply H0; reflexivity | ].
  apply (H1 c r eq_refl). cbn [stops] in Hs.
  repeat (apply orb_prop in Hs; destruct Hs as [Hs | Hs]);
    apply Ascii.eqb_eq in Hs; auto.
Qed.

Lemma parse_unsigned_float (n : Z) (rest : string) :
  0 <= n -> stops rest = true ->
  parse_unsigned (str_nat n +:+ ".0" +:+ rest) = Some (n, true, rest).
Proof.
  intros Hn Hs. unfold str_nat. rewrite str_digits_app.
  change ("" +:+ ".0" +:+ rest) with (".0" +:+ rest).
  pose proof (str_nat_fuel n Hn) as Hf.
  destruct (parse_str_digits _ n (conj Hn Hf)) as [m Hm].
  assert (Hfrac : forall k : Z,
             match String "." (String "0" rest) with
             | String "." r' =>
                 match parse_digits 0 false r' with
                 | (0, true, r'') =>
                     match r'' with
                     | String "e" _ | String "E" _ => None
                     | _ => Some (k, true, r'')
                     end
                 | _ => None
                 end
             | String "e" _ | String "E" _ => None
             | _ => Some (k, false, String "." (String "0" rest))
             end = Some (k, true, rest)).
  { intros k.
    change (parse_digits 0 false (String "0" rest))
      with (parse_digits 0 true rest).
    rewrite (parse_digits_stops _ _ _ Hs).
    apply (stops_cases rest); [exact Hs | intros -> | intros c r -> Hc].
    - reflexivity.
    - destruct Hc as [-> | [-> | [-> | ->]]]; reflexivity. }
  destruct (Z.eq_dec n 0) as [-> | Hne].
  - exact (Hfrac 0).
  - assert (Hpos : 0 < n) by lia.
    destruct (str_digits_head _ n (".0" +:+ rest) (conj Hpos Hf)) as (d & s & Hd & Heq).
    specialize (Hm (".0" +:+ rest) 0 false). rewrite Heq in Hm |- *.
    assert (Hd' : 0 <= d <= 9) by lia.
    destruct (digit_char_facts d Hd') as (H1 & _ & H3 & _).
    unfold parse_unsigned. rewrite H1, H3.
    assert (Hd0 : (d =? 0) = false) by (apply Z.eqb_neq; lia).
    rewrite Hd0, Hm.
    change (parse_digits (0 * m + n) true (".0" +:+ rest))
      with (0 * m + n, true, ".0" +:+ rest).
    cbn [Z.mul Z.add]. exact (Hfrac n).
Qed.

Lemma str_nat_head (n : Z) :
  0 <= n -> exists d s, 0 <= d <= 9 /\ str_nat n = String (digit_char d) s.
Proof.
  intros Hn. destruct (Z.eq_dec n 0) as [-> | Hne].
  - exists 0, "". split; [lia | reflexivity].
  - assert (Hpos : 0 < n) by lia.
    destruct (str_digits_head _ n "" (conj Hpos (str_nat_fuel n Hn)))
      as (d & s & Hd & Heq).
    exists d, s. split; [lia | exact Heq].
Qed.

Lemma parse_number_int (n : Z) (rest : string) :
  stops rest = true ->
  parse_number (str_int n +:+ rest) = Some (PyInt n, rest).
Proof.
  intros Hs. unfold str_int, parse_number.
  destruct (Z.ltb_spec n 0) as [Hneg | Hpos].
  - change (String "-" (str_nat (- n)) +:+ rest)
      with (String "-" (str_nat (- n) +:+ rest)).
    cbv beta iota.
    rewrite parse_unsigned_str_nat by (lia || exact Hs).
    f_equal. f_equal. f_equal. lia.
  - destruct (str_nat_head n Hpos) as (d & s & Hd & Heq).
    destruct (digit_char_facts d Hd) as (_ & _ & _ & H4).
    assert (Hsplit : match str_nat n +:+ rest with
                     | String "-" s' => (-1, s')
                     | _ => (1, str_nat n +:+ rest)
                     end = (1, str_nat n +:+ rest)).
    { rewrite Heq.
      change (String (digit_char d) s +:+ rest)
        with (String (digit_char d) (s +:+ rest)).
      apply Ascii.eqb_neq in H4.
      destruct (digit_char d) as [[] [] [] [] [] [] [] []];
        try reflexivity; exfalso; apply H4; reflexivity. }
    rewrite Hsplit, parse_unsigned_str_nat by (lia || exact Hs).
    f_equal. f_equal. f_equal. lia.
Qed.

Lemma parse_number_float (n : Z) (rest : string) :
  stops rest = true ->
  parse_number ((str_int n +:+ ".0") +:+ rest) = Some (PyFloat n, rest).
Proof.
  intros Hs. rewrite string_app_assoc. unfold str_int, parse_number.
  destruct (Z.ltb_spec n 0) as [Hneg | Hpos].
  - change (String "-" (str_nat (- n)) +:+ ".0" +:+ rest)
      with (String "-" (str_nat (- n) +:+ ".0" +:+ rest)).
    cbv beta iota.
    rewrite parse_unsigned_float by (lia || exact Hs).
    f_equal. f_equal. f_equal. lia.
  - destruct (str_nat_head n Hpos) as (d & s & Hd & Heq).
    destruct (digit_char_facts d Hd) as (_ & _ & _ & H4).
    assert (Hsplit : match str_nat n +:+ ".0" +:+ rest with
                     | String "-" s' => (-1, s')
                     | _ => (1, str_nat n +:+ ".0" +:+ rest)
                     end = (1, str_nat n +:+ ".0" +:+ rest)).
    { rewrite Heq.
      change (String (digit_char d) s +:+ ".0" +:+ rest)
        with (String (digit_char d) (s +:+ ".0" +:+ rest)).
      apply Ascii.eqb_neq in H4.
      destruct (digit_char d) as [[] [] [] [] [] [] [] []];
        try reflexivity; exfalso; apply H4; reflexivity. }
    rewrite Hsplit, parse_unsigned_float by (lia || exact Hs).
    f_equal. f_equal. f_equal. lia.
Qed.

(** *** Values *)

Lemma value_head_facts (c : ascii) :
  value_head c = true ->
  is_ws c = false /\ Ascii.eqb c "]" = false /\ Ascii.eqb c "}" = false.
Proof.
  destruct c as [[] [] [] [] [] [] [] []]; cbn; intros H;
    try discriminate H; repeat split.
Qed.

Lemma str_int_head (n : Z) :
  exists c s, str_int n = String c s
              /\ (c = "-"%char \/ exists d, 0 <= d <= 9 /\ c = digit_char d).
Proof.
  unfold str_int. destruct (Z.ltb_spec n 0) as [Hneg | Hpos].
  - eexists _, _. split; [reflexivity | left; reflexivity].
  - destruct (str_nat_head n Hpos) as (d & s & Hd & Heq).
    exists (digit_char d), s. split; [exact Heq | right; exists d; split; [exact Hd | reflexivity]].
Qed.

Lemma number_head (c : ascii) :
  c = "-"%char \/ (exists d, 0 <= d <= 9 /\ c = digit_char d) ->
  value_head c = true
  /\ forall fuel s, parse_value (S fuel) (String c s) = parse_number (String c s).
Proof.
  intros [-> | (d & Hd & ->)]; [split; reflexivity | ].
  assert (Hc : d = 0 \/ d = 1 \/ d = 2 \/ d = 3 \/ d = 4 \/ d = 5 \/ d = 6
               \/ d = 7 \/ d = 8 \/ d = 9) by lia.
  repeat (destruct Hc as [-> | Hc]; [split; reflexivity | ]).
  subst d. split; reflexivity.
Qed.

Lemma dumps_head (v : pyval) :
  exists c s, dumps v = String c s /\ value_head c = true.
Proof.
  destruct v as [ | [] | n | n | s | l | kv]; cbn [dumps];
    try (eexists _, _; split; reflexivity).
  - destruct (str_int_head n) as (c & s & -> & Hc).
    exists c, s. split; [reflexivity | apply (number_head c Hc)].
  - destruct (str_int_head n) as (c & s & -> & Hc).
    exists c, (s +:+ ".0"). split; [reflexivity | apply (number_head c Hc)].
Qed.

Lemma skip_ws_dumps (v : pyval) (t : string) :
  skip_ws (dumps v +:+ t) = dumps v +:+ t.
Proof.
  destruct (dumps_head v) as (c & s & -> & Hc).
  destruct (value_head_facts c Hc) as (Hws & _).
  change (String c s +:+ t) with (String c (s +:+ t)).
  cbn [skip_ws]. rewrite Hws. reflexivity.
Qed.

Lemma parse_value_list (fuel : nat) (c : ascii) (s : string) :
  value_head c = true ->
  parse_value (S fuel) (String "[" (String c s))
  = parse_elements (parse_value fuel) fuel [] (String c s).
Proof.
  destruct c as [[] [] [] [] [] [] [] []]; intros H;
    try discriminate H; reflexivity.
Qed.

Lemma parse_value_dict (fuel : nat) (s : string) :
  parse_value (S fuel) (String "{" (String dq s))
  = parse_members (parse_value fuel) fuel [] (String dq s).
Proof. reflexivity. Qed.

Lemma join_cons (x : string) (y : string) (l : list string) :
  join ", " (x :: y :: l) = x +:+ ", " +:+ join ", " (y :: l).
Proof. reflexivity. Qed.

Lemma skip_ws_join (y : pyval) (l : list pyval) (t : string) :
  skip_ws (join ", " (map dumps (y :: l)) +:+ t)
  = join ", " (map dumps (y :: l)) +:+ t.
Proof.
  destruct l as [ | z l]; cbn [map].
  - apply skip_ws_dumps.
  - rewrite join_cons, string_app_assoc. apply skip_ws_dumps.
Qed.

Section Elements.

Variable pv : string -> option (pyval * string).

Lemma parse_elements_comma (fuel : nat) (acc : list pyval) (s : string)
    (x : pyval) (t : string) :
  pv s = Some (x, String "," (String " " t)) ->
  parse_elements pv (S fuel) acc s = parse_elements pv fuel (acc ++ [x]) (skip_ws t).
Proof. intros H. cbn [parse_elements]. rewrite H. reflexivity. Qed.

Lemma parse_elements_close (fuel : nat) (acc : list pyval) (s : string)
    (x : pyval) (t : string) :
  pv s = Some (x, String "]" t) ->
  parse_elements pv (S fuel) acc s = Some (PyList (acc ++ [x]), t).
Proof. intros H. cbn [parse_elements]. rewrite H. reflexivity. Qed.

Lemma parse_elements_ok (l : list pyval) :
  forall (acc : list pyval) (fuel : nat) (rest : string),
    (length l <= fuel)%nat -> l <> [] ->
    Forall (fun x => forall t, stops t = true -> pv (dumps x +:+ t) = Some (x, t)) l ->
    parse_elements pv fuel acc (join ", " (map dumps l) +:+ String "]" rest)
    = Some (PyList (acc ++ l), rest).
Proof.
  induction l as [ | x l IH]; intros acc fuel rest Hlen Hne Hall; [congruence | ].
  apply Forall_cons in Hall. destruct Hall as [Hx Hall].
  destruct fuel as [ | fuel]; [cbn in Hlen; lia | ].
  destruct l as [ | y l].
  - cbn [map join]. apply parse_elements_close. apply Hx. reflexivity.
  - cbn [map]. rewrite join_cons, !string_app_assoc.
    rewrite (parse_elements_comma fuel acc _ x
               (join ", " (map dumps (y :: l)) +:+ String "]" rest))
      by (apply (Hx (String "," (String " " _))); reflexivity).
    rewrite skip_ws_join.
    rewrite (IH (acc ++ [x]) fuel rest);
      [rewrite <- app_assoc; reflexivity | cbn in Hlen |- *; lia | discriminate
       | exact Hall].
Qed.

End Elements.

Lemma dumps_dict (kv : list (string * pyval)) :
  dumps (PyDict kv) = "{" +:+ join ", " (map member kv) +:+ "}".
Proof.
  cbn [dumps]. f_equal. f_equal. f_equal.
  apply map_ext. intros [k x]. reflexivity.
Qed.

Lemma member_shape (k : string) (x : pyval) (t : string) :
  member (k, x) +:+ t
  = String dq (escape k +:+ String dq (String ":" (String " " (dumps x +:+ t)))).
Proof.
  unfold member, dumps_str. cbn [fst snd].
  change (String dq (escape k +:+ String dq "") +:+ ": " +:+ dumps x)
    with (String dq ((escape k +:+ String dq "") +:+ ": " +:+ dumps x)).
  change (String dq ((escape k +:+ String dq "") +:+ ": " +:+ dumps x) +:+ t)
    with (String dq (((escape k +:+ String dq "") +:+ ": " +:+ dumps x) +:+ t)).
  rewrite !string_app_assoc. reflexivity.
Qed.

Lemma skip_ws_colon (t : string) : skip_ws (String ":" t) = String ":" t.
Proof. reflexivity. Qed.
Lemma skip_ws_space (t : string) : skip_ws (String " " t) = skip_ws t.
Proof. reflexivity. Qed.
Lemma skip_ws_comma (t : string) : skip_ws (String "," t) = String "," t.
Proof. reflexivity. Qed.
Lemma skip_ws_brace (t : string) : skip_ws (String "}" t) = String "}" t.
Proof. reflexivity. Qed.
Lemma skip_ws_quote (t : string) : skip_ws (String dq t) = String dq t.
Proof. reflexivity. Qed.

Section Members.

Variable pv : string -> option (pyval * string).

Lemma parse_members_comma (fuel : nat) (acc : list (string * pyval))
    (k : string) (x : pyval) (next : string) :
  pv (dumps x +:+ String "," (String " " next))
    = Some (x, String "," (String " " next)) ->
  parse_members pv (S fuel) acc (member (k, x) +:+ String "," (String " " next))
  = parse_members pv fuel (assoc_set k x acc) (skip_ws next).
Proof.
  intros H. rewrite member_shape. cbn [parse_members].
  rewrite Ascii.eqb_refl, parse_chars_escape, skip_ws_colon.
  cbv beta iota. rewrite skip_ws_space, skip_ws_dumps, H, skip_ws_comma.
  rewrite Ascii.eqb_refl, skip_ws_space. reflexivity.
Qed.

Lemma parse_members_close (fuel : nat) (acc : list (string * pyval))
    (k : string) (x : pyval) (rest : string) :
  pv (dumps x +:+ String "}" rest) = Some (x, String "}" rest) ->
  parse_members pv (S fuel) acc (member (k, x) +:+ String "}" rest)
  = Some (PyDict (assoc_set k x acc), rest).
Proof.
  intros H. rewrite member_shape. cbn [parse_members].
  rewrite Ascii.eqb_refl, parse_chars_escape, skip_ws_colon.
  cbv beta iota. rewrite skip_ws_space, skip_ws_dumps, H, skip_ws_brace.
  reflexivity.
Qed.

Lemma assoc_set_fresh (k : string) (x : pyval) (acc : list (string * pyval)) :
  ~ In k (map fst acc) -> assoc_set k x acc = acc ++ [(k, x)].
Proof.
  induction acc as [ | [k' x'] acc IH]; intros Hn; [reflexivity | ].
  cbn [assoc_set]. cbn [map fst In] in Hn.
  destruct (String.eqb_spec k k') as [-> | Hne]; [exfalso; apply Hn; left; reflexivity | ].
  rewrite IH by (intros Hi; apply Hn; right; exact Hi). reflexivity.
Qed.

Lemma member_head (p : string * pyval) (t : string) :
  skip_ws (member p +:+ t) = member p +:+ t.
Proof. destruct p as [k x]. rewrite member_shape. reflexivity. Qed.

Lemma skip_ws_members (p : string * pyval) (kv : list (string * pyval)) (t : string) :
  skip_ws (join ", " (map member (p :: kv)) +:+ t)
  = join ", " (map member (p :: kv)) +:+ t.
Proof.
  destruct kv as [ | q kv]; cbn [map].
  - apply member_head.
  - rewrite join_cons, string_app_assoc. apply member_head.
Qed.

Lemma parse_members_ok (kv : list (string * pyval)) :
  forall (acc : list (string * pyval)) (fuel : nat) (rest : string),
    (length kv <= fuel)%nat -> kv <> [] ->
    NoDup (map fst (acc ++ kv)) ->
    Forall (fun p => forall t, stops t = true ->
                               pv (dumps (snd p) +:+ t) = Some (snd p, t)) kv ->
    parse_members pv fuel acc (join ", " (map member kv) +:+ String "}" rest)
    = Some (PyDict (acc ++ kv), rest).
Proof.
  induction kv as [ | [k x] kv IH]; intros acc fuel rest Hlen Hne Hnd Hall;
    [congruence | ].
  apply Forall_cons in Hall. destruct Hall as [Hx Hall]. cbn [snd] in Hx.
  destruct fuel as [ | fuel]; [cbn in Hlen; lia | ].
  assert (Hfresh : ~ In k (map fst acc)).
  { rewrite map_app in Hnd. apply NoDup_app in Hnd.
    destruct Hnd as (_ & Hd & _). intros Hi.
    apply (Hd k); [apply list_elem_of_In; exact Hi | left]. }
  destruct kv as [ | q kv].
  - cbn [map join]. rewrite parse_members_close by (apply Hx; reflexivity).
    rewrite assoc_set_fresh by exact Hfresh. reflexivity.
  - cbn [map]. rewrite join_cons, !string_app_assoc.
    change (", " +:+ join ", " (member q :: map member kv) +:+ String "}" rest)
      with (String "," (String " " (join ", " (map member (q :: kv))
                                    +:+ String "}" rest))).
    rewrite parse_members_comma by (apply Hx; reflexivity).
    rewrite skip_ws_members, assoc_set_fresh by exact Hfresh.
    rewrite (IH (acc ++ [(k, x)]) fuel rest);
      [rewrite <- app_assoc; reflexivity | cbn in Hlen |- *; lia | discriminate
       | rewrite <- app_assoc; exact Hnd | exact Hall].
Qed.

End Members.

Lemma parse_value_str (fuel : nat) (t : string) :
  parse_value (S fuel) (String dq t)
  = match parse_chars t with
    | Some (str, r) => Some (PyStr str, r)
    | None => None
    end.
Proof. reflexivity. Qed.

Lemma value_size_positive (v : pyval) : (1 <= value_size v)%nat.
Proof. destruct v; cbn [value_size]; lia. Qed.

Lemma value_size_elements (l : list pyval) :
  (length l <= list_sum (map value_size l))%nat
  /\ Forall (fun x => (value_size x <= list_sum (map value_size l))%nat) l.
Proof.
  induction l as [ | x l [IH1 IH2]]; [split; [reflexivity | constructor] | ].
  change (list_sum (map value_size (x :: l))) with (value_size x + list_sum (map value_size l))%nat.
  cbn [length]. pose proof (value_size_positive x). split; [lia | ].
  constructor; [lia | ].
  eapply Forall_impl; [exact IH2 | ]. cbn beta. intros; lia.
Qed.

Lemma value_size_members (kv : list (string * pyval)) :
  (length kv <= list_sum (map (fun p => value_size (snd p)) kv))%nat
  /\ Forall (fun p => (value_size (snd p)
                       <= list_sum (map (fun p => value_size (snd p)) kv))%nat) kv.
Proof.
  induction kv as [ | p kv [IH1 IH2]]; [split; [reflexivity | constructor] | ].
  change (list_sum (map (fun p => value_size (snd p)) (p :: kv)))
    with (value_size (snd p) + list_sum (map (fun p => value_size (snd p)) kv))%nat.
  cbn [length]. pose proof (value_size_positive (snd p)). split; [lia | ].
  constructor; [lia | ].
  eapply Forall_impl; [exact IH2 | ]. cbn beta. intros; lia.
Qed.

Lemma join_head_elements (x : pyval) (l : list pyval) (t : string) :
  exists c s, join ", " (map dumps (x :: l)) +:+ t = String c s
              /\ value_head c = true.
Proof.
  destruct (dumps_head x) as (c & s & Hx & Hc).
  destruct l as [ | y l]; cbn [map].
  - cbn [join]. rewrite Hx. exists c, (s +:+ t). split; [reflexivity | exact Hc].
  - rewrite join_cons, Hx. eexists c, _. split; [reflexivity | exact Hc].
Qed.

Lemma value_size_list (l : list pyval) : value_size (PyList l) = S (list_sum (map value_size l)).
Proof. reflexivity. Qed.

Lemma value_size_dict (kv : list (string * pyval)) :
  value_size (PyDict kv) = S (list_sum (map (fun p => value_size (snd p)) kv)).
Proof. reflexivity. Qed.

Lemma distinct_keys_list (l : list pyval) :
  distinct_keys (PyList l) -> Forall distinct_keys l.
Proof.
  induction l as [ | x l IH]; [constructor | ].
  intros [Hx Hl]. constructor; [exact Hx | exact (IH Hl)].
Qed.

Lemma distinct_keys_dict (kv : list (string * pyval)) :
  distinct_keys (PyDict kv) ->
  NoDup (map fst kv) /\ Forall (fun p => distinct_keys (snd p)) kv.
Proof.
  intros [Hnd Hk]. split; [exact Hnd | ]. clear Hnd.
  induction kv as [ | p kv IH]; [constructor | ].
  destruct Hk as [Hp Hk]. constructor; [exact Hp | exact (IH Hk)].
Qed.

(** Reading back what [dumps] wrote. *)
Theorem parse_value_dumps (v : pyval) :
  forall (fuel : nat) (rest : string),
    distinct_keys v -> (value_size v <= fuel)%nat -> stops rest = true ->
    parse_value fuel (dumps v +:+ rest) = Some (v, rest).
Proof.
  induction v as [ | b | n | n | s | l IH | kv IH] using pyval_nested_ind;
    intros fuel rest Hk Hsize Hstop;
    (destruct fuel as [ | fuel];
     [match type of Hsize with
      | (value_size ?x <= _)%nat => pose proof (value_size_positive x)
      end; lia | ]).
  - reflexivity.
  - destruct b; reflexivity.
  - cbn [dumps]. destruct (str_int_head n) as (c & s & Heq & Hc).
    destruct (number_head c Hc) as [_ Hnum].
    pose proof (parse_number_int n rest Hstop) as Hp.
    rewrite Heq in Hp |- *.
    change (String c s +:+ rest) with (String c (s +:+ rest)) in Hp |- *.
    rewrite Hnum. exact Hp.
  - cbn [dumps]. destruct (str_int_head n) as (c & s & Heq & Hc).
    destruct (number_head c Hc) as [_ Hnum].
    pose proof (parse_number_float n rest Hstop) as Hp.
    rewrite Heq in Hp |- *.
    change ((String c s +:+ ".0") +:+ rest)
      with (String c ((s +:+ ".0") +:+ rest)) in Hp |- *.
    rewrite Hnum. exact Hp.
  - cbn [dumps]. unfold dumps_str.
    change (String dq (escape s +:+ String dq "") +:+ rest)
      with (String dq ((escape s +:+ String dq "") +:+ rest)).
    rewrite string_app_assoc.
    change (String dq "" +:+ rest) with (String dq rest).
    rewrite parse_value_str, parse_chars_escape. reflexivity.
  - destruct l as [ | x l]; [reflexivity | ].
    rewrite value_size_list in Hsize.
    apply distinct_keys_list in Hk.
    destruct (value_size_elements (x :: l)) as [Hlen Hsz].
    cbn [dumps].
    change (("[" +:+ join ", " (map dumps (x :: l)) +:+ "]") +:+ rest)
      with (String "[" ((join ", " (map dumps (x :: l)) +:+ "]") +:+ rest)).
    rewrite string_app_assoc.
    change ("]" +:+ rest) with (String "]" rest).
    destruct (join_head_elements x l (String "]" rest)) as (c & s & Hj & Hc).
    pose proof (parse_value_list fuel c s Hc) as Hl.
    rewrite <- Hj in Hl. rewrite Hl.
    apply parse_elements_ok; [lia | discriminate | ].
    rewrite Forall_forall in IH, Hk, Hsz |- *.
    intros y Hy t Ht. apply (IH y Hy); [exact (Hk y Hy) | | exact Ht].
    specialize (Hsz y Hy). cbv beta in Hsz. lia.
  - destruct kv as [ | p kv]; [reflexivity | ].
    rewrite value_size_dict in Hsize.
    apply distinct_keys_dict in Hk. destruct Hk as [Hnd Hk].
    destruct (value_size_members (p :: kv)) as [Hlen Hsz].
    rewrite dumps_dict.
    change (("{" +:+ join ", " (map member (p :: kv)) +:+ "}") +:+ rest)
      with (String "{" ((join ", " (map member (p :: kv)) +:+ "}") +:+ rest)).
    rewrite string_app_assoc.
    change ("}" +:+ rest) with (String "}" rest).
    assert (Hj : exists s, join ", " (map member (p :: kv)) +:+ String "}" rest
                           = String dq s).
    { destruct p as [k x]. destruct kv as [ | q kv]; cbn [map].
      - cbn [join]. rewrite member_shape. eexists. reflexivity.
      - rewrite join_cons, string_app_assoc, member_shape. eexists. reflexivity. }
    destruct Hj as [s Hj].
    pose proof (parse_value_dict fuel s) as Hd.
    rewrite <- Hj in Hd. rewrite Hd.
    apply (parse_members_ok _ (p :: kv) []); [lia | discriminate | exact Hnd | ].
    rewrite Forall_forall in IH, Hk, Hsz |- *.
    intros q Hq t Ht. apply (IH q Hq); [exact (Hk q Hq) | | exact Ht].
    specialize (Hsz q Hq). cbv beta in Hsz. lia.
Qed.

Lemma string_length_app (a b : string) :
  String.length (a +:+ b) = (String.length a + String.length b)%nat.
Proof.
  induction a as [ | c a IH]; [reflexivity | ].
  change (String c a +:+ b) with (String c (a +:+ b)).
  cbn [String.length]. rewrite IH. reflexivity.
Qed.

Lemma join_length {A : Type} (f : A -> string) (g : A -> nat) (l : list A) :
  Forall (fun a => (g a <= String.length (f a))%nat) l ->
  (list_sum (map g l) <= String.length (join ", " (map f l)))%nat.
Proof.
  induction 1 as [ | a l Ha Hl IH]; [reflexivity | ].
  change (list_sum (map g (a :: l))) with (g a + list_sum (map g l))%nat.
  destruct l as [ | b l].
  - change (list_sum (map g [])) with 0%nat. cbn [map join]. lia.
  - cbn [map]. rewrite join_cons, !string_length_app.
    cbn [map] in IH. lia.
Qed.

Lemma value_size_le_length (v : pyval) : (value_size v <= String.length (dumps v))%nat.
Proof.
  induction v as [ | b | n | n | s | l IH | kv IH] using pyval_nested_ind.
  - cbn. lia.
  - destruct b; cbn; lia.
  - destruct (dumps_head (PyInt n)) as (c & s & -> & _). cbn. lia.
  - destruct (dumps_head (PyFloat n)) as (c & s & -> & _). cbn. lia.
  - destruct (dumps_head (PyStr s)) as (c & s' & -> & _). cbn. lia.
  - rewrite value_size_list. cbn [dumps]. rewrite !string_length_app.
    pose proof (join_length dumps value_size l IH). cbn [String.length]. lia.
  - rewrite value_size_dict, dumps_dict, !string_length_app.
    assert (Hm : Forall (fun p => (value_size (snd p) <= String.length (member p))%nat) kv).
    { eapply Forall_impl; [exact IH | ]. intros p Hp. cbv beta in Hp |- *.
      unfold member. rewrite !string_length_app. lia. }
    pose proof (join_length member (fun p => value_size (snd p)) kv Hm).
    cbn [String.length]. lia.
Qed.

(** [json.loads(json.dumps(v) + "\n")] gives [v] back. *)
Theorem loads_dumps (v : pyval) :
  distinct_keys v -> loads (dumps v +:+ newline) = Some v.
Proof.
  intros Hk. unfold loads. rewrite skip_ws_dumps.
  rewrite (parse_value_dumps v _ newline Hk); [reflexivity | | reflexivity].
  rewrite string_length_app. pose proof (value_size_le_length v). lia.
Qed.

(** *** No line break in what [dumps] writes *)

Lemma one_line_app (a b : string) :
  one_line (a +:+ b) = one_line a && one_line b.
Proof.
  induction a as [ | c a IH]; [reflexivity | ].
  change (String c a +:+ b) with (String c (a +:+ b)).
  cbn [one_line]. rewrite IH, andb_assoc. reflexivity.
Qed.

Lemma one_line_escape (s : string) : one_line (escape s) = true.
Proof.
  induction s as [ | c s IH]; [reflexivity | ].
  cbn [escape]. rewrite one_line_app, IH, andb_true_r.
  destruct c as [[] [] [] [] [] [] [] []]; reflexivity.
Qed.

Lemma one_line_str_digits (fuel : nat) (n : Z) (acc : string) :
  0 <= n -> one_line acc = true -> one_line (str_digits fuel n acc) = true.
Proof.
  revert n acc. induction fuel as [ | fuel IH]; intros n acc Hn Hacc;
    cbn [str_digits]; [exact Hacc | ].
  assert (Hd : one_line (String (digit_char (n mod 10)) acc) = true).
  { cbn [one_line]. rewrite Hacc, andb_true_r.
    assert (Hr : 0 <= n mod 10 <= 9) by (Z.to_euclidean_division_equations; lia).
    assert (Hc : n mod 10 = 0 \/ n mod 10 = 1 \/ n mod 10 = 2 \/ n mod 10 = 3
                 \/ n mod 10 = 4 \/ n mod 10 = 5 \/ n mod 10 = 6 \/ n mod 10 = 7
                 \/ n mod 10 = 8 \/ n mod 10 = 9) by lia.
    repeat (destruct Hc as [-> | Hc]; [reflexivity | ]).
    rewrite Hc. reflexivity. }
  destruct (n <? 10); [exact Hd | ].
  apply IH; [Z.to_euclidean_division_equations; lia | exact Hd].
Qed.

Lemma one_line_str_int (n : Z) : one_line (str_int n) = true.
Proof.
  unfold str_int, str_nat. destruct (Z.ltb_spec n 0).
  - cbn [one_line]. rewrite one_line_str_digits by (lia || reflexivity). reflexivity.
  - apply one_line_str_digits; [lia | reflexivity].
Qed.

Lemma one_line_join (l : list string) :
  Forall (fun s => one_line s = true) l -> one_line (join ", " l) = true.
Proof.
  induction 1 as [ | a l Ha Hl IH]; [reflexivity | ].
  destruct l as [ | b l]; [exact Ha | ].
  rewrite join_cons, !one_line_app, Ha, IH. reflexivity.
Qed.

Theorem one_line_dumps (v : pyval) : one_line (dumps v) = true.
Proof.
  induction v as [ | b | n | n | s | l IH | kv IH] using pyval_nested_ind.
  - reflexivity.
  - destruct b; reflexivity.
  - apply one_line_str_int.
  - cbn [dumps]. rewrite one_line_app, one_line_str_int. reflexivity.
  - cbn [dumps]. unfold dumps_str. cbn [one_line].
    rewrite one_line_app, one_line_escape. reflexivity.
  - cbn [dumps]. rewrite !one_line_app, one_line_join; [reflexivity | ].
    apply Forall_map. exact IH.
  - rewrite dumps_dict, !one_line_app, one_line_join; [reflexivity | ].
    apply Forall_map. eapply Forall_impl; [exact IH | ].
    intros p Hp. cbv beta in Hp |- *. unfold member, dumps_str.
    rewrite !one_line_app, Hp. cbn [one_line].
    rewrite one_line_app, one_line_escape. reflexivity.
Qed.

End ReferenceJson.

#[global] Instance reference_round_trip : JsonRoundTrip RefJson.reference.
Proof.
  split; [exact one_line_dumps | ].
  intros v Hv. cbn [json_loads json_dumps RefJson.reference].
  rewrite (loads_dumps v Hv). reflexivity.
Qed.

(** ** The shape of the records *)

Lemma comment_records_have_distinct_keys (c : pyval) :
  is_comment_record c -> distinct_keys c.
Proof.
  intros (post & comment & created & ->). split; [ | cbn; tauto].
  cbn [map fst].
  repeat (apply NoDup_cons_2;
          [rewrite list_elem_of_In; cbn [In]; intuition discriminate | ]).
  apply NoDup_nil_2.
Qed.

Lemma post_records_have_distinct_keys (r : pyval) :
  is_post_record r -> distinct_keys r.
Proof.
  intros (post & created & cs & -> & Hcs). split.
  - cbn [map fst].
    repeat (apply NoDup_cons_2;
            [rewrite list_elem_of_In; cbn [In]; intuition discriminate | ]).
    apply NoDup_nil_2.
  - cbn [post_record fold_right snd distinct_keys]. repeat split.
    induction Hcs as [ | c cs Hc _ IH]; [exact I | ].
    split; [apply comment_records_have_distinct_keys; exact Hc | exact IH].
Qed.

Lemma records_are_post_records (entries : list (Submission * fetched))
    (ps cms : list pyval) :
  records_of entries = Ok (ps, cms) -> Forall is_post_record ps.
Proof.
  intros Hrec. destruct (records_of_posts _ _ _ Hrec) as [Hlen Hall].
  apply Forall_forall. intros r Hr.
  apply list_elem_of_lookup in Hr. destruct Hr as [i Hi].
  assert (Hlt : (i < length entries)%nat)
    by (rewrite <- Hlen; eapply lookup_lt_Some; exact Hi).
  apply lookup_lt_is_Some in Hlt. destruct Hlt as [[post answer] He].
  destruct (Hall i post answer He) as (created & cs & _ & Hc & HP & _).
  rewrite HP in Hi. injection Hi as <-.
  exists post, created, cs. split; [reflexivity | ].
  apply Forall_forall. intros c Hin. apply list_elem_of_In in Hin.
  destruct (comments_for_inv _ _ _ _ Hc Hin) as (nodes & cm & cr & _ & _ & ->).
  exists post, cm, cr. reflexivity.
Qed.

Lemma collected_posts_are_post_records {json : JsonModule} (reddit : Reddit)
    (st st1 : state) :
  collect reddit st = (st1, Ok ()) -> Forall is_post_record (all_posts_data st1).
Proof.
  intros Hcol. pose proof (collect_spec reddit st) as Hspec.
  rewrite Hcol in Hspec. cbn [snd] in Hspec.
  destruct (subreddit_lookup reddit); [discriminate Hspec | ].
  destruct (records_of (listed reddit)) as [[ps cms] | e] eqn:Hrec;
    [ | discriminate Hspec].
  destruct (snd (subreddit_new reddit POST_LIMIT)); [discriminate Hspec | ].
  destruct Hspec as (st1' & [= <-] & <- & _).
  exact (records_are_post_records _ _ _ Hrec).
Qed.

(** ** The analyzer's loader *)

Lemma text_lines_from_line (cur s rest : string) :
  one_line s = true ->
  text_lines_from cur (s +:+ newline +:+ rest)
  = (cur +:+ s +:+ newline) :: text_lines_from "" rest.
Proof.
  revert cur. induction s as [ | c s IH]; intros cur Hs.
  - reflexivity.
  - cbn [one_line] in Hs.
    apply andb_prop in Hs. destruct Hs as [Hs Hs'].
    apply andb_prop in Hs. destruct Hs as [Hlf Hcr].
    apply negb_true_iff in Hlf, Hcr.
    change (String c s +:+ newline +:+ rest)
      with (String c (s +:+ newline +:+ rest)).
    cbn [text_lines_from]. rewrite Hlf, Hcr, (IH _ Hs').
    rewrite string_app_assoc. reflexivity.
Qed.

Section LoaderClaims.

Context {json : JsonModule}.

Lemma text_lines_jsonl (items : list pyval) :
  Forall (fun p => one_line (json_dumps p) = true) items ->
  text_lines (jsonl items) = map (fun p => json_dumps p +:+ newline) items.
Proof.
  unfold text_lines. induction 1 as [ | p items Hp _ IH]; [reflexivity | ].
  cbn [jsonl foldr map]. rewrite (text_lines_from_line _ _ _ Hp).
  f_equal. exact IH.
Qed.

(** What the loop of [load_jsonl] computes on lines that it gets past:
    the documents of the lines that parse, and a message for each of the
    others. *)
Lemma load_loop_tolerated (file_path : string) (lines : list string)
    (acc : list pyval * list string) :
  Forall (fun line => tolerated_line line = true) lines ->
  load_loop file_path acc lines
  = ((fst acc ++ documents lines, snd acc ++ skip_messages file_path lines), Ok ()).
Proof.
  intros Hl. revert acc. induction Hl as [ | line lines Hline _ IH]; intros [data out].
  - cbn. rewrite !app_nil_r. reflexivity.
  - cbn [load_loop]. unfold load_line, tolerated_line, valid_line, malformed_line in *.
    unfold documents, skip_messages, malformed_line.
    cbn [omap list_omap List.filter fst snd].
    destruct (json_loads line) as [v | e].
    + rewrite IH. unfold documents, skip_messages, malformed_line.
      cbn [fst snd]. rewrite <- !app_assoc. reflexivity.
    + destruct e; try discriminate Hline.
      rewrite IH. unfold documents, skip_messages, malformed_line.
      cbn [fst snd map]. rewrite <- !app_assoc. reflexivity.
Qed.




Lemma load_jsonl_tolerated (files : gmap string file) (file_path : string)
    (f : file) :
  files !! file_path = Some f ->
  Forall (fun line => tolerated_line line = true) (lines_of f) ->
  load_jsonl files file_path
  = (skip_messages file_path (lines_of f),
     match end_of f with
     | Ok _ => Ok (documents (lines_of f))
     | Raise e => Raise e
     end).
Proof.
  intros Hf Hl. unfold load_jsonl. rewrite Hf, (load_loop_tolerated _ _ _ Hl).
  cbn [fst snd app]. destruct (end_of f); reflexivity.
Qed.


Lemma jsonl_loads_back (files : gmap string file) (file_path : string)
    (items : list pyval) :
  files !! file_path = Some (Text (jsonl items)) ->
  Forall (fun p => one_line (json_dumps p) = true) items ->
  Forall (fun p => json_loads (json_dumps p +:+ newline) = Ok p) items ->
  load_jsonl files file_path = ([], Ok items).
Proof.
  intros Hf Hone Hback.
  assert (Hl : Forall (fun line => tolerated_line line = true)
                 (map (fun p => json_dumps p +:+ newline) items)
               /\ documents (map (fun p => json_dumps p +:+ newline) items) = items
               /\ skip_messages file_path
                    (map (fun p => json_dumps p +:+ newline) items) = []).
  { clear Hf Hone. induction Hback as [ | x l Hx _ (IH1 & IH2 & IH3)].
    - repeat split. constructor.
    - split; [ | split].
      + constructor; [ | exact IH1].
        unfold tolerated_line, valid_line. rewrite Hx. reflexivity.
      + unfold documents in *. cbn [map omap list_omap]. rewrite Hx, IH2.
        reflexivity.
      + unfold skip_messages in *. cbn [map List.filter].
        unfold malformed_line at 1. rewrite Hx. exact IH3. }
  destruct Hl as (Hl & Hd & Hs).
  rewrite (load_jsonl_tolerated _ _ _ Hf); cbn [lines_of end_of];
    rewrite (text_lines_jsonl _ Hone); [ | exact Hl].
  rewrite Hd, Hs. reflexivity.
Qed.

Lemma on_disk_lookup (files : gmap string string) (path : string) :
  on_disk files !! path = Text <$> (files !! path).
Proof. unfold on_disk. apply lookup_fmap. Qed.

(** The framing of the saving block and of the loader, for any [json]
    that writes the given records on one line each and reads them back. *)
Lemma saved_lines_load_back (st : state) :
  all_posts_data st <> [] ->
  Forall (fun p => one_line (json_dumps p) = true) (all_posts_data st) ->
  Forall (fun p => json_loads (json_dumps p +:+ newline) = Ok p)
         (all_posts_data st) ->
  load_jsonl (on_disk (fs (fst (save_posts st)))) POSTS_FILE
  = ([], Ok (all_posts_data st))
  /\ length (all_posts_data st)
     = length (text_lines (jsonl (all_posts_data st))).
Proof.
  intros Hne Hone Hback. split.
  - apply jsonl_loads_back; [ | exact Hone | exact Hback].
    destruct (save_posts_spec st) as (evs & -> & _). cbn [fst fs].
    rewrite on_disk_lookup. unfold saved.
    destruct (all_posts_data st) as [ | p ps] eqn:E; [congruence | ].
    rewrite lookup_insert_eq. reflexivity.
  - rewrite (text_lines_jsonl _ Hone), length_map. reflexivity.
Qed.

(** C8, amended: for every non-empty list of N post records, loading
    the posts file after the saving block yields exactly these N
    records, in order and with equal fields, and no line is skipped;
    this for any [json] that writes a value without a line break and
    reads it back, as the reference implementation does. *)
Theorem saved_posts_load_back {laws : JsonRoundTrip json} (st : state) :
  all_posts_data st <> [] ->
  Forall is_post_record (all_posts_data st) ->
  load_jsonl (on_disk (fs (fst (save_posts st)))) POSTS_FILE
  = ([], Ok (all_posts_data st))
  /\ length (all_posts_data st)
     = length (text_lines (jsonl (all_posts_data st))).
Proof.
  intros Hne Hrec. apply saved_lines_load_back; [exact Hne | | ].
  - apply Forall_forall. intros r _. apply json_dumps_one_line.
  - eapply Forall_impl; [exact Hrec | ]. intros r Hr.
    apply json_loads_dumps, post_records_have_distinct_keys. exact Hr.
Qed.

End LoaderClaims.

(** C8, as stated, fails for the empty list of records: the saving block
    then writes nothing, and the loader finds what an earlier run left
    in the file (here one document), or no file at all. *)
Lemma nothing_saved_nothing_to_load_back :
  all_posts_data (start Example.old_files) = []
  /\ load_jsonl (on_disk (fs (fst (save_posts (start Example.old_files)))))
       POSTS_FILE
     = ([], Ok [PyDict [("id", PyStr "old")]])
  /\ load_jsonl (on_disk (fs (fst (save_posts (start ∅))))) POSTS_FILE
     = ([], Raise FileNotFoundError).
Proof. repeat split; vm_compute; reflexivity. Qed.

(** The theorem of C8 on the three post records of the example forum,
    with the reference implementation of [json]. *)
Lemma saved_posts_load_back_witness :
  load_jsonl (on_disk (fs (fst (save_posts (fst (collect Example.forum (start ∅)))))))
    POSTS_FILE
  = ([], Ok (all_posts_data (fst (collect Example.forum (start ∅)))))
  /\ length (all_posts_data (fst (collect Example.forum (start ∅))))
     = length (text_lines
                 (jsonl (all_posts_data (fst (collect Example.forum (start ∅)))))).
Proof.
  apply (saved_posts_load_back (fst (collect Example.forum (start ∅)))).
  - vm_compute. discriminate.
  - apply (collected_posts_are_post_records Example.forum (start ∅)).
    apply returned. vm_compute. reflexivity.
Defined.



(* ===================================================================== *)
(** * Further properties                                                  *)
(* ===================================================================== *)

(** ** More on the records of a run *)

Section MoreRecords.

#[local] Opaque convert_utc_to_vietnam_time.

Lemma records_of_concat (entries : list (Submission * fetched))
    (ps cms : list pyval) :
  records_of entries = Ok (ps, cms) ->
  cms = concat (map (fun P => list_at P "comments") ps).
Proof.
  revert ps cms. induction entries as [ | [post answer] entries IH]; intros ps cms;
    cbn [records_of].
  - intros [= <- <-]. reflexivity.
  - destruct (convert_utc_to_vietnam_time (s_created_utc post)) as [created | e];
      [ | discriminate].
    destruct (comments_for post answer) as [cs | e]; [ | discriminate].
    destruct (records_of entries) as [[ps' cms'] | e]; [ | discriminate].
    intros [= <- <-]. cbn [map concat].
    rewrite <- (IH ps' cms' eq_refl). reflexivity.
Qed.

Lemma comment_records_real (post : Submission) (nodes : list node)
    (cs : list pyval) :
  comment_records post nodes = Ok cs ->
  Forall2 (fun c cm =>
             exists created,
               convert_utc_to_vietnam_time (c_created_utc cm) = Ok created
               /\ c = new_comment_data post cm created)
          cs (real_comments nodes).
Proof.
  revert cs. induction nodes as [ | [cm | ] nodes IH]; intros cs;
    cbn [comment_records real_comments omap list_omap].
  - intros [= <-]. constructor.
  - destruct (convert_utc_to_vietnam_time (c_created_utc cm)) as [created | e] eqn:E;
      [ | discriminate].
    destruct (comment_records post nodes) as [cs' | e]; [ | discriminate].
    intros [= <-]. constructor; [exists created; split; [exact E | reflexivity] | ].
    apply IH. reflexivity.
  - exact (IH cs).
Qed.

Lemma records_of_raises (pre rest : list (Submission * fetched))
    (post : Submission) (answer : fetched) (e : exc) :
  Forall (fun entry => benign entry = true) pre ->
  is_ok (convert_utc_to_vietnam_time (s_created_utc post)) = true ->
  fatal_answer answer = Some e ->
  records_of (pre ++ (post, answer) :: rest) = Raise e.
Proof.
  intros Hpre Hc Hf. induction Hpre as [ | [p a] pre Hb _ IH].
  - cbn [app records_of].
    destruct (convert_utc_to_vietnam_time (s_created_utc post)); [ | discriminate Hc].
    destruct answer as [[] | [] | nodes]; cbn in Hf |- *;
      try discriminate Hf; injection Hf as <-; reflexivity.
  - cbn [app records_of]. rewrite IH.
    destruct (benign_records_of [(p, a)]) as (ps & cms & Hr);
      [constructor; [exact Hb | constructor] | ].
    cbn [records_of] in Hr.
    destruct (convert_utc_to_vietnam_time (s_created_utc p)); [ | discriminate Hr].
    destruct (comments_for p a); [reflexivity | discriminate Hr].
Qed.

End MoreRecords.

Section MoreRecordClaims.

Context {json : JsonModule}.

(** X1: after a run that returns, the comment stream is the
    concatenation, in listing order, of the comment lists embedded in
    the post records: both were fed by the same two [append]s. *)
Theorem stream_is_concatenation_of_embedded_lists (reddit : Reddit)
    (files : gmap string string) (st' : state) :
  scrape_subreddit reddit (start files) = (st', Ok ()) ->
  all_comments_data st'
  = concat (map (fun P => list_at P "comments") (all_posts_data st')).
Proof.
  intros Hrun. destruct (scrape_returns _ _ _ Hrun) as (_ & _ & Hrec & _).
  exact (records_of_concat _ _ _ Hrec).
Qed.

(** X2: the record of a listed post whose forest was delivered embeds
    one comment record for each node of the forest that is a comment, in
    the order of the forest, built from that comment; the "load more"
    placeholders that the forest still holds leave no record. *)
Theorem placeholders_are_filtered_out (reddit : Reddit)
    (files : gmap string string) (st' : state) (i : nat) (post : Submission)
    (nodes : list node) :
  scrape_subreddit reddit (start files) = (st', Ok ()) ->
  listed reddit !! i = Some (post, Forest nodes) ->
  exists P,
    all_posts_data st' !! i = Some P
    /\ length (list_at P "comments") = length (real_comments nodes)
    /\ Forall2 (fun c cm =>
                  exists created,
                    convert_utc_to_vietnam_time (c_created_utc cm) = Ok created
                    /\ c = new_comment_data post cm created)
               (list_at P "comments") (real_comments nodes).
Proof.
  intros Hrun Hi. destruct (scrape_returns _ _ _ Hrun) as (_ & _ & Hrec & _).
  destruct (records_of_posts _ _ _ Hrec) as [_ Hall].
  destruct (Hall i post _ Hi) as (created & cs & _ & Hc & HP & _).
  cbn [comments_for] in Hc.
  pose proof (comment_records_real _ _ _ Hc) as Hf.
  exists (post_record post created cs). split; [exact HP | ].
  change (list_at (post_record post created cs) "comments") with cs.
  split; [exact (Forall2_length _ _ _ Hf) | exact Hf].
Qed.

(** X5: in every record that a run emits, post or comment, the text
    under [created_vietnam] is the conversion of the number under
    [created_utc]. *)
Theorem local_time_is_derived_from_epoch (reddit : Reddit)
    (files : gmap string string) (st' : state) (r : pyval) :
  scrape_subreddit reddit (start files) = (st', Ok ()) ->
  In r (all_posts_data st') \/ In r (all_comments_data st') ->
  exists t s,
    getitem r "created_utc" = Some (PyFloat t)
    /\ getitem r "created_vietnam" = Some (PyStr s)
    /\ convert_utc_to_vietnam_time t = Ok s.
Proof.
  intros Hrun Hr. destruct (scrape_returns _ _ _ Hrun) as (_ & _ & Hrec & _).
  destruct (records_of_posts _ _ _ Hrec) as [Hlen Hall].
  destruct Hr as [Hr | Hr].
  - apply list_elem_of_In, list_elem_of_lookup in Hr. destruct Hr as [i Hi].
    assert (Hlt : (i < length (listed reddit))%nat)
      by (rewrite <- Hlen; eapply lookup_lt_Some; exact Hi).
    apply lookup_lt_is_Some in Hlt. destruct Hlt as [[post answer] He].
    destruct (Hall i post answer He) as (created & cs & Hc & _ & HP & _).
    rewrite HP in Hi. injection Hi as <-.
    exists (s_created_utc post), created. repeat split. exact Hc.
  - destruct (records_of_comments _ _ _ _ Hrec Hr)
      as (post & answer & created & cs & _ & Hcs & Hin & _).
    destruct answer as [e | e | nodes]; cbn [comments_for] in Hcs.
    + destruct e; try discriminate Hcs. injection Hcs as <-. destruct Hin.
    + destruct e; try discriminate Hcs. injection Hcs as <-. destruct Hin.
    + destruct (comment_records_inv _ _ _ _ Hcs Hin) as (cm & cr & _ & Hconv & ->).
      exists (c_created_utc cm), cr. repeat split. exact Hconv.
Qed.

(** X4: when the client answers the request for the comments of a
    listed post with an exception that is not the API error, the run
    ends with that exception, whatever the posts before it yielded, and
    the files are as they were: nothing of what was collected is saved. *)
Theorem other_client_errors_are_fatal (reddit : Reddit)
    (files : gmap string string) (pre rest : list (Submission * fetched))
    (post : Submission) (answer : fetched) (e : exc) :
  subreddit_lookup reddit = None ->
  listed reddit = pre ++ (post, answer) :: rest ->
  Forall (fun entry => benign entry = true) pre ->
  is_ok (convert_utc_to_vietnam_time (s_created_utc post)) = true ->
  fatal_answer answer = Some e ->
  snd (scrape_subreddit reddit (start files)) = Raise e
  /\ fs (fst (scrape_subreddit reddit (start files))) = files.
Proof.
  intros Hl Hlist Hpre Hc Hf.
  pose proof (records_of_raises pre rest post answer e Hpre Hc Hf) as Hr.
  rewrite <- Hlist in Hr.
  pose proof (collect_spec reddit (start files)) as Hspec.
  rewrite Hl, Hr in Hspec.
  destruct (quiet_collect reddit (start files)) as [Hfs _].
  unfold scrape_subreddit.
  destruct (collect reddit (start files)) as [st1 r] eqn:Hcol.
  cbn [fst snd] in Hspec, Hfs. subst r.
  rewrite (M_bind_Raise _ _ _ _ _ Hcol). split; [reflexivity | exact Hfs].
Qed.

End MoreRecordClaims.

(** X1 on the example forum. *)
Lemma stream_is_concatenation_of_embedded_lists_witness :
  all_comments_data (fst (scrape_subreddit Example.forum (start ∅)))
  = concat (map (fun P => list_at P "comments")
              (all_posts_data (fst (scrape_subreddit Example.forum (start ∅))))).
Proof.
  apply (stream_is_concatenation_of_embedded_lists Example.forum ∅
           (fst (scrape_subreddit Example.forum (start ∅)))).
  apply returned. vm_compute. reflexivity.
Defined.

(** X2 on the first post of the example forum, whose forest holds a
    placeholder between two comments. *)
Lemma placeholders_are_filtered_out_witness :
  exists P,
    all_posts_data (fst (scrape_subreddit Example.forum (start ∅))) !! 0%nat = Some P
    /\ length (list_at P "comments")
       = length (real_comments [IsComment Example.comment_1; MoreComments;
                                IsComment Example.comment_2])
    /\ Forall2 (fun c cm =>
                  exists created,
                    convert_utc_to_vietnam_time (c_created_utc cm) = Ok created
                    /\ c = new_comment_data Example.post_a cm created)
               (list_at P "comments")
               (real_comments [IsComment Example.comment_1; MoreComments;
                               IsComment Example.comment_2]).
Proof.
  apply (placeholders_are_filtered_out Example.forum ∅
           (fst (scrape_subreddit Example.forum (start ∅))) 0 Example.post_a
           [IsComment Example.comment_1; MoreComments; IsComment Example.comment_2]).
  - apply returned. vm_compute. reflexivity.
  - vm_compute. reflexivity.
Defined.

(** X5 on the first comment of the example forum. *)
Lemma local_time_is_derived_from_epoch_witness :
  exists t s,
    getitem (new_comment_data Example.post_a Example.comment_1
               "2023-11-15 05:15:00 +07") "created_utc" = Some (PyFloat t)
    /\ getitem (new_comment_data Example.post_a Example.comment_1
                  "2023-11-15 05:15:00 +07") "created_vietnam" = Some (PyStr s)
    /\ convert_utc_to_vietnam_time t = Ok s.
Proof.
  apply (local_time_is_derived_from_epoch Example.forum ∅
           (fst (scrape_subreddit Example.forum (start ∅)))).
  - apply returned. vm_compute. reflexivity.
  - right. vm_compute. left. reflexivity.
Defined.

(** X4 on a listing whose second post cannot be fetched. *)
Lemma other_client_errors_are_fatal_witness :
  snd (scrape_subreddit Example.failing_forum (start Example.old_files))
  = Raise (OtherClientError "500")
  /\ fs (fst (scrape_subreddit Example.failing_forum (start Example.old_files)))
     = Example.old_files.
Proof.
  apply (other_client_errors_are_fatal Example.failing_forum Example.old_files
           [(Example.post_a, Forest [IsComment Example.comment_1])]
           [(Example.post_c, Forest [IsComment Example.comment_3])]
           Example.post_b (SubmissionRaises (OtherClientError "500"))
           (OtherClientError "500")).
  - reflexivity.
  - vm_compute. reflexivity.
  - apply Forall_of_forallb. vm_compute. reflexivity.
  - vm_compute. reflexivity.
  - reflexivity.
Defined.

(** ** The session *)

Section EmitsOnly.

Variable allowed : event -> bool.

Lemma emits_only_unchanged {A} (m : M A) :
  (forall st, events (fst (m st)) = events st) -> emits_only allowed m.
Proof.
  intros H st. exists []. rewrite H, app_nil_r. split; [reflexivity | constructor].
Qed.

Lemma emits_only_bind {A B} (m : M A) (k : A -> M B) :
  emits_only allowed m -> (forall a, emits_only allowed (k a)) ->
  emits_only allowed (m ≫= k).
Proof.
  intros Hm Hk st. unfold mbind, M_bind.
  destruct (Hm st) as (evs & Hev & Hq).
  destruct (m st) as [st1 [a | e]]; cbn [fst] in *.
  - destruct (Hk a st1) as (evs' & Hev' & Hq').
    exists (evs ++ evs'). split.
    + rewrite Hev', Hev. symmetry. apply app_assoc.
    + apply Forall_app. split; assumption.
  - exists evs. split; assumption.
Qed.

Lemma emits_only_emit (ev : event) :
  allowed ev = true -> emits_only allowed (emit ev).
Proof.
  intros Hev st. exists [ev]. split; [reflexivity | ].
  constructor; [assumption | constructor].
Qed.

Lemma emits_only_for_each {A} (l : list A) (body : A -> M unit) :
  (forall x, emits_only allowed (body x)) -> emits_only allowed (for_each l body).
Proof.
  intros Hb. induction l as [ | x l IH]; cbn [for_each].
  - apply emits_only_unchanged. reflexivity.
  - apply emits_only_bind; [apply Hb | intros _; exact IH].
Qed.

Lemma emits_only_try_except_api (body : M unit) (handler : string -> M unit) :
  emits_only allowed body -> (forall msg, emits_only allowed (handler msg)) ->
  emits_only allowed (try_except_api body handler).
Proof.
  intros Hb Hh st. unfold try_except_api.
  destruct (Hb st) as (evs & Hev & Hq).
  destruct (body st) as [st1 [a | e]]; cbn [fst] in *.
  - exists evs. split; assumption.
  - destruct e; try (exists evs; split; assumption).
    destruct (Hh msg st1) as (evs' & Hev' & Hq').
    exists (evs ++ evs'). split.
    + rewrite Hev', Hev. symmetry. apply app_assoc.
    + apply Forall_app. split; assumption.
Qed.

End EmitsOnly.

(** Breaks a computation into its steps; what is left are the events. *)
Ltac emits_steps :=
  repeat match goal with
         | |- forall _, _ => intro
         | |- emits_only _ (_ ≫= _) => apply emits_only_bind
         | |- emits_only _ (for_each _ _) => apply emits_only_for_each
         | |- emits_only _ (try_except_api _ _) => apply emits_only_try_except_api
         | |- emits_only _ (emit _) => apply emits_only_emit; reflexivity
         | |- emits_only _ (log_info _) => apply emits_only_emit; reflexivity
         | |- emits_only _ (log_error _) => apply emits_only_emit; reflexivity
         | |- emits_only _ (mret _) => apply emits_only_unchanged; reflexivity
         | |- emits_only _ (get _) => apply emits_only_unchanged; reflexivity
         | |- emits_only _ (raise _) => apply emits_only_unchanged; reflexivity
         | |- emits_only _ (lift _) => apply emits_only_unchanged; reflexivity
         | |- emits_only _ (set_fs _) => apply emits_only_unchanged; reflexivity
         | |- emits_only _ (set_post_count _) => apply emits_only_unchanged; reflexivity
         | |- emits_only _ (set_post_data _) => apply emits_only_unchanged; reflexivity
         | |- emits_only _ (set_all_posts_data _) =>
             apply emits_only_unchanged; reflexivity
         | |- emits_only _ (set_all_comments_data _) =>
             apply emits_only_unchanged; reflexivity
         end.

Section SessionOpen.

Context {json : JsonModule}.
Variable reddit : Reddit.

Lemma scrape_keeps_session_open : emits_only keeps_session_open (scrape_subreddit reddit).
Proof.
  unfold scrape_subreddit, collect, traverse, save_posts, save_comments.
  emits_steps.
  - destruct (subreddit_lookup reddit); emits_steps.
  - match goal with |- emits_only _ (process_post ?x) => destruct x as [post answer] end.
    unfold process_post. emits_steps.
    unfold fetch_comments. destruct answer; emits_steps.
    match goal with |- emits_only _ (collect_comment _ ?n) => destruct n end;
      unfold collect_comment; emits_steps.
  - destruct (snd (subreddit_new reddit POST_LIMIT)); emits_steps.
  - match goal with |- emits_only _ (match ?l with _ => _ end) => destruct l end;
      unfold save, open_w, write, close; emits_steps.
  - match goal with |- emits_only _ (match ?l with _ => _ end) => destruct l end;
      unfold save, open_w, write, close; emits_steps.
Qed.

Lemma main_unfold (st : state) :
  main reddit st
  = ({| fs := fs (fst (scrape_subreddit reddit st));
        events := events (fst (scrape_subreddit reddit st)) ++ closing_events;
        all_posts_data := all_posts_data (fst (scrape_subreddit reddit st));
        all_comments_data := all_comments_data (fst (scrape_subreddit reddit st));
        post_count := post_count (fst (scrape_subreddit reddit st));
        post_data := post_data (fst (scrape_subreddit reddit st)) |},
     snd (scrape_subreddit reddit st)).
Proof.
  unfold main. destruct (scrape_subreddit reddit st) as [st' r].
  unfold mbind, M_bind, log_info, emit, closing_events.
  cbn [fst snd fs events all_posts_data all_comments_data post_count post_data].
  rewrite <- app_assoc. reflexivity.
Qed.

Lemma filter_none {A} (f : A -> bool) (l : list A) :
  Forall (fun x => negb (f x) = true) l -> List.filter f l = [].
Proof.
  induction 1 as [ | x l Hx _ IH]; [reflexivity | ].
  cbn [List.filter]. apply negb_true_iff in Hx. rewrite Hx. exact IH.
Qed.

(** X6: [main] closes the session exactly once, after everything that
    [scrape_subreddit] did and whether it returned or raised; it then
    ends as [scrape_subreddit] did, with the files that it left. *)
Theorem main_closes_the_session_once (files : gmap string string) :
  snd (main reddit (start files)) = snd (scrape_subreddit reddit (start files))
  /\ fs (fst (main reddit (start files)))
     = fs (fst (scrape_subreddit reddit (start files)))
  /\ events (fst (main reddit (start files)))
     = events (fst (scrape_subreddit reddit (start files))) ++ closing_events
  /\ List.filter is_session_close (events (fst (main reddit (start files))))
     = [EvSessionClose]
  /\ exists before,
       events (fst (main reddit (start files))) = before ++ closing_events
       /\ Forall (fun ev => is_session_close ev = false) before.
Proof.
  rewrite main_unfold. cbn [fst snd fs events].
  destruct (scrape_keeps_session_open (start files)) as (evs & Hev & Hopen).
  cbn [start events app] in Hev.
  split; [reflexivity | ]. split; [reflexivity | ]. split; [reflexivity | ].
  split.
  - rewrite List.filter_app, Hev, (filter_none _ _ Hopen). reflexivity.
  - exists evs. rewrite Hev. split; [reflexivity | ].
    eapply Forall_impl; [exact Hopen | ].
    intros ev H. apply negb_true_iff in H. exact H.
Qed.

End SessionOpen.

(** ** The trace of a run *)

Section Trace.

Context {json : JsonModule}.

#[local] Opaque convert_utc_to_vietnam_time.

Lemma try_fetch_events (post : Submission) (answer : fetched) (st : state)
    (cs : list pyval) :
  comments_for post answer = Ok cs ->
  events (fst (try_except_api
                 (fetch_comments post answer)
                 (fun e => log_error ("Could not process comments for post "
                                      +:+ s_id post +:+ ": " +:+ e)) st))
  = events st ++ fetch_events post answer.
Proof.
  unfold try_except_api, fetch_comments, fetch_events.
  destruct answer as [e | e | nodes]; cbn [comments_for api_message].
  - destruct e; try discriminate. intros _.
    unfold mbind, M_bind, emit, raise, log_error, emit. cbn.
    rewrite <- app_assoc. reflexivity.
  - destruct e; try discriminate. intros _.
    unfold mbind, M_bind, log_info, emit, raise, log_error, emit. cbn.
    rewrite <- !app_assoc. reflexivity.
  - intros Hc. unfold mbind, M_bind, log_info, emit.
    match goal with
    | |- context [for_each nodes (collect_comment post) ?s] =>
        pose proof (for_each_collect post nodes s) as Hloop
    end.
    rewrite Hc in Hloop. rewrite Hloop. cbn. rewrite <- !app_assoc. reflexivity.
Qed.

Lemma process_post_events (post : Submission) (answer : fetched)
    (st st' : state) :
  (emit EvNextPost ;; process_post (post, answer)) st = (st', Ok ()) ->
  events st' = events st ++ post_events (post_count st + 1) (post, answer).
Proof.
  unfold process_post. run_steps.
  destruct (convert_utc_to_vietnam_time (s_created_utc post)) as [created | e];
    [ | discriminate].
  match goal with
  | |- context [try_except_api ?b ?h ?s] =>
      pose proof (try_fetch_spec post answer s h) as Htry;
      pose proof (try_fetch_events post answer s) as Hev
  end.
  assert (Hh : forall msg st1, exists evs,
             log_error ("Could not process comments for post "
                        +:+ s_id post +:+ ": " +:+ msg) st1 =
             ({| fs := fs st1; events := events st1 ++ evs;
                 all_posts_data := all_posts_data st1;
                 all_comments_data := all_comments_data st1;
                 post_count := post_count st1; post_data := post_data st1 |}, Ok ())).
  { intros msg st1. eexists. reflexivity. }
  specialize (Htry Hh). clear Hh.
  destruct (comments_for post answer) as [cs | e].
  - specialize (Hev cs eq_refl).
    destruct (try_except_api _ _ _) as [st1 r]. destruct Htry as [evs [= -> ->]].
    intros [= <-]. cbn [events fst] in Hev |- *.
    rewrite Hev. unfold post_events. cbn [fst snd]. rewrite <- !app_assoc.
    reflexivity.
  - destruct (try_except_api _ _ _) as [st1 r]. cbn [snd] in Htry. subst r.
    discriminate.
Qed.

Lemma for_each_process_events (entries : list (Submission * fetched))
    (st st' : state) :
  for_each entries (fun entry => emit EvNextPost ;; process_post entry) st
  = (st', Ok ()) ->
  events st' = events st ++ listing_events (post_count st) entries.
Proof.
  revert st. induction entries as [ | [post answer] entries IH]; intros st.
  - cbn. intros [= <-]. rewrite app_nil_r. reflexivity.
  - cbn [for_each listing_events].
    destruct ((emit EvNextPost ;; process_post (post, answer)) st)
      as [st1 [[] | e]] eqn:Hstep.
    + rewrite (M_bind_Ok _ _ _ _ _ Hstep). intros Hrest.
      rewrite (IH _ Hrest), (process_post_events _ _ _ _ Hstep), <- app_assoc.
      assert (Hn : post_count st1 = post_count st + 1).
      { pose proof (process_post_spec post answer (fst (emit EvNextPost st))) as Hp.
        assert (Heq : process_post (post, answer) (fst (emit EvNextPost st))
                      = (st1, Ok ())) by exact Hstep.
        rewrite Heq in Hp.
        destruct (convert_utc_to_vietnam_time (s_created_utc post));
          [ | discriminate Hp].
        destruct (comments_for post answer); [ | discriminate Hp].
        destruct Hp as (st2 & [= <-] & _ & _ & Hn). exact Hn. }
      rewrite Hn. reflexivity.
    + rewrite (M_bind_Raise _ _ _ _ _ Hstep). discriminate.
Qed.

End Trace.

Section WholeTrace.

Context {json : JsonModule}.
Variable reddit : Reddit.

Lemma saving_blocks_emit :
  emits_only is_saving_event (save_posts ;; save_comments).
Proof.
  unfold save_posts, save_comments. emits_steps.
  - match goal with |- emits_only _ (match ?l with _ => _ end) => destruct l end;
      unfold save, open_w, write, close; emits_steps.
  - match goal with |- emits_only _ (match ?l with _ => _ end) => destruct l end;
      unfold save, open_w, write, close; emits_steps.
Qed.

Lemma traverse_events (listing : list (Submission * fetched) * option exc)
    (st st' : state) :
  traverse listing st = (st', Ok ()) ->
  events st' = events st ++ listing_events (post_count st) (fst listing)
               ++ [EvNextPost].
Proof.
  unfold traverse.
  destruct (for_each (fst listing)
              (fun entry => emit EvNextPost ;; process_post entry) st)
    as [st1 [[] | e]] eqn:Hloop.
  - rewrite (M_bind_Ok _ _ _ _ _ Hloop).
    unfold mbind, M_bind, emit. cbn [fst snd events].
    destruct (snd listing); [discriminate | ].
    intros [= <-]. cbn [events].
    rewrite (for_each_process_events _ _ _ Hloop), <- app_assoc. reflexivity.
  - rewrite (M_bind_Raise _ _ _ _ _ Hloop). discriminate.
Qed.

Lemma collect_events (st st' : state) :
  collect reddit st = (st', Ok ()) ->
  events st' = events st ++ opening_events ++ listing_events 0 (listed reddit)
               ++ [EvNextPost].
Proof.
  unfold collect.
  unfold mbind at 1 2 3 4 5 6 7, M_bind at 1 2 3 4 5 6 7.
  unfold log_info, emit, set_all_posts_data, set_all_comments_data, set_post_count.
  cbn [fs events all_posts_data all_comments_data post_count post_data].
  destruct (subreddit_lookup reddit) as [e | ]; [discriminate | ].
  unfold mret, M_ret.
  cbn [fs events all_posts_data all_comments_data post_count post_data].
  intros Ht. rewrite (traverse_events _ _ _ Ht).
  cbn [events post_count]. unfold opening_events, listed.
  rewrite <- !app_assoc. reflexivity.
Qed.

Lemma returned_trace (files : gmap string string) (st' : state) :
  scrape_subreddit reddit (start files) = (st', Ok ()) ->
  exists tail,
    events st' = opening_events ++ listing_events 0 (listed reddit)
                 ++ [EvNextPost] ++ tail
    /\ Forall (fun ev => is_saving_event ev = true) tail.
Proof.
  unfold scrape_subreddit. intros Hrun.
  destruct (collect reddit (start files)) as [st1 [[] | e]] eqn:Hcol.
  - rewrite (M_bind_Ok _ _ _ _ _ Hcol) in Hrun.
    destruct (saving_blocks_emit st1) as (tail & Hev & Htail).
    assert (Hs : (save_posts ;; save_comments) st1 = (st', Ok ())) by exact Hrun.
    rewrite Hs in Hev. cbn [fst] in Hev.
    exists tail. split; [ | exact Htail].
    rewrite Hev, (collect_events _ _ Hcol). cbn [start events].
    rewrite <- !app_assoc. reflexivity.
  - rewrite (M_bind_Raise _ _ _ _ _ Hcol) in Hrun. discriminate Hrun.
Qed.

Lemma requested_app (a b : list event) :
  requested (a ++ b) = requested a ++ requested b.
Proof. apply omap_app. Qed.

Lemma error_lines_app (a b : list event) :
  error_lines (a ++ b) = error_lines a ++ error_lines b.
Proof. apply omap_app. Qed.

Lemma expanded_app (a b : list event) :
  expanded (a ++ b) = expanded a ++ expanded b.
Proof. apply omap_app. Qed.

Lemma saving_events_projections (tail : list event) :
  Forall (fun ev => is_saving_event ev = true) tail ->
  requested tail = [] /\ error_lines tail = [] /\ expanded tail = [].
Proof.
  induction 1 as [ | ev tail Hev _ (IH1 & IH2 & IH3)]; [repeat split | ].
  destruct ev as [[ | ] msg | | | | | | | | ]; try discriminate Hev;
    repeat split; assumption.
Qed.

Lemma listing_events_requested (n : Z) (entries : list (Submission * fetched)) :
  requested (listing_events n entries) = map (fun entry => s_id (fst entry)) entries.
Proof.
  revert n. induction entries as [ | [post answer] entries IH]; intros n;
    [reflexivity | ].
  cbn [listing_events map]. rewrite requested_app, IH.
  destruct answer as [[] | [] | nodes]; reflexivity.
Qed.

Lemma listing_events_error_lines (n : Z) (entries : list (Submission * fetched)) :
  error_lines (listing_events n entries) = omap error_line entries.
Proof.
  revert n. induction entries as [ | [post answer] entries IH]; intros n;
    [reflexivity | ].
  cbn [listing_events]. rewrite error_lines_app, IH.
  destruct answer as [[] | [] | nodes]; reflexivity.
Qed.

Lemma listing_events_expanded (n : Z) (entries : list (Submission * fetched)) :
  expanded (listing_events n entries)
  = map (fun entry => s_id (fst entry)) (List.filter delivered entries).
Proof.
  revert n. induction entries as [ | [post answer] entries IH]; intros n;
    [reflexivity | ].
  cbn [listing_events]. rewrite expanded_app, IH.
  destruct answer as [[] | [] | nodes]; reflexivity.
Qed.

(** X7: in a run that returns, the comments are requested once for
    each listed post, in the order of the listing, and the forest is
    expanded for exactly those posts that [reddit.submission] delivered. *)
Theorem comments_are_requested_in_listing_order
    (files : gmap string string) (st' : state) :
  scrape_subreddit reddit (start files) = (st', Ok ()) ->
  requested (events st') = map (fun entry => s_id (fst entry)) (listed reddit)
  /\ expanded (events st')
     = map (fun entry => s_id (fst entry)) (List.filter delivered (listed reddit)).
Proof.
  intros Hrun. destruct (returned_trace _ _ Hrun) as (tail & -> & Htail).
  destruct (saving_events_projections _ Htail) as (Hr & _ & Hx).
  rewrite !requested_app, !expanded_app, Hr, Hx,
    listing_events_requested, listing_events_expanded.
  cbn [opening_events requested expanded omap list_omap app].
  rewrite !app_nil_r. split; reflexivity.
Qed.

(** X8: in a run that returns, the log holds one error line for each
    listed post for which the client answered with an API error, in the
    order of the listing, naming the post and the error; it holds no
    other error line. *)
Theorem each_api_error_is_logged_once
    (files : gmap string string) (st' : state) :
  scrape_subreddit reddit (start files) = (st', Ok ()) ->
  error_lines (events st') = omap error_line (listed reddit).
Proof.
  intros Hrun. destruct (returned_trace _ _ Hrun) as (tail & -> & Htail).
  destruct (saving_events_projections _ Htail) as (_ & He & _).
  rewrite !error_lines_app, He, listing_events_error_lines.
  cbn [opening_events error_lines omap list_omap app].
  rewrite !app_nil_r. reflexivity.
Qed.

End WholeTrace.

(** X7 on the example forum: the forest of the second post is never
    expanded. *)
Lemma comments_are_requested_in_listing_order_witness :
  requested (events (fst (scrape_subreddit Example.forum (start ∅))))
  = map (fun entry => s_id (fst entry)) (listed Example.forum)
  /\ expanded (events (fst (scrape_subreddit Example.forum (start ∅))))
     = map (fun entry => s_id (fst entry))
         (List.filter delivered (listed Example.forum)).
Proof.
  apply (comments_are_requested_in_listing_order Example.forum ∅
           (fst (scrape_subreddit Example.forum (start ∅)))).
  apply returned. vm_compute. reflexivity.
Defined.

(** X8 on the example forum, whose second post runs into an API error. *)
Lemma each_api_error_is_logged_once_witness :
  error_lines (events (fst (scrape_subreddit Example.forum (start ∅))))
  = omap error_line (listed Example.forum).
Proof.
  apply (each_api_error_is_logged_once Example.forum ∅
           (fst (scrape_subreddit Example.forum (start ∅)))).
  apply returned. vm_compute. reflexivity.
Defined.

(** ** The counter of posts *)

Lemma listed_at_most_limit (reddit : Reddit) :
  Z.of_nat (length (listed reddit)) <= POST_LIMIT.
Proof.
  unfold listed, subreddit_new.
  destruct (Z.ltb_spec (Z.of_nat (length (newest reddit))) POST_LIMIT);
    cbn [fst]; [lia | ].
  rewrite length_take. unfold POST_LIMIT in *. lia.
Qed.

Lemma listing_events_progress (n : Z) (entries : list (Submission * fetched))
    (i : nat) (entry : Submission * fetched) :
  entries !! i = Some entry ->
  In (EvLog INFO (progress_line (n + Z.of_nat i + 1) (fst entry)))
     (listing_events n entries).
Proof.
  revert n i. induction entries as [ | e entries IH]; intros n i Hi;
    [discriminate Hi | ].
  cbn [listing_events]. apply in_or_app. destruct i as [ | i].
  - injection Hi as ->. left. right. left.
    rewrite Z.add_0_r. reflexivity.
  - right. replace (n + Z.of_nat (S i) + 1) with (n + 1 + Z.of_nat i + 1) by lia.
    apply IH. exact Hi.
Qed.

Section Counter.

Context {json : JsonModule}.
Variable reddit : Reddit.

Lemma traverse_post_count (listing : list (Submission * fetched) * option exc)
    (st st' : state) :
  traverse listing st = (st', Ok ()) ->
  post_count st' = post_count st + Z.of_nat (length (fst listing)).
Proof.
  unfold traverse.
  pose proof (for_each_process (fst listing) st) as Hloop.
  destruct (records_of (fst listing)) as [[ps cms] | e].
  - destruct Hloop as (st1 & Hrun & _ & _ & Hn).
    rewrite (M_bind_Ok _ _ _ _ _ Hrun).
    unfold mbind, M_bind, emit. cbn [fst snd].
    destruct (snd listing); [discriminate | ].
    intros [= <-]. cbn [post_count]. exact Hn.
  - match type of Hloop with
    | snd ?run = _ => destruct run as [st1 r] eqn:Hrun
    end.
    cbn [snd] in Hloop. subst r.
    rewrite (M_bind_Raise _ _ _ _ _ Hrun). discriminate.
Qed.

Lemma collect_post_count (st st' : state) :
  collect reddit st = (st', Ok ()) ->
  post_count st' = Z.of_nat (length (listed reddit)).
Proof.
  destruct (collect_unfold reddit st) as (evs & st_e & ->).
  destruct (subreddit_lookup reddit); [discriminate | ].
  intros Ht. rewrite (traverse_post_count _ _ _ Ht). reflexivity.
Qed.

Lemma scrape_post_count (st st' : state) :
  scrape_subreddit reddit st = (st', Ok ()) ->
  post_count st' = Z.of_nat (length (listed reddit)).
Proof.
  unfold scrape_subreddit. intros Hrun.
  destruct (collect reddit st) as [st1 [[] | e]] eqn:Hcol.
  - rewrite (M_bind_Ok _ _ _ _ _ Hcol) in Hrun.
    destruct (save_posts_spec st1) as (evs2 & Hsp & _).
    rewrite (M_bind_Ok _ _ _ _ _ Hsp) in Hrun.
    match type of Hrun with
    | save_comments ?s = _ => destruct (save_comments_spec s) as (evs3 & Hsc & _)
    end.
    rewrite Hsc in Hrun. injection Hrun as <-. cbn [post_count].
    exact (collect_post_count _ _ Hcol).
  - rewrite (M_bind_Raise _ _ _ _ _ Hcol) in Hrun. discriminate Hrun.
Qed.

(** X3: when a run returns, [post_count] is the number of post records
    it emitted, which is at most [POST_LIMIT], and the log announces the
    [i]th listed post as number [i] of [POST_LIMIT]. *)
Theorem post_count_counts_the_records (files : gmap string string)
    (st' : state) :
  scrape_subreddit reddit (start files) = (st', Ok ()) ->
  post_count st' = Z.of_nat (length (all_posts_data st'))
  /\ 0 <= post_count st' <= POST_LIMIT
  /\ forall (i : nat) (entry : Submission * fetched),
       listed reddit !! i = Some entry ->
       In (EvLog INFO (progress_line (Z.of_nat i + 1) (fst entry))) (events st').
Proof.
  intros Hrun.
  destruct (scrape_returns _ _ _ Hrun) as (_ & _ & Hrec & _).
  destruct (records_of_posts _ _ _ Hrec) as [Hlen _].
  rewrite (scrape_post_count _ _ Hrun), Hlen.
  split; [reflexivity | ].
  split; [pose proof (listed_at_most_limit reddit); lia | ].
  intros i entry Hi.
  destruct (returned_trace _ _ _ Hrun) as (tail & -> & _).
  apply in_or_app. right. apply in_or_app. left.
  exact (listing_events_progress 0 _ _ _ Hi).
Qed.

End Counter.

(** X3 on the example forum. *)
Lemma post_count_counts_the_records_witness :
  post_count (fst (scrape_subreddit Example.forum (start ∅)))
  = Z.of_nat (length (all_posts_data (fst (scrape_subreddit Example.forum (start ∅)))))
  /\ 0 <= post_count (fst (scrape_subreddit Example.forum (start ∅))) <= POST_LIMIT
  /\ forall (i : nat) (entry : Submission * fetched),
       listed Example.forum !! i = Some entry ->
       In (EvLog INFO (progress_line (Z.of_nat i + 1) (fst entry)))
          (events (fst (scrape_subreddit Example.forum (start ∅)))).
Proof.
  apply (post_count_counts_the_records Example.forum ∅
           (fst (scrape_subreddit Example.forum (start ∅)))).
  apply returned. vm_compute. reflexivity.
Defined.

(** ** More on the loader *)

Section MoreLoader.

Context {json : JsonModule}.



Lemma records_are_comment_records (entries : list (Submission * fetched))
    (ps cms : list pyval) :
  records_of entries = Ok (ps, cms) -> Forall is_comment_record cms.
Proof.
  intros Hrec. apply List.Forall_forall. intros c Hin.
  destruct (records_of_comments _ _ _ _ Hrec Hin)
    as (post & answer & created & cs & _ & Hcs & Hc & _).
  destruct (comments_for_inv _ _ _ _ Hcs Hc) as (nodes & cm & cr & _ & _ & ->).
  exists post, cm, cr. reflexivity.
Qed.

Lemma saved_lookup (files : gmap string string) (ps cms : list pyval) :
  (ps <> [] ->
   saved COMMENTS_FILE cms (saved POSTS_FILE ps files) !! POSTS_FILE
   = Some (jsonl ps))
  /\ (cms <> [] ->
      saved COMMENTS_FILE cms (saved POSTS_FILE ps files) !! COMMENTS_FILE
      = Some (jsonl cms))
  /\ (cms = [] ->
      saved COMMENTS_FILE cms (saved POSTS_FILE ps files) !! COMMENTS_FILE
      = files !! COMMENTS_FILE).
Proof.
  pose proof files_differ as Hd. unfold saved.
  destruct ps as [ | p ps], cms as [ | c cms]; repeat split; intros H;
    try congruence;
    rewrite ?lookup_insert_eq, ?lookup_insert_ne by congruence;
    rewrite ?lookup_insert_eq; reflexivity.
Qed.

Lemma run_files (reddit : Reddit) (files : gmap string string) (st' : state) :
  scrape_subreddit reddit (start files) = (st', Ok ()) ->
  (all_posts_data st' <> [] ->
   fs st' !! POSTS_FILE = Some (jsonl (all_posts_data st')))
  /\ (all_comments_data st' <> [] ->
      fs st' !! COMMENTS_FILE = Some (jsonl (all_comments_data st')))
  /\ (all_comments_data st' = [] ->
      fs st' !! COMMENTS_FILE = files !! COMMENTS_FILE).
Proof.
  intros Hrun.
  destruct (scrape_returns _ _ _ Hrun) as (_ & _ & _ & ->).
  apply saved_lookup.
Qed.

Lemma records_load_back {laws : JsonRoundTrip json}
    (files : gmap string file) (file_path : string) (items : list pyval) :
  files !! file_path = Some (Text (jsonl items)) ->
  Forall distinct_keys items ->
  load_jsonl files file_path = ([], Ok items).
Proof.
  intros Hf Hd. apply jsonl_loads_back; [exact Hf | | ].
  - apply List.Forall_forall. intros r _. apply json_dumps_one_line.
  - eapply Forall_impl; [exact Hd | ]. intros r Hr. apply json_loads_dumps, Hr.
Qed.

Lemma run_records_have_distinct_keys (reddit : Reddit)
    (files : gmap string string) (st' : state) :
  scrape_subreddit reddit (start files) = (st', Ok ()) ->
  Forall distinct_keys (all_posts_data st')
  /\ Forall distinct_keys (all_comments_data st').
Proof.
  intros Hrun. destruct (scrape_returns _ _ _ Hrun) as (_ & _ & Hrec & _).
  split.
  - eapply Forall_impl; [exact (records_are_post_records _ _ _ Hrec) | ].
    exact post_records_have_distinct_keys.
  - eapply Forall_impl; [exact (records_are_comment_records _ _ _ Hrec) | ].
    exact comment_records_have_distinct_keys.
Qed.

(** X11: when a run returns with at least one comment, loading the
    comments file that it wrote yields exactly the comment records of
    the run, in order, and no line is skipped; this for any [json] that
    writes a value without a line break and reads it back. *)
Theorem saved_comments_load_back {laws : JsonRoundTrip json} (reddit : Reddit)
    (files : gmap string string) (st' : state) :
  scrape_subreddit reddit (start files) = (st', Ok ()) ->
  all_comments_data st' <> [] ->
  load_jsonl (on_disk (fs st')) COMMENTS_FILE = ([], Ok (all_comments_data st'))
  /\ Forall is_comment_record (all_comments_data st').
Proof.
  intros Hrun Hne. split.
  { apply records_load_back;
      [ | exact (proj2 (run_records_have_distinct_keys _ _ _ Hrun))].
    rewrite on_disk_lookup, (proj1 (proj2 (run_files _ _ _ Hrun)) Hne).
    reflexivity. }
  destruct (scrape_returns _ _ _ Hrun) as (_ & _ & Hrec & _).
  exact (records_are_comment_records _ _ _ Hrec).
Qed.

End MoreLoader.


(** X11 on the example forum, with the reference implementation of
    [json]. *)
Lemma saved_comments_load_back_witness :
  load_jsonl (on_disk (fs (fst (scrape_subreddit Example.forum (start ∅)))))
    COMMENTS_FILE
  = ([], Ok (all_comments_data (fst (scrape_subreddit Example.forum (start ∅)))))
  /\ Forall is_comment_record
       (all_comments_data (fst (scrape_subreddit Example.forum (start ∅)))).
Proof.
  apply (saved_comments_load_back Example.forum ∅
           (fst (scrape_subreddit Example.forum (start ∅)))).
  - apply returned. vm_compute. reflexivity.
  - vm_compute. discriminate.
Defined.

(** ** The script of the analyzer *)

(** *** Words *)

Lemma lower_char_not_upper (c : ascii) : is_upper (lower_char c) = false.
Proof.
  destruct c as [[ | ] [ | ] [ | ] [ | ] [ | ] [ | ] [ | ] [ | ]]; reflexivity.
Qed.

Lemma all_chars_app (p : ascii -> bool) (a b : string) :
  all_chars p (a +:+ b) = all_chars p a && all_chars p b.
Proof.
  induction a as [ | c a IH]; [reflexivity | ].
  change (String c a +:+ b) with (String c (a +:+ b)).
  cbn [all_chars]. rewrite IH, andb_assoc. reflexivity.
Qed.

Lemma all_chars_lower (s : string) :
  all_chars (fun c => negb (is_upper c)) (lower s) = true.
Proof.
  induction s as [ | c s IH]; [reflexivity | ].
  cbn [lower all_chars]. rewrite lower_char_not_upper, IH. reflexivity.
Qed.

Lemma lower_fixed (s : string) :
  all_chars (fun c => negb (is_upper c)) s = true -> lower s = s.
Proof.
  induction s as [ | c s IH]; [reflexivity | ].
  cbn [lower all_chars]. intros H. apply andb_prop in H. destruct H as [Hc Hs].
  unfold lower_char. apply negb_true_iff in Hc. rewrite Hc, (IH Hs). reflexivity.
Qed.

(** Every word that [findall] returns is a run of word characters of
    the text, and is not empty. *)
Lemma findall_words_from_spec (p : ascii -> bool) (s cur : string) :
  all_chars p s = true ->
  all_chars (fun c => is_word_char c && p c) cur = true ->
  Forall (fun w => w <> "" /\ all_chars (fun c => is_word_char c && p c) w = true)
         (findall_words_from cur s).
Proof.
  revert cur. induction s as [ | c s IH]; intros cur Hs Hcur.
  - cbn [findall_words_from]. destruct cur; [constructor | ].
    constructor; [split; [discriminate | exact Hcur] | constructor].
  - cbn [all_chars] in Hs. apply andb_prop in Hs. destruct Hs as [Hc Hs].
    cbn [findall_words_from]. destruct (is_word_char c) eqn:Hw.
    + apply IH; [exact Hs | ].
      rewrite all_chars_app, Hcur. cbn [all_chars]. rewrite Hw, Hc. reflexivity.
    + destruct cur as [ | c0 cur].
      * apply IH; [exact Hs | reflexivity].
      * constructor; [split; [discriminate | exact Hcur] | ].
        apply IH; [exact Hs | reflexivity].
Qed.

Lemma all_chars_and (p q : ascii -> bool) (s : string) :
  all_chars (fun c => p c && q c) s = all_chars p s && all_chars q s.
Proof.
  induction s as [ | c s IH]; [reflexivity | ].
  cbn [all_chars]. rewrite IH.
  destruct (p c), (q c), (all_chars p s), (all_chars q s); reflexivity.
Qed.

Lemma counted_words_spec (title : string) (w : string) :
  In w (counted_words title) ->
  w <> "" /\ all_chars is_word_char w = true /\ lower w = w
  /\ is_stopword w = false /\ isdigit w = false.
Proof.
  unfold counted_words. rewrite filter_In. intros [Hin Hf].
  apply andb_prop in Hf. destruct Hf as [Hstop Hdig].
  apply negb_true_iff in Hstop, Hdig.
  pose proof (findall_words_from_spec (fun c => negb (is_upper c))
                (lower title) "" (all_chars_lower title) eq_refl) as Hall.
  rewrite List.Forall_forall in Hall. destruct (Hall w Hin) as [Hne Hch].
  rewrite all_chars_and in Hch. apply andb_prop in Hch. destruct Hch as [Hw Hl].
  repeat split; try assumption. apply lower_fixed. exact Hl.
Qed.

Lemma title_words_spec (titles : list pyval) (w : string) :
  In w (title_words titles) ->
  w <> "" /\ all_chars is_word_char w = true /\ lower w = w
  /\ is_stopword w = false /\ isdigit w = false.
Proof.
  unfold title_words. rewrite in_flat_map. intros (v & _ & Hin).
  destruct v; try destruct Hin. apply (counted_words_spec _ _ Hin).
Qed.

(** *** Counters *)

Lemma counter_get_add (w w' : string) (c : Counter) :
  counter_get w (counter_add w' c)
  = if String.eqb w' w then S (counter_get w c) else counter_get w c.
Proof.
  induction c as [ | [k n] c IH]; cbn [counter_add counter_get].
  - destruct (String.eqb w' w); reflexivity.
  - destruct (String.eqb k w') eqn:Ek; cbn [counter_get].
    + apply String.eqb_eq in Ek. subst k.
      destruct (String.eqb w' w); reflexivity.
    + rewrite IH. destruct (String.eqb k w) eqn:Ekw; [ | reflexivity].
      apply String.eqb_eq in Ekw. subst k.
      rewrite String.eqb_sym, Ek. reflexivity.
Qed.

Lemma counter_get_update (w : string) (words : list string) (c : Counter) :
  counter_get w (update c words)
  = (counter_get w c + count_occ string_dec words w)%nat.
Proof.
  unfold update. revert c. induction words as [ | w' words IH]; intros c;
    cbn [foldl count_occ]; [lia | ].
  rewrite IH, counter_get_add.
  destruct (string_dec w' w) as [-> | Hne].
  - rewrite String.eqb_refl. lia.
  - apply String.eqb_neq in Hne. rewrite Hne. reflexivity.
Qed.

Lemma counter_add_keys (w : string) (c : Counter) (k : string) :
  In k (map fst (counter_add w c)) <-> k = w \/ In k (map fst c).
Proof.
  induction c as [ | [k0 n] c IH]; cbn [counter_add map fst In].
  - intuition congruence.
  - destruct (String.eqb k0 w) eqn:E; cbn [map fst In].
    + apply String.eqb_eq in E. subst k0. intuition congruence.
    + rewrite IH. intuition congruence.
Qed.

Lemma counter_add_well_formed (w : string) (c : Counter) :
  well_formed c -> well_formed (counter_add w c).
Proof.
  intros [Hnd Hpos]. induction c as [ | [k n] c IH]; cbn [counter_add].
  - split; [repeat constructor; intros H; inversion H | repeat constructor].
  - cbn [map fst] in Hnd. apply NoDup_cons in Hnd. destruct Hnd as [Hk Hnd].
    apply List.Forall_cons_iff in Hpos. destruct Hpos as [Hn Hpos].
    destruct (String.eqb k w) eqn:E.
    + split.
      * cbn [map fst]. apply NoDup_cons_2; assumption.
      * constructor; [cbn; lia | exact Hpos].
    + destruct (IH Hnd Hpos) as [Hnd' Hpos']. split.
      * cbn [map fst]. apply NoDup_cons_2; [ | exact Hnd'].
        rewrite list_elem_of_In, counter_add_keys. intros [-> | Hin].
        -- rewrite String.eqb_refl in E. discriminate E.
        -- apply Hk. apply list_elem_of_In. exact Hin.
      * constructor; [exact Hn | exact Hpos'].
Qed.

Lemma update_well_formed (words : list string) (c : Counter) :
  well_formed c -> well_formed (update c words).
Proof.
  unfold update. revert c. induction words as [ | w words IH]; intros c Hc;
    [exact Hc | ].
  cbn [foldl]. apply IH, counter_add_well_formed, Hc.
Qed.

Lemma update_app (c : Counter) (a b : list string) :
  update c (a ++ b) = update (update c a) b.
Proof. unfold update. apply foldl_app. Qed.

Lemma counter_get_In (w : string) (n : nat) (c : Counter) :
  NoDup (map fst c) -> In (w, n) c -> counter_get w c = n.
Proof.
  induction c as [ | [k m] c IH]; [intros _ [] | ].
  cbn [map fst counter_get In]. intros Hnd Hin.
  apply NoDup_cons in Hnd. destruct Hnd as [Hk Hnd].
  destruct Hin as [[= -> ->] | Hin].
  - rewrite String.eqb_refl. reflexivity.
  - destruct (String.eqb k w) eqn:E; [ | exact (IH Hnd Hin)].
    apply String.eqb_eq in E. subst k. exfalso. apply Hk.
    apply list_elem_of_In. apply (in_map fst) in Hin. exact Hin.
Qed.

Lemma counter_get_keys (w : string) (c : Counter) :
  (1 <= counter_get w c)%nat -> In w (map fst c).
Proof.
  induction c as [ | [k m] c IH]; cbn [counter_get map fst In]; [lia | ].
  destruct (String.eqb k w) eqn:E.
  - apply String.eqb_eq in E. left. exact E.
  - intros H. right. exact (IH H).
Qed.

(** *** most_common *)

Lemma insert_by_count_perm (x : string * nat) (l : list (string * nat)) :
  Permutation (insert_by_count x l) (x :: l).
Proof.
  induction l as [ | y l IH]; cbn [insert_by_count]; [reflexivity | ].
  destruct (snd y <=? snd x)%nat; [reflexivity | ].
  rewrite IH. apply perm_swap.
Qed.

Lemma sorted_by_count_perm (c : Counter) : Permutation (sorted_by_count c) c.
Proof.
  unfold sorted_by_count. induction c as [ | x c IH]; cbn [foldr]; [reflexivity | ].
  rewrite insert_by_count_perm, IH. reflexivity.
Qed.

Lemma insert_by_count_sorted (x : string * nat) (l : list (string * nat)) :
  StronglySorted by_count l -> StronglySorted by_count (insert_by_count x l).
Proof.
  induction 1 as [ | y l Hl IH Hy]; cbn [insert_by_count].
  - repeat constructor.
  - destruct (Nat.leb_spec (snd y) (snd x)) as [Hle | Hgt].
    + constructor; [constructor; assumption | ].
      constructor; [exact Hle | ].
      rewrite List.Forall_forall in Hy |- *. intros z Hz.
      specialize (Hy z Hz). unfold by_count in *. lia.
    + constructor; [exact IH | ].
      rewrite List.Forall_forall in Hy |- *. intros z Hz.
      apply (Permutation_in _ (insert_by_count_perm x l)) in Hz.
      destruct Hz as [<- | Hz]; [unfold by_count; lia | exact (Hy z Hz)].
Qed.

Lemma sorted_by_count_sorted (c : Counter) :
  StronglySorted by_count (sorted_by_count c).
Proof.
  unfold sorted_by_count. induction c as [ | x c IH]; cbn [foldr].
  - constructor.
  - apply insert_by_count_sorted, IH.
Qed.

Lemma StronglySorted_app_inv {A} (R : A -> A -> Prop) (a b : list A) :
  StronglySorted R (a ++ b) ->
  StronglySorted R a /\ forall x y, In x a -> In y b -> R x y.
Proof.
  induction a as [ | z a IH]; cbn [app].
  - intros _. split; [constructor | intros x y []].
  - intros H. apply StronglySorted_inv in H. destruct H as [Hs Hz].
    destruct (IH Hs) as [Ha Hab]. split.
    + constructor; [exact Ha | ].
      rewrite List.Forall_forall in Hz |- *. intros x Hx. apply Hz.
      apply in_or_app. left. exact Hx.
    + intros x y [<- | Hx] Hy.
      * rewrite List.Forall_forall in Hz. apply Hz. apply in_or_app. right. exact Hy.
      * exact (Hab x y Hx Hy).
Qed.

(** What [most_common] returns: at most [n] items of the counter, by
    decreasing count, and no item left out has a higher count than one
    that was taken. *)
Lemma most_common_spec (n : nat) (c : Counter) :
  (length (most_common n c) <= n)%nat
  /\ StronglySorted by_count (most_common n c)
  /\ (forall kv, In kv (most_common n c) -> In kv c)
  /\ (NoDup (map fst c) -> NoDup (map fst (most_common n c)))
  /\ (forall kv, In kv c -> In kv (most_common n c)
                 \/ length (most_common n c) = n
                    /\ forall top, In top (most_common n c) -> by_count top kv).
Proof.
  unfold most_common.
  pose proof (sorted_by_count_perm c) as Hperm.
  pose proof (sorted_by_count_sorted c) as Hsort.
  rewrite <- (take_drop n (sorted_by_count c)) in Hsort.
  apply StronglySorted_app_inv in Hsort. destruct Hsort as [Hs Hcut].
  split; [rewrite length_take; lia | ].
  split; [exact Hs | ].
  split.
  { intros kv Hin. apply (Permutation_in _ Hperm).
    rewrite <- (take_drop n (sorted_by_count c)). apply in_or_app. left. exact Hin. }
  split.
  { intros Hnd.
    assert (Hnd' : NoDup (map fst (sorted_by_count c))).
    { pose proof (Permutation_map fst Hperm) as Hp. rewrite Hp. exact Hnd. }
    rewrite <- (take_drop n (sorted_by_count c)), map_app in Hnd'.
    apply NoDup_app in Hnd'. exact (proj1 Hnd'). }
  intros kv Hin. apply (Permutation_in _ (Permutation_sym Hperm)) in Hin.
  rewrite <- (take_drop n (sorted_by_count c)) in Hin.
  apply in_app_or in Hin. destruct Hin as [Hin | Hin]; [left; exact Hin | right].
  split.
  - rewrite length_take.
    destruct (Nat.le_gt_cases n (length (sorted_by_count c))) as [Hle | Hgt];
      [lia | ].
    rewrite drop_ge in Hin by lia. destruct Hin.
  - intros top Htop. exact (Hcut top kv Htop Hin).
Qed.

Lemma V_bind_Next {A B} (m : V A) (k : A -> V B) (out out1 : list string) (a : A) :
  m out = (out1, Next a) -> (m ≫= k) out = k a out1.
Proof. intros H. unfold mbind, V_bind. rewrite H. reflexivity. Qed.

Lemma V_bind_End {A B} (m : V A) (k : A -> V B) (out out1 : list string)
    (e : ending) :
  m out = (out1, End_ e) -> (m ≫= k) out = (out1, End_ e).
Proof. intros H. unfold mbind, V_bind. rewrite H. reflexivity. Qed.

Lemma count_titles_texts (titles : list pyval) (c : Counter) (out : list string) :
  forallb is_text titles = true ->
  count_titles c titles out = (out, Next (update c (title_words titles))).
Proof.
  revert c. induction titles as [ | v titles IH]; intros c Ht; [reflexivity | ].
  cbn [forallb] in Ht. apply andb_prop in Ht. destruct Ht as [Hv Ht].
  destruct v; try discriminate Hv.
  cbn [count_titles title_words flat_map]. rewrite (IH _ Ht), update_app.
  reflexivity.
Qed.

Lemma count_titles_returns (titles : list pyval) (c wc : Counter)
    (out out' : list string) :
  count_titles c titles out = (out', Next wc) ->
  out' = out /\ wc = update c (title_words titles).
Proof.
  revert c. induction titles as [ | v titles IH]; intros c.
  - intros [= <- <-]. split; reflexivity.
  - destruct v; try discriminate. cbn [count_titles title_words flat_map].
    intros H. destruct (IH _ H) as [-> ->]. rewrite update_app.
    split; reflexivity.
Qed.

Lemma update_nil_well_formed (words : list string) : well_formed (update [] words).
Proof. apply update_well_formed. split; constructor. Qed.

(** X12: every word that the loop over the titles hands to the bar
    chart is a run of word characters, not empty, in lower case, not a
    stopword and not a number; its count is the number of times it
    occurs among the counted words of all titles, and is at least one. *)
Theorem top_words_are_counted_words (titles : list pyval) (wc : Counter)
    (out out' : list string) (w : string) (n : nat) :
  count_titles [] titles out = (out', Next wc) ->
  In (w, n) (most_common 20 wc) ->
  n = count_occ string_dec (title_words titles) w
  /\ (1 <= n)%nat
  /\ w <> "" /\ all_chars is_word_char w = true /\ lower w = w
  /\ is_stopword w = false /\ isdigit w = false.
Proof.
  intros Hc Hin. destruct (count_titles_returns _ _ _ _ _ Hc) as [_ ->].
  destruct (most_common_spec 20 (update [] (title_words titles)))
    as (_ & _ & Hsub & _).
  apply Hsub in Hin.
  destruct (update_nil_well_formed (title_words titles)) as [Hnd Hpos].
  pose proof (counter_get_In _ _ _ Hnd Hin) as Hget.
  rewrite counter_get_update in Hget. cbn [counter_get] in Hget.
  rewrite List.Forall_forall in Hpos. specialize (Hpos _ Hin). cbn [snd] in Hpos.
  split; [lia | ]. split; [exact Hpos | ].
  apply (title_words_spec titles).
  apply (count_occ_In string_dec). lia.
Qed.

(** X13: the words handed to the bar chart are at most twenty, no word
    twice, by decreasing count; and a counted word that is left out
    means that twenty were taken, each at least as frequent as it. *)
Theorem top_words_are_the_most_frequent (titles : list pyval) (wc : Counter)
    (out out' : list string) :
  count_titles [] titles out = (out', Next wc) ->
  (length (most_common 20 wc) <= 20)%nat
  /\ NoDup (map fst (most_common 20 wc))
  /\ StronglySorted by_count (most_common 20 wc)
  /\ forall w, In w (title_words titles) ->
       In w (map fst (most_common 20 wc))
       \/ length (most_common 20 wc) = 20%nat
          /\ forall top, In top (most_common 20 wc) ->
               (count_occ string_dec (title_words titles) w <= snd top)%nat.
Proof.
  intros Hc. destruct (count_titles_returns _ _ _ _ _ Hc) as [_ ->].
  destruct (most_common_spec 20 (update [] (title_words titles)))
    as (Hlen & Hsort & _ & Hnd & Hcut).
  destruct (update_nil_well_formed (title_words titles)) as [Hwf _].
  split; [exact Hlen | ]. split; [exact (Hnd Hwf) | ]. split; [exact Hsort | ].
  intros w Hw.
  assert (Hcount : (1 <= counter_get w (update [] (title_words titles)))%nat).
  { rewrite counter_get_update. cbn [counter_get].
    apply (count_occ_In string_dec) in Hw. lia. }
  apply counter_get_keys in Hcount. apply in_map_iff in Hcount.
  destruct Hcount as ([w' n] & Hfst & Hin). cbn [fst] in Hfst. subst w'.
  pose proof (counter_get_In _ _ _ Hwf Hin) as Hget.
  rewrite counter_get_update in Hget. cbn [counter_get] in Hget.
  destruct (Hcut _ Hin) as [Htop | [Hfull Hle]].
  - left. apply in_map_iff. exists (w, n). split; [reflexivity | exact Htop].
  - right. split; [exact Hfull | ]. intros top Htop.
    specialize (Hle top Htop). unfold by_count in Hle. cbn [snd] in Hle. lia.
Qed.

Section ScriptClaims.

Context {json : JsonModule} {plot : Plotting}.

(** X14: when the frame of the posts has a title column but its titles
    hold no word that is counted (they are missing, or made of stopwords
    and numbers), the last visualization dies of [ValueError] at the
    unpacking of [zip], before the plotting library is called and
    before anything is saved or printed for it. *)
Theorem no_counted_word_breaks_the_last_plot (posts_df : DataFrame)
    (out : list string) :
  has_column "title" posts_df = true ->
  forallb is_text (column_dropna "title" posts_df) = true ->
  title_words (column_dropna "title" posts_df) = [] ->
  top_words posts_df out
  = (out ++ ["Generating plot for top words in post titles..."],
     End_ (Crashed (Builtin ValueError))).
Proof.
  intros Hcol Htext Hnone. unfold top_words. rewrite Hcol.
  unfold mbind at 1, V_bind at 1, print at 1.
  rewrite (V_bind_Next _ _ _ _ _ (count_titles_texts _ [] _ Htext)).
  rewrite Hnone. reflexivity.
Qed.

Lemma load_missing (files : gmap string file) (file_path : string)
    (out : list string) :
  files !! file_path = None ->
  load files file_path out = (out ++ [missing_file_line file_path], End_ Exited).
Proof.
  intros Hf. unfold load, load_jsonl. rewrite Hf. reflexivity.
Qed.

Lemma documents_malformed (lines : list string) :
  Forall (fun line => malformed_line line = true) lines ->
  documents lines = []
  /\ Forall (fun line => tolerated_line line = true) lines.
Proof.
  induction 1 as [ | line lines Hline _ [IH1 IH2]]; [split; [reflexivity | constructor] | ].
  split.
  - unfold documents in *. cbn [omap list_omap]. unfold malformed_line in Hline.
    destruct (json_loads line); [discriminate Hline | exact IH1].
  - constructor; [ | exact IH2]. unfold tolerated_line. rewrite Hline.
    apply orb_true_r.
Qed.

Lemma load_no_document (files : gmap string file) (file_path content : string)
    (out : list string) :
  files !! file_path = Some (Text content) ->
  Forall (fun line => malformed_line line = true) (text_lines content) ->
  load files file_path out
  = (out ++ skip_messages file_path (text_lines content), Next []).
Proof.
  intros Hf Hbad. destruct (documents_malformed _ Hbad) as [Hnone Hl].
  unfold load. rewrite (load_jsonl_tolerated _ _ _ Hf Hl).
  cbn [end_of lines_of]. rewrite Hnone. reflexivity.
Qed.

(** X15: when both files exist and are text, and [json.loads] rejects
    every line of them with [JSONDecodeError], the script reports each
    line, skips all four visualizations, and still ends by announcing
    that all visualizations were generated and saved; the plotting
    library is never called. *)
Theorem files_without_documents_plot_nothing (files : gmap string file)
    (posts comments : string) :
  files !! "posts_async.jsonl" = Some (Text posts) ->
  files !! "comments_async.jsonl" = Some (Text comments) ->
  Forall (fun line => malformed_line line = true) (text_lines posts) ->
  Forall (fun line => malformed_line line = true) (text_lines comments) ->
  script files []
  = (skip_messages "posts_async.jsonl" (text_lines posts)
     ++ skip_messages "comments_async.jsonl" (text_lines comments)
     ++ all_skipped, Next ()).
Proof.
  intros Hp Hc Hnp Hnc. unfold script.
  rewrite (V_bind_Next _ _ _ _ _ (load_no_document _ _ _ _ Hp Hnp)).
  rewrite (V_bind_Next _ _ _ _ _ (load_no_document _ _ _ _ Hc Hnc)).
  cbn [app]. unfold over_time, post_scores, comment_scores, top_words.
  cbn [has_column existsb andb].
  unfold mbind, V_bind, print, all_skipped. cbn [len length Z.of_nat].
  rewrite <- !app_assoc. reflexivity.
Qed.

End ScriptClaims.

(** X12 on two titles: [fox] is counted three times, in whatever case
    it was written. *)
Lemma top_words_are_counted_words_witness :
  3%nat = count_occ string_dec (title_words Example.titles) "fox"
  /\ (1 <= 3)%nat
  /\ "fox" <> "" /\ all_chars is_word_char "fox" = true /\ lower "fox" = "fox"
  /\ is_stopword "fox" = false /\ isdigit "fox" = false.
Proof.
  apply (top_words_are_counted_words Example.titles
           [("quick", 2%nat); ("fox", 3%nat)] [] [] "fox" 3).
  - vm_compute. reflexivity.
  - vm_compute. left. reflexivity.
Defined.

(** X13 on the same two titles. *)
Lemma top_words_are_the_most_frequent_witness :
  (length (most_common 20 [("quick", 2%nat); ("fox", 3%nat)]) <= 20)%nat
  /\ NoDup (map fst (most_common 20 [("quick", 2%nat); ("fox", 3%nat)]))
  /\ StronglySorted by_count (most_common 20 [("quick", 2%nat); ("fox", 3%nat)])
  /\ forall w, In w (title_words Example.titles) ->
       In w (map fst (most_common 20 [("quick", 2%nat); ("fox", 3%nat)]))
       \/ length (most_common 20 [("quick", 2%nat); ("fox", 3%nat)]) = 20%nat
          /\ forall top, In top (most_common 20 [("quick", 2%nat); ("fox", 3%nat)]) ->
               (count_occ string_dec (title_words Example.titles) w <= snd top)%nat.
Proof.
  apply (top_words_are_the_most_frequent Example.titles
           [("quick", 2%nat); ("fox", 3%nat)] [] []).
  vm_compute. reflexivity.
Defined.

(** X14 on a frame whose only title reads [The 2024]. *)
Lemma no_counted_word_breaks_the_last_plot_witness :
  top_words (plot := Example.plots_fine) Example.dull_frame []
  = ([] ++ ["Generating plot for top words in post titles..."],
     End_ (Crashed (Builtin ValueError))).
Proof.
  apply (no_counted_word_breaks_the_last_plot (plot := Example.plots_fine)
           Example.dull_frame []).
  - vm_compute. reflexivity.
  - vm_compute. reflexivity.
  - vm_compute. reflexivity.
Defined.

(** X15 on an empty posts file and a comments file of one broken line. *)
Lemma files_without_documents_plot_nothing_witness :
  script (plot := Example.plots_fine)
    {[ "posts_async.jsonl" := Text "";
       "comments_async.jsonl" := Text ("{broken" +:+ newline) ]} []
  = (skip_messages "posts_async.jsonl" (text_lines "")
     ++ skip_messages "comments_async.jsonl" (text_lines ("{broken" +:+ newline))
     ++ all_skipped, Next ()).
Proof.
  apply (files_without_documents_plot_nothing (plot := Example.plots_fine)
           {[ "posts_async.jsonl" := Text "";
              "comments_async.jsonl" := Text ("{broken" +:+ newline) ]}
           "" ("{broken" +:+ newline)).
  - vm_compute. reflexivity.
  - vm_compute. reflexivity.
  - apply Forall_of_forallb. vm_compute. reflexivity.
  - apply Forall_of_forallb. vm_compute. reflexivity.
Defined.

(** ** From the scraper to the analyzer *)

Lemma new_DataFrame_post_records (ps : list pyval) :
  Forall is_post_record ps ->
  exists df, new_DataFrame ps = Some df
             /\ length df = length ps
             /\ (ps <> [] -> has_column "created_utc" df = true
                             /\ has_column "score" df = true
                             /\ has_column "title" df = true).
Proof.
  induction 1 as [ | r ps Hr _ IH].
  - exists []. repeat split; congruence.
  - destruct IH as (df & Hdf & Hlen & _).
    destruct Hr as (post & created & cs & -> & _).
    cbn [new_DataFrame as_row post_record new_comment_data]. rewrite Hdf.
    eexists. split; [reflexivity | ]. cbn [length]. rewrite Hlen.
    split; [reflexivity | ]. intros _. repeat split.
Qed.

Lemma new_DataFrame_comment_records (cms : list pyval) :
  Forall is_comment_record cms ->
  exists df, new_DataFrame cms = Some df
             /\ length df = length cms
             /\ (cms <> [] -> has_column "created_utc" df = true
                              /\ has_column "score" df = true).
Proof.
  induction 1 as [ | r cms Hr _ IH].
  - exists []. repeat split; congruence.
  - destruct IH as (df & Hdf & Hlen & _).
    destruct Hr as (post & comment & created & ->).
    cbn [new_DataFrame as_row post_record new_comment_data]. rewrite Hdf.
    eexists. split; [reflexivity | ]. cbn [length]. rewrite Hlen.
    split; [reflexivity | ]. intros _. repeat split.
Qed.

Section Pipeline.

Context {json : JsonModule} {laws : JsonRoundTrip json} {plot : Plotting}.

(** X16: after a run that returns with at least one post and one
    comment, the analyzer started in [nu_eta] loads both files without
    skipping a line, finds as many posts as [post_count] says and as
    many comments as the run collected, and finds every column that its
    four visualizations ask for: none of them is skipped. *)
Theorem analyzer_finds_every_column (reddit : Reddit)
    (files : gmap string string) (local : gmap string file) (st' : state) :
  scrape_subreddit reddit (start files) = (st', Ok ()) ->
  all_posts_data st' <> [] ->
  all_comments_data st' <> [] ->
  started_in_nu_eta (fs st') local ->
  exists posts_df comments_df,
    load local "posts_async.jsonl" [] = ([], Next posts_df)
    /\ load local "comments_async.jsonl" [] = ([], Next comments_df)
    /\ len posts_df = post_count st'
    /\ len comments_df = Z.of_nat (length (all_comments_data st'))
    /\ has_column "created_utc" posts_df = true
    /\ has_column "created_utc" comments_df = true
    /\ has_column "score" posts_df = true
    /\ has_column "score" comments_df = true
    /\ has_column "title" posts_df = true.
Proof.
  intros Hrun Hps Hcms [Hlp Hlc].
  destruct (run_files reddit files st' Hrun) as (Hp & Hc & _).
  specialize (Hp Hps). specialize (Hc Hcms).
  destruct (run_records_have_distinct_keys reddit files st' Hrun) as [Hdp Hdc].
  destruct (scrape_returns _ _ _ Hrun) as (_ & _ & Hrec & _).
  destruct (new_DataFrame_post_records _ (records_are_post_records _ _ _ Hrec))
    as (posts_df & Hpdf & Hplen & Hpcol).
  destruct (new_DataFrame_comment_records _ (records_are_comment_records _ _ _ Hrec))
    as (comments_df & Hcdf & Hclen & Hccol).
  destruct (Hpcol Hps) as (H1 & H2 & H3). destruct (Hccol Hcms) as (H4 & H5).
  exists posts_df, comments_df.
  assert (Hloadp : load_jsonl local "posts_async.jsonl"
                   = ([], Ok (all_posts_data st'))).
  { apply records_load_back; [ | exact Hdp].
    rewrite Hlp, on_disk_lookup, Hp. reflexivity. }
  assert (Hloadc : load_jsonl local "comments_async.jsonl"
                   = ([], Ok (all_comments_data st'))).
  { apply records_load_back; [ | exact Hdc].
    rewrite Hlc, on_disk_lookup, Hc. reflexivity. }
  split; [unfold load; rewrite Hloadp, Hpdf; reflexivity | ].
  split; [unfold load; rewrite Hloadc, Hcdf; reflexivity | ].
  split.
  { unfold len. rewrite Hplen.
    rewrite (scrape_post_count _ _ _ Hrun).
    destruct (records_of_posts _ _ _ Hrec) as [-> _]. reflexivity. }
  split; [unfold len; rewrite Hclen; reflexivity | ].
  repeat split; assumption.
Qed.

End Pipeline.

Section PipelineWithoutComments.

Context {json : JsonModule} {laws : JsonRoundTrip json} {plot : Plotting}.

(** X17: after a run that returns with posts but without any comment,
    in a directory that held no comments file, the analyzer started in
    [nu_eta] finds the posts, fails to open the comments file (the
    scraper does not write an empty one), prints the error line and
    exits; it plots nothing, whatever the plotting library. *)
Theorem posts_without_comments_stop_the_analyzer (reddit : Reddit)
    (files : gmap string string) (local : gmap string file) (st' : state) :
  scrape_subreddit reddit (start files) = (st', Ok ()) ->
  all_posts_data st' <> [] ->
  all_comments_data st' = [] ->
  files !! COMMENTS_FILE = None ->
  started_in_nu_eta (fs st') local ->
  script local [] = ([missing_file_line "comments_async.jsonl"], End_ Exited).
Proof.
  intros Hrun Hps Hcms Hold [Hlp Hlc].
  destruct (run_files reddit files st' Hrun) as (Hp & _ & Hc).
  specialize (Hp Hps). specialize (Hc Hcms).
  destruct (run_records_have_distinct_keys reddit files st' Hrun) as [Hdp _].
  destruct (scrape_returns _ _ _ Hrun) as (_ & _ & Hrec & _).
  destruct (new_DataFrame_post_records _ (records_are_post_records _ _ _ Hrec))
    as (posts_df & Hpdf & _).
  assert (Hloadp : load local "posts_async.jsonl" [] = ([], Next posts_df)).
  { unfold load.
    rewrite (records_load_back local "posts_async.jsonl" (all_posts_data st'))
      by (rewrite ?Hlp, ?on_disk_lookup, ?Hp; (reflexivity || assumption)).
    rewrite Hpdf. reflexivity. }
  assert (Hnone : local !! "comments_async.jsonl" = None).
  { rewrite Hlc, on_disk_lookup, Hc, Hold. reflexivity. }
  unfold script.
  rewrite (V_bind_Next _ _ _ _ _ Hloadp).
  rewrite (V_bind_End _ _ _ _ _ (load_missing _ _ _ Hnone)). reflexivity.
Qed.

End PipelineWithoutComments.

(** X16 on the example forum. *)
Lemma analyzer_finds_every_column_witness :
  exists posts_df comments_df,
    load (Example.nu_eta Example.forum) "posts_async.jsonl" [] = ([], Next posts_df)
    /\ load (Example.nu_eta Example.forum) "comments_async.jsonl" []
       = ([], Next comments_df)
    /\ len posts_df = post_count (fst (scrape_subreddit Example.forum (start ∅)))
    /\ len comments_df
       = Z.of_nat (length (all_comments_data
                             (fst (scrape_subreddit Example.forum (start ∅)))))
    /\ has_column "created_utc" posts_df = true
    /\ has_column "created_utc" comments_df = true
    /\ has_column "score" posts_df = true
    /\ has_column "score" comments_df = true
    /\ has_column "title" posts_df = true.
Proof.
  apply (analyzer_finds_every_column (laws := reference_round_trip)
           Example.forum ∅ (Example.nu_eta Example.forum)
           (fst (scrape_subreddit Example.forum (start ∅)))).
  - apply returned. vm_compute. reflexivity.
  - vm_compute. discriminate.
  - vm_compute. discriminate.
  - split; vm_compute; reflexivity.
Defined.

(** X17 on a forum of two posts without comments. *)
Lemma posts_without_comments_stop_the_analyzer_witness :
  script (plot := Example.plots_fine) (Example.nu_eta Example.silent_forum) []
  = ([missing_file_line "comments_async.jsonl"], End_ Exited).
Proof.
  apply (posts_without_comments_stop_the_analyzer (laws := reference_round_trip)
           (plot := Example.plots_fine)
           Example.silent_forum ∅ (Example.nu_eta Example.silent_forum)
           (fst (scrape_subreddit Example.silent_forum (start ∅)))).
  - apply returned. vm_compute. reflexivity.
  - vm_compute. discriminate.
  - vm_compute. reflexivity.
  - reflexivity.
  - split; vm_compute; reflexivity.
Defined.
